(** * sdkgen HTTP server: a shallow embedding of [src/http-server.ts]

    The development follows the class [SdkgenHttpServer]: the route table
    ([addHttpHandler], [findBestHandler]), the protocol normaliser
    ([identifyRequestVersion], [parseRequest], [parseRequestV1..V3]), the
    dispatcher ([handleRequest], [handleRequestWithBody]) and the reply
    writer ([writeReply]).

    JavaScript values are an inductive type with the language's truthiness,
    numbers are IEEE binary64 floats, exceptions are results in a sum type,
    and the mutable pieces (the response object, the console, the host's
    state with its entropy and clock) are threaded through a state and
    error monad.  What the class imports from the platform (JSON, crypto,
    os, url, request-ip), from the codec module and from the host
    application (function table, hooks) is an interface the definitions are
    parameterised by. *)

From Stdlib Require Import String Ascii List ZArith NArith Lia Bool.
From Stdlib Require Import Floats.PrimFloat.
From Stdlib Require Import Strings.Byte.
From Stdlib Require Import DecimalString.
From Stdlib Require Import Sorting.Sorted.
Import ListNotations.
Local Open Scope string_scope.

Set Implicit Arguments.

(* ================================================================= *)
(** ** JavaScript values *)

(** The values that flow through the server: what [JSON.parse] produces,
    plus [undefined] (the result of reading a property that is not there). *)
#[local] Set Warnings "-register-all".
Inductive value : Type :=
| VUndefined
| VNull
| VBool (b : bool)
| VNum (n : float)
| VStr (s : string)
| VArr (elems : list value)
| VObj (props : list (string * value)).

(** [ToBoolean]: what [!v], [v || w] and [v ? a : b] test. *)
Definition truthy (v : value) : bool :=
  match v with
  | VUndefined | VNull => false
  | VBool b => b
  | VNum n => negb (PrimFloat.eqb n 0 || PrimFloat.is_nan n)
  | VStr s => negb (s =? "")
  | VArr _ | VObj _ => true
  end.

(** [a || b] on values whose right operand has no effect. *)
Definition or_else (a b : value) : value := if truthy a then a else b.

(** [v === k] for a number literal [k]. *)
Definition strict_eq_num (v : value) (k : float) : bool :=
  match v with
  | VNum n => PrimFloat.eqb n k
  | _ => false
  end.

(** Own properties of an object, first binding of a key. *)
Fixpoint lookup (k : string) (props : list (string * value)) : option value :=
  match props with
  | [] => None
  | (k', v) :: rest => if k' =? k then Some v else lookup k rest
  end.

Definition has_key (k : string) (props : list (string * value)) : bool :=
  match lookup k props with Some _ => true | None => false end.

(* ================================================================= *)
(** ** Exceptions *)

(** A thrown error object: its [name], its sdkgen [type] (business errors
    carry one) and its [message].  A thrown primitive other than
    [undefined] and [null] reads the same way with no [type] and no
    [message] (a thrown string [s] as [mkExn "" None s]).  A thrown
    [undefined] or [null] is outside this type: reading [e.type] or calling
    [e.toString()] on it throws in turn, inside the [catch] block that
    does so.
    The hooks, the functions and the codec are taken to throw values of
    this type. *)
Record Exn : Type := mkExn {
  exn_name : string;
  exn_type : option string;
  exn_message : string
}.

Definition Error (msg : string) : Exn := mkExn "Error" None msg.
Definition TypeError (msg : string) : Exn := mkExn "TypeError" None msg.
Definition SyntaxError (msg : string) : Exn := mkExn "SyntaxError" None msg.

(** [Error.prototype.toString]. *)
Definition exn_toString (e : Exn) : string :=
  if exn_name e =? "" then exn_message e
  else if exn_message e =? "" then exn_name e
  else exn_name e ++ ": " ++ exn_message e.

(** [e.type || "Fatal"] *)
Definition exn_type_or_Fatal (e : Exn) : string :=
  match exn_type e with
  | Some t => if t =? "" then "Fatal" else t
  | None => "Fatal"
  end.

(** [e.message || e.toString()] *)
Definition exn_message_or_toString (e : Exn) : string :=
  if exn_message e =? "" then exn_toString e else exn_message e.

(** Reading the property [k] of an object with the own properties
    [props]: [undefined] when it is not there. *)
Definition prop (k : string) (props : list (string * value)) : value :=
  match lookup k props with Some v => v | None => VUndefined end.

(** [o.k]: reading a property of [undefined] or [null] throws; the keys
    read by the server are not properties of the primitive wrappers or of
    arrays. *)
Definition get (o : value) (k : string) : Exn + value :=
  match o with
  | VUndefined => inl (TypeError ("Cannot read property '" ++ k ++ "' of undefined"))
  | VNull => inl (TypeError ("Cannot read property '" ++ k ++ "' of null"))
  | VObj props => inr (prop k props)
  | _ => inr VUndefined
  end.

(** A field that is not there, or is [null]. *)
Definition missing (v : value) : Prop := v = VUndefined \/ v = VNull.

(** [k in o]: defined on objects (arrays included), a [TypeError] on
    anything else. *)
Definition has_in (k : string) (o : value) : Exn + bool :=
  match o with
  | VObj props => inr (has_key k props)
  | VArr _ => inr false
  | _ => inl (TypeError ("Cannot use 'in' operator to search for '" ++ k ++ "'"))
  end.

(** Decimal rendering of an array index, as a property key. *)
Definition index_key (i : nat) : string :=
  NilEmpty.string_of_uint (Nat.to_uint i).

Fixpoint index_from (i : nat) (l : list value) : list (string * value) :=
  match l with
  | [] => []
  | v :: rest => (index_key i, v) :: index_from (S i) rest
  end.

Fixpoint chars_from (i : nat) (s : string) : list (string * value) :=
  match s with
  | EmptyString => []
  | String c rest => (index_key i, VStr (String c EmptyString)) :: chars_from (S i) rest
  end.

(** [{...v}]: the own enumerable properties of [v], copied into a fresh
    object; a number, a boolean, [null] and [undefined] have none. *)
Definition spread (v : value) : list (string * value) :=
  match v with
  | VObj props => props
  | VArr l => index_from 0 l
  | VStr s => chars_from 0 s
  | _ => []
  end.

(** The names of the members every plain object inherits from
    [Object.prototype]; a read [o[name]] finds them on an object that has
    no own entry of that name. *)
Definition Object_prototype : list string :=
  ["constructor"; "__defineGetter__"; "__defineSetter__"; "hasOwnProperty";
   "__lookupGetter__"; "__lookupSetter__"; "isPrototypeOf";
   "propertyIsEnumerable"; "toString"; "valueOf"; "__proto__";
   "toLocaleString"].

(* ================================================================= *)
(** ** Hex rendering of random bytes: [buf.toString("hex")] *)

Definition hexDigit (d : N) : ascii :=
  match d with
  | 0%N => "0" | 1%N => "1" | 2%N => "2" | 3%N => "3"
  | 4%N => "4" | 5%N => "5" | 6%N => "6" | 7%N => "7"
  | 8%N => "8" | 9%N => "9" | 10%N => "a" | 11%N => "b"
  | 12%N => "c" | 13%N => "d" | 14%N => "e" | _ => "f"
  end%char.

Definition isHexChar (c : ascii) : bool :=
  existsb (Ascii.eqb c)
    ["0"; "1"; "2"; "3"; "4"; "5"; "6"; "7"; "8"; "9";
     "a"; "b"; "c"; "d"; "e"; "f"]%char.

Fixpoint toHex (buf : list byte) : string :=
  match buf with
  | [] => EmptyString
  | b :: rest =>
      let n := Byte.to_N b in
      String (hexDigit (N.div n 16)) (String (hexDigit (N.modulo n 16)) (toHex rest))
  end.

Definition unhexDigit (c : ascii) : N :=
  let n := N_of_ascii c in
  if (n <? 58)%N then n - 48 else n - 87.

(** Inverse of [toHex], used to show that distinct buffers render to
    distinct tokens. *)
Fixpoint fromHex (s : string) : list (option byte) :=
  match s with
  | String hi (String lo rest) =>
      Byte.of_N (unhexDigit hi * 16 + unhexDigit lo) :: fromHex rest
  | _ => []
  end.

Fixpoint allChars (p : ascii -> bool) (s : string) : bool :=
  match s with
  | EmptyString => true
  | String c rest => p c && allChars p rest
  end.

(* ================================================================= *)
(** ** Schemas handed to the codec *)

(** A type description: a type name (["string"], ["any?"], the name of an
    entry of the type table, ...) or an object of named fields;
    [TUndefined] is what reading [.args] or [.ret] gives on a value that
    has no such field. *)
Inductive TypeDescription : Type :=
| TName (name : string)
| TObject (fields : list (string * TypeDescription))
| TUndefined.

Definition TypeTable : Type := list (string * TypeDescription).

(** The codec module ([./encode-decode]): called as a black box with a type
    table, a path, a type and a value; fails with a decoding error on a
    mismatch. *)
Record Codec : Type := {
  decode : TypeTable -> string -> TypeDescription -> value -> Exn + value;
  encode : TypeTable -> string -> TypeDescription -> value -> Exn + value
}.

(* ================================================================= *)
(** ** Requests, replies and the response object *)

Definition Headers : Type := list (string * string).

(** [http.IncomingMessage], with the body chunks its "data" events carry. *)
Record IncomingMessage : Type := {
  req_method : string;
  req_url : option string;
  req_headers : Headers;
  req_chunks : list string
}.

Record DeviceInfo : Type := {
  dev_id : value;
  dev_language : value;
  dev_platform : value;
  dev_timezone : value;
  dev_type : value;
  dev_version : value
}.

(** [ContextRequest]: the canonical request. *)
Record ContextRequest : Type := {
  version : Z;
  id : value;
  args : value;
  name : value;
  extra : value;
  headers : Headers;
  deviceInfo : DeviceInfo
}.

Record ReplyError : Type := {
  err_type : string;
  err_message : string
}.

(** [ContextReply]: [{ result?: any, error?: { type, message } }]. *)
Record ContextReply : Type := {
  result : option value;
  error : option ReplyError
}.

Definition error_value (e : ReplyError) : value :=
  VObj [("type", VStr (err_type e)); ("message", VStr (err_message e))].

(** [reply.error || null] *)
Definition error_or_null (r : ContextReply) : value :=
  match error r with Some e => error_value e | None => VNull end.

(** [reply.result || null] *)
Definition result_or_null (r : ContextReply) : value :=
  match result r with Some v => or_else v VNull | None => VNull end.

(** [http.ServerResponse]: status (200 until set), headers, the chunks
    written so far and whether [end()] was called. *)
Record ServerResponse : Type := {
  statusCode : Z;
  res_headers : Headers;
  written : list string;
  ended : bool
}.

Definition newResponse : ServerResponse :=
  {| statusCode := 200; res_headers := []; written := []; ended := false |}.

(* ================================================================= *)
(** ** The platform *)

(** [RegExp]: a pattern is used through the leftmost match it finds in a
    string, given as the index where the match starts and the matched
    text. [String.prototype.search] returns the index and
    [String.prototype.match] the text (element 0 of its result). *)
Record RegExp : Type := {
  exec : string -> option (nat * string)
}.

(** [path.search(re)]: index of the leftmost match, or -1. *)
Definition search (path : string) (re : RegExp) : Z :=
  match exec re path with
  | Some (i, _) => Z.of_nat i
  | None => (-1)%Z
  end.

(** [path.match(re)]: the match (its element 0), or [null]. *)
Definition match_ (path : string) (re : RegExp) : option string :=
  match exec re path with
  | Some (_, m) => Some m
  | None => None
  end.

(** What the class imports from the runtime and from npm packages. The
    host state [W] carries the entropy pool, the clocks and whatever the
    host application keeps. *)
Record Platform (W : Type) : Type := {
  JSON_parse : string -> Exn + value;
  JSON_stringify : value -> string;
  Number_toString : float -> string;
  toFixed : float -> nat -> string;
  randomByte : W -> byte * W;
  hrtime : W -> (float * float) * W;
  hrtime_since : float * float -> W -> (float * float) * W;
  now_toISOString : W -> string * W;
  hostname : string;
  getClientIp : IncomingMessage -> option string;
  parseUrl_pathname : string -> option string
}.

(** [crypto.randomBytes(n)]: [n] bytes drawn one after the other. *)
Fixpoint randomBytes {W} (P : Platform W) (n : nat) (w : W) : list byte * W :=
  match n with
  | O => ([], w)
  | S k =>
      let (b, w1) := randomByte P w in
      let (bs, w2) := randomBytes P k w1 in
      (b :: bs, w2)
  end.

(* ================================================================= *)
(** ** The state and error monad *)

Section Monad.
Variable W : Type.

(** One connection: the host state, the response being built, and the
    lines printed on the console. *)
Record State : Type := {
  host : W;
  res : ServerResponse;
  console : list string
}.

(** A computation either returns or throws; the state it leaves behind
    is kept in both cases. *)
Definition M (A : Type) : Type := State -> (Exn + A) * State.

Definition ret {A} (a : A) : M A := fun s => (inr a, s).
Definition throw {A} (e : Exn) : M A := fun s => (inl e, s).

Definition bind {A B} (m : M A) (k : A -> M B) : M B :=
  fun s =>
    match m s with
    | (inr a, s1) => k a s1
    | (inl e, s1) => (inl e, s1)
    end.

(** [try { m } catch (e) { h e }] *)
Definition try_catch {A} (m : M A) (h : Exn -> M A) : M A :=
  fun s =>
    match m s with
    | (inl e, s1) => h e s1
    | r => r
    end.

(** A pure step that may throw. *)
Definition lift {A} (r : Exn + A) : M A :=
  match r with
  | inr a => ret a
  | inl e => throw e
  end.

Definition with_host (w : W) (s : State) : State :=
  {| host := w; res := res s; console := console s |}.

(** A step on the host state that cannot throw. *)
Definition on_host {A} (f : W -> A * W) : M A :=
  fun s => (inr (fst (f (host s))), with_host (snd (f (host s))) s).

(** A step on the host state that may throw (a hook, a function). *)
Definition call_host {A} (f : W -> (Exn + A) * W) : M A :=
  fun s => (fst (f (host s)), with_host (snd (f (host s))) s).

Definition modify_res (f : ServerResponse -> ServerResponse) : M unit :=
  fun s => (inr tt, {| host := host s; res := f (res s); console := console s |}).

(** [console.log(line)] *)
Definition console_log (line : string) : M unit :=
  fun s => (inr tt, {| host := host s; res := res s; console := console s ++ [line] |}).
End Monad.

Arguments ret {W A} a.
Arguments throw {W A} e.
Arguments lift {W A} r.
Arguments modify_res {W} f.
Arguments console_log {W} line.

Declare Scope monad_scope.
Delimit Scope monad_scope with monad.
Notation "x <- m ;; k" := (bind m (fun x => k))
  (at level 100, m at next level, right associativity) : monad_scope.
Notation "m ;;; k" := (bind m (fun _ => k))
  (at level 100, right associativity) : monad_scope.
Local Open Scope monad_scope.

(* ----------------------------------------------------------------- *)
(** *** Operations on the response object *)

(** [res.setHeader(name, value)]: header names are case-insensitive and a
    second set replaces the first. *)
Fixpoint set_header (k v : string) (h : Headers) : Headers :=
  match h with
  | [] => [(k, v)]
  | (k', v') :: rest => if k' =? k then (k, v) :: rest else (k', v') :: set_header k v rest
  end.

Definition lower_ascii (c : ascii) : ascii :=
  let n := nat_of_ascii c in
  if (65 <=? n)%nat && (n <=? 90)%nat then ascii_of_nat (n + 32) else c.

Fixpoint toLowerCase (s : string) : string :=
  match s with
  | EmptyString => EmptyString
  | String c rest => String (lower_ascii c) (toLowerCase rest)
  end.

Definition setHeader {W} (k v : string) : M W unit :=
  modify_res (fun r =>
    {| statusCode := statusCode r; res_headers := set_header (toLowerCase k) v (res_headers r);
       written := written r; ended := ended r |}).

(** [res.statusCode = code] and [res.writeHead(code)]. *)
Definition setStatus {W} (code : Z) : M W unit :=
  modify_res (fun r =>
    {| statusCode := code; res_headers := res_headers r;
       written := written r; ended := ended r |}).

(** [res.write(chunk)] *)
Definition write {W} (chunk : string) : M W unit :=
  modify_res (fun r =>
    {| statusCode := statusCode r; res_headers := res_headers r;
       written := written r ++ [chunk]; ended := ended r |}).

(** [res.end()] *)
Definition end_ {W} : M W unit :=
  modify_res (fun r =>
    {| statusCode := statusCode r; res_headers := res_headers r;
       written := written r; ended := true |}).

(* ================================================================= *)
(** ** The server *)

(** What a template literal does to a value: [ToString]. *)
Fixpoint String_of (numstr : float -> string) (v : value) : string :=
  match v with
  | VUndefined => "undefined"
  | VNull => "null"
  | VBool true => "true"
  | VBool false => "false"
  | VNum n => numstr n
  | VStr s => s
  | VArr l =>
      String.concat ","
        (map (fun e => match e with
                       | VUndefined | VNull => ""
                       | _ => String_of numstr e
                       end) l)
  | VObj _ => "[object Object]"
  end.

(** [path.slice(n)] *)
Fixpoint slice (n : nat) (s : string) : string :=
  match n, s with
  | O, _ => s
  | S k, String _ rest => slice k rest
  | S _, EmptyString => EmptyString
  end.

(** [array.sort(compare)]: a stable sort; [x] goes before the first [y]
    with [compare x y <= 0]. *)
Fixpoint insert {A} (compare : A -> A -> Z) (x : A) (l : list A) : list A :=
  match l with
  | [] => [x]
  | y :: rest =>
      if (compare x y <=? 0)%Z then x :: y :: rest
      else y :: insert compare x rest
  end.

Fixpoint sort {A} (compare : A -> A -> Z) (l : list A) : list A :=
  match l with
  | [] => []
  | x :: rest => insert compare x (sort compare rest)
  end.

Section Server.
Variable W : Type.
Variable ExtraContextT : Type.
Variable P : Platform W.
Variable C : Codec.

(** [Context & ExtraContextT] *)
Record Context : Type := {
  extra_fields : ExtraContextT;
  ip : string;
  request : ContextRequest;
  hrStart : float * float
}.

Record FunctionDescription : Type := {
  fd_args : TypeDescription;
  fd_ret : TypeDescription
}.

(** [BaseApiConfig]: the interface description ([astJson]), the
    implementations ([fn]) and the hooks; a hook answers [None] for an
    empty ([null]) reply.  [functionTable] and [fn] are the own entries of
    the objects [astJson.functionTable] and [fn]; [functionTable_inherited]
    and [fn_inherited] are the members these two objects inherit through
    their prototype chain (for a plain object the members of
    [Object.prototype]: [toString], [constructor], [__proto__], ...).  An
    inherited member that is not callable is a function that throws a
    [TypeError]. *)
Record BaseApiConfig : Type := {
  typeTable : TypeTable;
  functionTable : string -> option FunctionDescription;
  functionTable_inherited : string -> option FunctionDescription;
  fn : string -> option (Context -> value -> W -> (Exn + value) * W);
  fn_inherited : string -> option (Context -> value -> W -> (Exn + value) * W);
  onHealthCheck : W -> (Exn + bool) * W;
  onRequestStart : Context -> W -> (Exn + option ContextReply) * W;
  onRequestEnd : Context -> ContextReply -> W -> (Exn + option ContextReply) * W
}.

(** [table[name]] on an object: the own entry of that name, else the
    member of that name the object inherits. *)
Definition member (A : Type) (own inherited : string -> option A) (k : string)
    : option A :=
  match own k with
  | Some a => Some a
  | None => inherited k
  end.

Inductive Matcher : Type :=
| MString (s : string)
| MRegExp (re : RegExp).

Record HandlerEntry : Type := {
  h_method : string;
  matcher : Matcher;
  handler : IncomingMessage -> string -> M W unit
}.

Record SdkgenHttpServer : Type := {
  apiConfig : BaseApiConfig;
  extraContext : ExtraContextT;
  cors_headers : Headers;
  handlers : list HandlerEntry;
  dynamicCorsOrigin : bool;
  ignoredUrlPrefix : string
}.

Definition ignoreUrlPrefix (this : SdkgenHttpServer) (urlPrefix : string) : SdkgenHttpServer :=
  {| apiConfig := apiConfig this; extraContext := extraContext this;
     cors_headers := cors_headers this; handlers := handlers this;
     dynamicCorsOrigin := dynamicCorsOrigin this; ignoredUrlPrefix := urlPrefix |}.

Definition addHttpHandler (this : SdkgenHttpServer) (method : string) (m : Matcher)
    (h : IncomingMessage -> string -> M W unit) : SdkgenHttpServer :=
  {| apiConfig := apiConfig this; extraContext := extraContext this;
     cors_headers := cors_headers this;
     handlers := handlers this ++ [{| h_method := method; matcher := m; handler := h |}];
     dynamicCorsOrigin := dynamicCorsOrigin this; ignoredUrlPrefix := ignoredUrlPrefix this |}.

(* --------------------------------------------------------------- *)
(** *** findBestHandler *)

(** The second filter: a string equals the path, a pattern finds its
    leftmost match at index 0. *)
Definition matches (path : string) (m : Matcher) : bool :=
  match m with
  | MString s => s =? path
  | MRegExp re => (search path re =? 0)%Z
  end.

(** [path.match(re)![0].length]; the match is there for every entry that
    passed the filter (lemma [matches_regexp_match]). *)
Definition matchLength (path : string) (re : RegExp) : Z :=
  match match_ path re with
  | Some m => Z.of_nat (String.length m)
  | None => 0
  end.

Definition compareHandlers (path : string) (a b : HandlerEntry) : Z :=
  match matcher a, matcher b with
  | MString _, MString _ => 0
  | MString _, MRegExp _ => -1
  | MRegExp _, MString _ => 1
  | MRegExp first, MRegExp second => matchLength path second - matchLength path first
  end.

Definition candidates (this : SdkgenHttpServer) (path : string) (req : IncomingMessage)
    : list HandlerEntry :=
  filter (fun h => matches path (matcher h))
    (filter (fun h => h_method h =? req_method req) (handlers this)).

Definition findBestHandler (this : SdkgenHttpServer) (path : string) (req : IncomingMessage)
    : option HandlerEntry :=
  hd_error (sort (compareHandlers path) (candidates this path req)).

(* --------------------------------------------------------------- *)
(** *** identifyRequestVersion, parseRequestV1..V3, parseRequest *)

Definition identifyRequestVersion (req : IncomingMessage) (body : string) : M W value :=
  parsed <- lift (JSON_parse P body) ;;
  has_version <- lift (has_in "version" parsed) ;;
  if has_version : bool then lift (get parsed "version")
  else
    has_requestId <- lift (has_in "requestId" parsed) ;;
    if has_requestId : bool then ret (VNum 2) else ret (VNum 1).

Definition V1_types : TypeTable :=
  [("Request", TObject
      [("id", TName "string");
       ("args", TName "any");
       ("name", TName "string");
       ("device", TObject
          [("id", TName "string?");
           ("type", TName "string?");
           ("platform", TName "any?");
           ("version", TName "string?");
           ("language", TName "string?");
           ("timezone", TName "string?")])])].

(** Old Sdkgen format *)
Definition parseRequestV1 (req : IncomingMessage) (body : string) : M W ContextRequest :=
  json <- lift (JSON_parse P body) ;;
  parsed <- lift (decode C V1_types "root" (TName "Request") json) ;;
  p_id <- lift (get parsed "id") ;;
  p_args <- lift (get parsed "args") ;;
  p_name <- lift (get parsed "name") ;;
  device <- lift (get parsed "device") ;;
  d_id <- lift (get device "id") ;;
  d_language <- lift (get device "language") ;;
  d_platform <- lift (get device "platform") ;;
  d_timezone <- lift (get device "timezone") ;;
  d_type <- lift (get device "type") ;;
  d_version <- lift (get device "version") ;;
  ret {| version := 1;
         id := p_id;
         args := p_args;
         name := p_name;
         extra := VObj [];
         headers := req_headers req;
         deviceInfo :=
           {| dev_id := or_else d_id p_id;
              dev_language := d_language;
              dev_platform := d_platform;
              dev_timezone := d_timezone;
              dev_type := or_else (or_else d_type d_platform) (VStr "");
              dev_version := d_version |} |}.

Definition V2_types : TypeTable :=
  [("Request", TObject
      [("requestId", TName "string");
       ("deviceId", TName "string");
       ("sessionId", TName "string?");
       ("partnerId", TName "string?");
       ("args", TName "any");
       ("name", TName "string");
       ("info", TObject
          [("type", TName "string");
           ("browserUserAgent", TName "string?");
           ("language", TName "string")])])].

(** Maxima sdkgen format *)
Definition parseRequestV2 (req : IncomingMessage) (body : string) : M W ContextRequest :=
  json <- lift (JSON_parse P body) ;;
  parsed <- lift (decode C V2_types "root" (TName "Request") json) ;;
  p_requestId <- lift (get parsed "requestId") ;;
  p_args <- lift (get parsed "args") ;;
  p_name <- lift (get parsed "name") ;;
  p_sessionId <- lift (get parsed "sessionId") ;;
  p_partnerId <- lift (get parsed "partnerId") ;;
  p_deviceId <- lift (get parsed "deviceId") ;;
  info <- lift (get parsed "info") ;;
  i_language <- lift (get info "language") ;;
  i_browserUserAgent <- lift (get info "browserUserAgent") ;;
  i_type <- lift (get info "type") ;;
  ret {| version := 2;
         id := p_requestId;
         args := p_args;
         name := p_name;
         extra := VObj [("sessionId", p_sessionId); ("partnerId", p_partnerId)];
         headers := req_headers req;
         deviceInfo :=
           {| dev_id := p_deviceId;
              dev_language := i_language;
              dev_platform := VObj [("browserUserAgent", or_else i_browserUserAgent VNull)];
              dev_timezone := VNull;
              dev_type := i_type;
              dev_version := VStr "" |} |}.

Definition V3_types : TypeTable :=
  [("Request", TObject
      [("requestId", TName "string?");
       ("name", TName "string");
       ("args", TName "any");
       ("extra", TName "any?");
       ("deviceInfo", TName "DeviceInfo?")]);
   ("DeviceInfo", TObject
      [("id", TName "string?");
       ("type", TName "string?");
       ("browserUserAgent", TName "string?");
       ("timezone", TName "string?");
       ("version", TName "string?");
       ("language", TName "string?")])].

(** [v || randomBytes(16).toString("hex")]: the draw happens only when
    [v] is falsy. *)
Definition or_random_hex (v : value) : M W value :=
  if truthy v then ret v
  else
    buf <- on_host (randomBytes P 16) ;;
    ret (VStr (toHex buf)).

(** New sdkgen format *)
Definition parseRequestV3 (req : IncomingMessage) (body : string) : M W ContextRequest :=
  json <- lift (JSON_parse P body) ;;
  parsed <- lift (decode C V3_types "root" (TName "Request") json) ;;
  p_deviceInfo <- lift (get parsed "deviceInfo") ;;
  let deviceInfo := or_else p_deviceInfo (VObj []) in
  p_requestId <- lift (get parsed "requestId") ;;
  r_id <- or_random_hex p_requestId ;;
  p_args <- lift (get parsed "args") ;;
  p_name <- lift (get parsed "name") ;;
  p_extra <- lift (get parsed "extra") ;;
  let r_extra := if truthy p_extra then VObj (spread p_extra) else VObj [] in
  d_id <- lift (get deviceInfo "id") ;;
  r_dev_id <- or_random_hex d_id ;;
  d_language <- lift (get deviceInfo "language") ;;
  d_browserUserAgent <- lift (get deviceInfo "browserUserAgent") ;;
  d_timezone <- lift (get deviceInfo "timezone") ;;
  d_type <- lift (get deviceInfo "type") ;;
  d_version <- lift (get deviceInfo "version") ;;
  ret {| version := 3;
         id := r_id;
         args := p_args;
         name := p_name;
         extra := r_extra;
         headers := req_headers req;
         deviceInfo :=
           {| dev_id := r_dev_id;
              dev_language := or_else d_language VNull;
              dev_platform := VObj [("browserUserAgent", or_else d_browserUserAgent VNull)];
              dev_timezone := or_else d_timezone VNull;
              dev_type := or_else d_type (VStr "api");
              dev_version := or_else d_version VNull |} |}.

(** The declared result is [ContextRequest | null]; every path returns
    the object a parser built, or throws. *)
Definition parseRequest (req : IncomingMessage) (body : string)
    : M W (option ContextRequest) :=
  v <- identifyRequestVersion req body ;;
  if strict_eq_num v 1 then r <- parseRequestV1 req body ;; ret (Some r)
  else if strict_eq_num v 2 then r <- parseRequestV2 req body ;; ret (Some r)
  else if strict_eq_num v 3 then r <- parseRequestV3 req body ;; ret (Some r)
  else throw (Error "Failed to understand request").

(* --------------------------------------------------------------- *)
(** *** log, writeReply *)

Definition log (message : string) : M W unit :=
  now <- on_host (now_toISOString P) ;;
  console_log (now ++ " " ++ message).

Definition Fatal (message : string) : ContextReply :=
  {| result := None;
     error := Some {| err_type := "Fatal"; err_message := message |} |}.

(** [error ? (error.type === "Fatal" ? 500 : 400) : 200] *)
Definition statusOf (reply : ContextReply) : Z :=
  match error reply with
  | Some e => if err_type e =? "Fatal" then 500 else 400
  | None => 200
  end.

Definition str (v : value) : string := String_of (Number_toString P) v.

(** [deltaTime[0] + deltaTime[1] * 1e-9]; 0x1.12e0be826d695p-30 is the
    double that the literal 1e-9 denotes. *)
Definition seconds (deltaTime : float * float) : float :=
  (fst deltaTime + snd deltaTime * 0x1.12e0be826d695p-30)%float.

(** The [response] object of [case 1]. *)
Definition responseV1 (ctx : Context) (reply : ContextReply) (duration : float) : value :=
  VObj [("id", id (request ctx));
        ("ok", VBool (match error reply with Some _ => false | None => true end));
        ("deviceId", dev_id (deviceInfo (request ctx)));
        ("duration", VNum duration);
        ("host", VStr (hostname P));
        ("result", result_or_null reply);
        ("error", error_or_null reply)].

(** The [response] object of [case 3]. *)
Definition responseV3 (reply : ContextReply) (duration : float) : value :=
  VObj [("duration", VNum duration);
        ("host", VStr (hostname P));
        ("result", result_or_null reply);
        ("error", error_or_null reply)].

(** The access-log message. *)
Definition accessLine (ctx : Context) (reply : ContextReply) (duration : float) : string :=
  str (id (request ctx)) ++ " [" ++ toFixed P duration 6 ++ "s] "
  ++ str (name (request ctx)) ++ "() -> "
  ++ match error reply with Some e => err_type e | None => "OK" end.

Definition writeReply (ctx : option Context) (reply : ContextReply) : M W unit :=
  match ctx with
  | None =>
      let reply :=
        match error reply with
        | None => Fatal "Response without context"
        | Some _ => reply
        end in
      setStatus 500 ;;;
      write (JSON_stringify P (VObj [("error", error_or_null reply)])) ;;;
      end_
  | Some ctx =>
      deltaTime <- on_host (hrtime_since P (hrStart ctx)) ;;
      let duration := seconds deltaTime in
      log (accessLine ctx reply duration) ;;;
      if (version (request ctx) =? 1)%Z then
        let response := responseV1 ctx reply duration in
        setStatus (statusOf reply) ;;;
        write (JSON_stringify P response) ;;;
        end_
      else if (version (request ctx) =? 2)%Z then
        end_
      else if (version (request ctx) =? 3)%Z then
        let response := responseV3 reply duration in
        setStatus (statusOf reply) ;;;
        write (JSON_stringify P response) ;;;
        end_
      else ret tt
  end.

(* --------------------------------------------------------------- *)
(** *** handleRequestWithBody, handleRequest *)

(** The call itself: the start hook, then (when the hook's reply is
    empty) decode, run and encode; the error object that is thrown becomes
    an error reply, through the reads [e.type], [e.message] and
    [e.toString()] of the [catch] block. *)
Definition runCall (this : SdkgenHttpServer) (ctx : Context)
    (functionDescription : FunctionDescription)
    (functionImplementation : Context -> value -> W -> (Exn + value) * W)
    : M W ContextReply :=
  let fname := str (name (request ctx)) in
  try_catch
    (reply <- call_host (onRequestStart (apiConfig this) ctx) ;;
     match reply with
     | Some r => ret r
     | None =>
         args <- lift (decode C (typeTable (apiConfig this)) (fname ++ ".args")
                         (fd_args functionDescription) (args (request ctx))) ;;
         ret_ <- call_host (functionImplementation ctx args) ;;
         encodedRet <- lift (encode C (typeTable (apiConfig this)) (fname ++ ".ret")
                               (fd_ret functionDescription) ret_) ;;
         ret {| result := Some encodedRet; error := None |}
     end)
    (fun e =>
       ret {| result := None;
              error := Some {| err_type := exn_type_or_Fatal e;
                               err_message := exn_message_or_toString e |} |}).

(** The end hook, whose reply (when not empty) replaces the reply, and the
    write. *)
Definition finishCall (this : SdkgenHttpServer) (ctx : Context) (reply : ContextReply)
    : M W unit :=
  replaced <- call_host (onRequestEnd (apiConfig this) ctx reply) ;;
  let reply := match replaced with Some r => r | None => reply end in
  writeReply (Some ctx) reply.

(** [new Context]: the context of a parsed request. *)
Definition newContext (this : SdkgenHttpServer) (clientIp : string)
    (request : ContextRequest) (hr : float * float) : Context :=
  {| extra_fields := extraContext this;
     ip := clientIp;
     request := request;
     hrStart := hr |}.

Definition requestPath (this : SdkgenHttpServer) (req : IncomingMessage) : string :=
  let url := match req_url req with Some u => u | None => "" end in
  let path := match parseUrl_pathname P url with Some p => p | None => "" end in
  if String.prefix (ignoredUrlPrefix this) path
  then slice (String.length (ignoredUrlPrefix this)) path
  else path.

Definition handleRequestWithBody (this : SdkgenHttpServer) (req : IncomingMessage)
    (body : string) : M W unit :=
  let path := requestPath this req in
  match findBestHandler this path req with
  | Some externalHandler =>
      log ("HTTP " ++ req_method req ++ " " ++ path) ;;;
      handler externalHandler req body
  | None =>
      setHeader "Content-Type" "application/json; charset=utf-8" ;;;
      if req_method req =? "HEAD" then
        setStatus 200 ;;; end_
      else if req_method req =? "GET" then
        ok <- try_catch (call_host (onHealthCheck (apiConfig this)))
                (fun _ => ret false) ;;
        setStatus (if ok : bool then 200 else 500) ;;;
        write (JSON_stringify P (VObj [("ok", VBool ok)])) ;;;
        end_
      else if negb (req_method req =? "POST") then
        setStatus 400 ;;; end_
      else
        match getClientIp P req with
        | None => writeReply None (Fatal "Couldn't determine client IP")
        | Some clientIp =>
            if clientIp =? "" then
              writeReply None (Fatal "Couldn't determine client IP")
            else
              request <- parseRequest req body ;;
              match request with
              | None => writeReply None (Fatal "Couldn't parse request")
              | Some request =>
                  hr <- on_host (hrtime P) ;;
                  let ctx := newContext this clientIp request hr in
                  let fname := str (name request) in
                  match member (functionTable (apiConfig this))
                                 (functionTable_inherited (apiConfig this)) fname,
                        member (fn (apiConfig this)) (fn_inherited (apiConfig this)) fname
                  with
                  | Some functionDescription, Some functionImplementation =>
                      reply <- runCall this ctx functionDescription functionImplementation ;;
                      finishCall this ctx reply
                  | _, _ =>
                      writeReply (Some ctx) (Fatal ("Function does not exist: " ++ fname))
                  end
              end
        end
  end.

Fixpoint setHeaders (preflight : bool) (hs : Headers) : M W unit :=
  match hs with
  | [] => ret tt
  | (header, v) :: rest =>
      (if preflight && negb (String.prefix "access-control-" header) then ret tt
       else setHeader header v) ;;;
      setHeaders preflight rest
  end.

Definition handleRequest (this : SdkgenHttpServer) (req : IncomingMessage) : M W unit :=
  (match dynamicCorsOrigin this, find (fun h => fst h =? "origin") (req_headers req) with
   | true, Some (_, origin) =>
       if origin =? "" then ret tt
       else setHeader "Access-Control-Allow-Origin" origin ;;; setHeader "Vary" "Origin"
   | _, _ => ret tt
   end) ;;;
  setHeaders (req_method req =? "OPTIONS") (cors_headers this) ;;;
  if req_method req =? "OPTIONS" then
    setStatus 200 ;;; end_
  else
    let body := String.concat "" (req_chunks req) in
    try_catch (handleRequestWithBody this req body)
      (fun e => writeReply None (Fatal (exn_toString e))).

End Server.

Arguments findBestHandler {W ExtraContextT} this path req.
Arguments candidates {W ExtraContextT} this path req.


(* ================================================================= *)
(** ** Construction: headers, CORS and the artifact routes *)

(** White space on the ASCII range, where header names live: what
    [String.prototype.trim] strips there (tab, line feed, vertical tab,
    form feed, carriage return, space). *)
Definition isWhiteSpace (c : ascii) : bool :=
  let n := nat_of_ascii c in
  ((9 <=? n)%nat && (n <=? 13)%nat) || (n =? 32)%nat.

Fixpoint trimStart (s : string) : string :=
  match s with
  | EmptyString => EmptyString
  | String c rest => if isWhiteSpace c then trimStart rest else s
  end.

Fixpoint trimEnd (s : string) : string :=
  match s with
  | EmptyString => EmptyString
  | String c rest =>
      match trimEnd rest with
      | EmptyString => if isWhiteSpace c then EmptyString else String c EmptyString
      | kept => String c kept
      end
  end.

(** [s.trim()] *)
Definition trim (s : string) : string := trimEnd (trimStart s).

(** [map.get(k)] on a [Map<string, string>] kept in insertion order. *)
Definition map_get (k : string) (m : Headers) : option string :=
  match find (fun e => fst e =? k) m with
  | Some (_, v) => Some v
  | None => None
  end.

Section Construction.
Variable W : Type.
Variable ExtraContextT : Type.

Definition with_headers (this : SdkgenHttpServer W ExtraContextT) (h : Headers)
    : SdkgenHttpServer W ExtraContextT :=
  {| apiConfig := apiConfig this; extraContext := extraContext this;
     cors_headers := h; handlers := handlers this;
     dynamicCorsOrigin := dynamicCorsOrigin this;
     ignoredUrlPrefix := ignoredUrlPrefix this |}.

(** [addHeader]: the name is lower-cased and trimmed; a value already
    there (and not empty) is kept, with the new one after a comma. *)
Definition addHeader (this : SdkgenHttpServer W ExtraContextT) (header value : string)
    : SdkgenHttpServer W ExtraContextT :=
  let header := trim (toLowerCase header) in
  match map_get header (cors_headers this) with
  | Some existing =>
      if existing =? "" then
        with_headers this (set_header header value (cors_headers this))
      else
        with_headers this
          (set_header header (existing ++ ", " ++ value) (cors_headers this))
  | None => with_headers this (set_header header value (cors_headers this))
  end.

Definition enableCors (this : SdkgenHttpServer W ExtraContextT)
    : SdkgenHttpServer W ExtraContextT :=
  let this := addHeader this "Access-Control-Allow-Methods"
                "DELETE, HEAD, PUT, POST, PATCH, GET, OPTIONS" in
  let this := addHeader this "Access-Control-Allow-Headers" "Content-Type" in
  addHeader this "Access-Control-Max-Age" "86400".

(** What the four source generators answer for the interface description
    of this server: the text, or the error they throw. *)
Record Generators : Type := {
  generateNodeServerSource : Exn + string;
  generateNodeClientSource : Exn + string;
  generateBrowserClientSource : Exn + string;
  generateDartClientSource : Exn + string
}.

(** The handler the constructor registers for each artifact:
    [try { setHeader; write(generate()) } catch (e) { statusCode = 500;
    write(e.toString()) } end()]. *)
Definition serveSource (source : Exn + string) : IncomingMessage -> string -> M W unit :=
  fun _ _ =>
    try_catch
      (setHeader "Content-Type" "application/octet-stream" ;;;
       text <- lift source ;;
       write text)
      (fun e => setStatus 500 ;;; write (exn_toString e)) ;;;
    end_.

(** The constructor: CORS headers, then the four artifact routes. *)
Definition new_SdkgenHttpServer (G : Generators) (cfg : BaseApiConfig W ExtraContextT)
    (extraContext : ExtraContextT) : SdkgenHttpServer W ExtraContextT :=
  let this := {| apiConfig := cfg; extraContext := extraContext; cors_headers := [];
                 handlers := []; dynamicCorsOrigin := true; ignoredUrlPrefix := "" |} in
  let this := enableCors this in
  let this := addHttpHandler this "GET" (MString "/targets/node/api.ts")
                (serveSource (generateNodeServerSource G)) in
  let this := addHttpHandler this "GET" (MString "/targets/node/client.ts")
                (serveSource (generateNodeClientSource G)) in
  let this := addHttpHandler this "GET" (MString "/targets/web/client.ts")
                (serveSource (generateBrowserClientSource G)) in
  addHttpHandler this "GET" (MString "/targets/flutter/client.dart")
    (serveSource (generateDartClientSource G)).

(** The first steps of [handleRequest]: the echoed origin, then the
    server's headers. *)
Definition corsPrelude (this : SdkgenHttpServer W ExtraContextT) (req : IncomingMessage)
    : M W unit :=
  (match dynamicCorsOrigin this, find (fun h => fst h =? "origin") (req_headers req) with
   | true, Some (_, origin) =>
       if origin =? "" then ret tt
       else setHeader "Access-Control-Allow-Origin" origin ;;; setHeader "Vary" "Origin"
   | _, _ => ret tt
   end) ;;;
  setHeaders (req_method req =? "OPTIONS") (cors_headers this).

End Construction.

(* ================================================================= *)
(** ** A reference codec *)

(** [Some base] when the type name is [base ++ "?"]. *)
Fixpoint strip_optional (s : string) : option string :=
  match s with
  | EmptyString => None
  | String c EmptyString => if Ascii.eqb c "?" then Some EmptyString else None
  | String c rest => option_map (String c) (strip_optional rest)
  end.

Fixpoint lookup_type (k : string) (table : TypeTable) : option TypeDescription :=
  match table with
  | [] => None
  | (k', t) :: rest => if k' =? k then Some t else lookup_type k rest
  end.

(** Modelled from the spec: the codec of the module [./encode-decode],
    which is not among the sources. The spec has it as a schema-driven
    type-checking codec, called with a type table and a type, that fails
    with a decoding error on a mismatch; the request schemas use the type
    names ["string"] and ["any"], the optional mark [?], named types of
    the table and objects of fields. An optional field that is missing or
    [null] decodes to [null]; an object is rebuilt from the fields of its
    schema. [fuel] bounds the unfolding of named types. *)
Fixpoint ref_decode (fuel : nat) (table : TypeTable) (path : string)
    (t : TypeDescription) (v : value) {struct fuel} : Exn + value :=
  match fuel with
  | O => inl (Error ("Type too deep at '" ++ path ++ "'"))
  | S fuel' =>
      match t with
      | TName n =>
          match strip_optional n with
          | Some base =>
              match v with
              | VUndefined | VNull => inr VNull
              | _ => ref_decode fuel' table path (TName base) v
              end
          | None =>
              if n =? "any" then inr v
              else if n =? "string" then
                match v with
                | VStr _ => inr v
                | _ => inl (Error ("Invalid type at '" ++ path ++ "', expected string"))
                end
              else
                match lookup_type n table with
                | Some t' => ref_decode fuel' table path t' v
                | None => inl (Error ("Unknown type '" ++ n ++ "' at '" ++ path ++ "'"))
                end
          end
      | TObject fields =>
          match v with
          | VObj props =>
              let fix go (fs : list (string * TypeDescription)) : Exn + list (string * value) :=
                match fs with
                | [] => inr []
                | (k, tk) :: rest =>
                    match ref_decode fuel' table (path ++ "." ++ k) tk (prop k props) with
                    | inl e => inl e
                    | inr dk =>
                        match go rest with
                        | inl e => inl e
                        | inr r => inr ((k, dk) :: r)
                        end
                    end
                end in
              match go fields with
              | inl e => inl e
              | inr r => inr (VObj r)
              end
          | _ => inl (Error ("Invalid type at '" ++ path ++ "', expected object"))
          end
      | TUndefined => inl (Error ("Unknown type 'undefined' at '" ++ path ++ "'"))
      end
  end.

Definition ref_codec : Codec :=
  {| decode := ref_decode 8; encode := ref_decode 8 |}.

(* ================================================================= *)
(** ** A sample host *)

(** A small concrete platform, function table and set of request bodies on
    which the model runs. *)
Module Sample.

(** The host state: a counter that feeds the entropy pool. *)
Definition World : Type := nat.

Definition dq : string := String (ascii_of_nat 34) EmptyString.

(** Renders the numbers the sample bodies use. *)
Definition number_text (n : float) : string :=
  if PrimFloat.eqb n 0 then "0"
  else if PrimFloat.eqb n 1 then "1"
  else if PrimFloat.eqb n 2 then "2"
  else if PrimFloat.eqb n 3 then "3"
  else if PrimFloat.eqb n 4 then "4"
  else if PrimFloat.eqb n 5 then "5"
  else "0.0015".

(** JSON text of a value (strings without escapes). *)
Fixpoint show (v : value) : string :=
  match v with
  | VUndefined => "undefined"
  | VNull => "null"
  | VBool true => "true"
  | VBool false => "false"
  | VNum n => number_text n
  | VStr s => dq ++ s ++ dq
  | VArr l => "[" ++ String.concat "," (map show l) ++ "]"
  | VObj props =>
      "{" ++ String.concat ","
               (map (fun kv => match kv with (k, x) => dq ++ k ++ dq ++ ":" ++ show x end) props)
          ++ "}"
  end.

Definition request_v1 (fname : string) (device : list (string * value)) : value :=
  VObj [("id", VStr "r1"); ("name", VStr fname); ("args", VObj []);
        ("device", VObj device)].

Definition request_v2 (fname : string) : value :=
  VObj [("requestId", VStr "r2"); ("deviceId", VStr "d2"); ("name", VStr fname);
        ("args", VObj []);
        ("info", VObj [("type", VStr "web"); ("language", VStr "en")])].

Definition request_v3 (fname : string) (more : list (string * value)) : value :=
  VObj ([("version", VNum 3); ("name", VStr fname); ("args", VObj [])] ++ more).

(** The JSON texts the sample parser knows. *)
Definition corpus : list value :=
  [ VNull; VNum 5;
    VObj [("version", VNum 4)];
    request_v1 "ping" []; request_v1 "nope" []; request_v1 "flag" [];
    request_v1 "ping" [("id", VStr "")];
    request_v2 "ping"; request_v2 "nope";
    request_v3 "ping" []; request_v3 "nope" [];
    request_v3 "ping" [("requestId", VStr "abc"); ("deviceId", VStr "d2")];
    request_v3 "ping" [("requestId", VStr ""); ("deviceInfo", VObj [("id", VStr "")])];
    request_v3 "ping" [("extra", VNum 5)];
    request_v3 "ping" [("extra", VStr "ab")];
    request_v1 "toString" [] ].

Definition parse (body : string) : Exn + value :=
  match find (fun v => show v =? body) corpus with
  | Some v => inr v
  | None => inl (SyntaxError "Unexpected token in JSON at position 0")
  end.

Definition nextByte (w : World) : byte * World :=
  (match Byte.of_nat (Nat.modulo w 256) with Some b => b | None => x00 end, S w).

Definition platform : Platform World :=
  {| JSON_parse := parse;
     JSON_stringify := show;
     Number_toString := number_text;
     toFixed := fun _ _ => "0.001500";
     randomByte := nextByte;
     hrtime := fun w => ((0%float, 0%float), w);
     hrtime_since := fun _ w => ((0%float, 1500000%float), w);
     now_toISOString := fun w => ("2020-01-01T00:00:00.000Z", w);
     hostname := "host-a";
     getClientIp := fun _ => Some "10.0.0.7";
     parseUrl_pathname := fun url => Some url |}.

(** The pattern [/^text/] for a text without special characters. *)
Definition anchored (text : string) : RegExp :=
  {| exec := fun s => if String.prefix text s then Some (0%nat, text) else None |}.

(** The pattern [/text/] for a text without special characters. *)
Definition containing (text : string) : RegExp :=
  {| exec := fun s =>
       match String.index 0 text s with
       | Some i => Some (i, text)
       | None => None
       end |}.

(** A handler that answers with its own tag. *)
Definition tagged (tag : string) : IncomingMessage -> string -> M World unit :=
  fun _ _ => write tag ;;; end_.

Definition routes : list (HandlerEntry World) :=
  [ {| h_method := "GET"; matcher := MRegExp (anchored "/targets");
       handler := tagged "short pattern" |};
    {| h_method := "GET"; matcher := MRegExp (anchored "/targets/node");
       handler := tagged "long pattern" |};
    {| h_method := "GET"; matcher := MRegExp (containing "node");
       handler := tagged "inner pattern" |};
    {| h_method := "GET"; matcher := MString "/targets/node/api.ts";
       handler := tagged "literal" |};
    {| h_method := "POST"; matcher := MString "/targets/node/api.ts";
       handler := tagged "literal post" |} ].

Definition get_ (url : string) : IncomingMessage :=
  {| req_method := "GET"; req_url := Some url; req_headers := [];
     req_chunks := [] |}.

Definition post (body : string) : IncomingMessage :=
  {| req_method := "POST"; req_url := Some "/"; req_headers := [];
     req_chunks := [body] |}.

Definition anyType : TypeDescription := TName "any".

Definition functions (fname : string) : option FunctionDescription :=
  if (fname =? "ping") || (fname =? "flag")
  then Some {| fd_args := anyType; fd_ret := anyType |}
  else None.

(** [ping] answers ["pong"], [flag] answers [false]. *)
Definition implementations (fname : string)
    : option (Context unit -> value -> World -> (Exn + value) * World) :=
  if fname =? "ping" then Some (fun _ _ w => (inr (VStr "pong"), w))
  else if fname =? "flag" then Some (fun _ _ w => (inr (VBool false), w))
  else None.

(** The two tables of the sample are plain objects.  A member they
    inherit from [Object.prototype] has no [args] and no [ret]. *)
Definition inheritedDescriptions (fname : string) : option FunctionDescription :=
  if existsb (String.eqb fname) Object_prototype
  then Some {| fd_args := TUndefined; fd_ret := TUndefined |}
  else None.

(** The context as the object it is. *)
Definition context_value (ctx : Context unit) : value :=
  let rq := request ctx in
  let device := deviceInfo rq in
  VObj [("ip", VStr (ip ctx));
        ("request",
         VObj [("version", VNum (if (version rq =? 1)%Z then 1
                                 else if (version rq =? 2)%Z then 2 else 3));
               ("id", id rq); ("args", args rq); ("name", name rq);
               ("extra", extra rq);
               ("headers", VObj (map (fun kv => (fst kv, VStr (snd kv))) (headers rq)));
               ("deviceInfo",
                VObj [("id", dev_id device); ("language", dev_language device);
                      ("platform", dev_platform device);
                      ("timezone", dev_timezone device);
                      ("type", dev_type device); ("version", dev_version device)])]);
        ("hrStart", VArr [VNum (fst (hrStart ctx)); VNum (snd (hrStart ctx))])].

(** Calling an inherited member as the server does, as a plain function of
    the context and the arguments: [toString] answers the tag of its
    missing receiver, [constructor] (that is [Object]) answers the context,
    [__proto__] is an object and cannot be called, and the others fail on
    their missing receiver. *)
Definition inheritedImplementations (fname : string)
    : option (Context unit -> value -> World -> (Exn + value) * World) :=
  if fname =? "toString" then Some (fun _ _ w => (inr (VStr "[object Undefined]"), w))
  else if fname =? "constructor" then Some (fun ctx _ w => (inr (context_value ctx), w))
  else if fname =? "__proto__" then
    Some (fun _ _ w => (inl (TypeError "functionImplementation is not a function"), w))
  else if existsb (String.eqb fname) Object_prototype then
    Some (fun _ _ w => (inl (TypeError "Cannot convert undefined or null to object"), w))
  else None.

Definition config
    (start : Context unit -> World -> (Exn + option ContextReply) * World)
    (finish : Context unit -> ContextReply -> World -> (Exn + option ContextReply) * World)
    : BaseApiConfig World unit :=
  {| typeTable := [];
     functionTable := functions;
     functionTable_inherited := inheritedDescriptions;
     fn := implementations;
     fn_inherited := inheritedImplementations;
     onHealthCheck := fun w => (inr true, w);
     onRequestStart := start;
     onRequestEnd := finish |}.

Definition no_start : Context unit -> World -> (Exn + option ContextReply) * World :=
  fun _ w => (inr None, w).
Definition no_finish : Context unit -> ContextReply -> World -> (Exn + option ContextReply) * World :=
  fun _ _ w => (inr None, w).

Definition server_with (cfg : BaseApiConfig World unit) : SdkgenHttpServer World unit :=
  {| apiConfig := cfg; extraContext := tt; cors_headers := [];
     handlers := []; dynamicCorsOrigin := true; ignoredUrlPrefix := "" |}.

Definition server : SdkgenHttpServer World unit := server_with (config no_start no_finish).

(** A start hook that turns every call down, and an end hook that hides
    every error. *)
Definition deny : Context unit -> World -> (Exn + option ContextReply) * World :=
  fun _ w => (inr (Some {| result := None;
                           error := Some {| err_type := "Denied";
                                            err_message := "not allowed" |} |}), w).
Definition hide : Context unit -> ContextReply -> World -> (Exn + option ContextReply) * World :=
  fun _ _ w => (inr (Some {| result := Some (VStr "hidden"); error := None |}), w).

Definition routed : SdkgenHttpServer World unit :=
  {| apiConfig := config no_start no_finish; extraContext := tt; cors_headers := [];
     handlers := routes; dynamicCorsOrigin := true; ignoredUrlPrefix := "" |}.

Definition start : State World :=
  {| host := 0; res := newResponse; console := [] |}.

(** A canonical request of generation [v] and its context. *)
Definition request_of (v : Z) : ContextRequest :=
  {| version := v; id := VStr "r1"; args := VObj []; name := VStr "ping";
     extra := VObj []; headers := [];
     deviceInfo :=
       {| dev_id := VStr "d1"; dev_language := VNull; dev_platform := VNull;
          dev_timezone := VNull; dev_type := VStr "api"; dev_version := VNull |} |}.

Definition context_of (v : Z) : Context unit :=
  {| extra_fields := tt; ip := "10.0.0.7"; request := request_of v;
     hrStart := (0%float, 0%float) |}.

(** What the V1 sample body for the function [fname] parses to. *)
Definition parsed_v1 (fname : string) : ContextRequest :=
  {| version := 1; id := VStr "r1"; args := VObj []; name := VStr fname;
     extra := VObj []; headers := [];
     deviceInfo :=
       {| dev_id := VStr "r1"; dev_language := VNull; dev_platform := VNull;
          dev_timezone := VNull; dev_type := VStr ""; dev_version := VNull |} |}.

(** The error object of a reply body. *)
Definition error_json (kind message : string) : value :=
  VObj [("type", VStr kind); ("message", VStr message)].

(** The duration the sample clock measures. *)
Definition elapsed : float := seconds (0%float, 1500000%float).

Definition business (kind message : string) : ContextReply :=
  {| result := None; error := Some {| err_type := kind; err_message := message |} |}.

Definition success (v : value) : ContextReply :=
  {| result := Some v; error := None |}.

End Sample.


(* ================================================================= *)
(** ** More sample hosts *)

(** Variations on the sample host: hooks and functions that throw, a
    platform that cannot tell the client's address, and source
    generators. *)
Module Demo.

Definition notFound : Exn :=
  {| exn_name := "Error"; exn_type := Some "NotFound"; exn_message := "no such user" |}.

Definition down : Exn := Error "database is down".

(** A function that throws a business error, whatever it is given. *)
Definition failing : Context unit -> value -> Sample.World -> (Exn + value) * Sample.World :=
  fun _ _ w => (inl notFound, S w).

(** An end hook that throws. *)
Definition broken_finish
    : Context unit -> ContextReply -> Sample.World -> (Exn + option ContextReply) * Sample.World :=
  fun _ _ w => (inl down, w).

(** The sample configuration with a health check that throws. *)
Definition unhealthy : BaseApiConfig Sample.World unit :=
  {| typeTable := [];
     functionTable := Sample.functions;
     functionTable_inherited := Sample.inheritedDescriptions;
     fn := Sample.implementations;
     fn_inherited := Sample.inheritedImplementations;
     onHealthCheck := fun w => (inl down, w);
     onRequestStart := Sample.no_start;
     onRequestEnd := Sample.no_finish |}.

(** The sample platform behind a transport that gives no client address. *)
Definition anonymous : Platform Sample.World :=
  {| JSON_parse := Sample.parse;
     JSON_stringify := Sample.show;
     Number_toString := Sample.number_text;
     toFixed := fun _ _ => "0.001500";
     randomByte := Sample.nextByte;
     hrtime := fun w => ((0%float, 0%float), w);
     hrtime_since := fun _ w => ((0%float, 1500000%float), w);
     now_toISOString := fun w => ("2020-01-01T00:00:00.000Z", w);
     hostname := "host-a";
     getClientIp := fun _ => None;
     parseUrl_pathname := fun url => Some url |}.

(** Generators: three answer a text, the Dart one throws. *)
Definition generators : Generators :=
  {| generateNodeServerSource := inr "// node server";
     generateNodeClientSource := inr "// node client";
     generateBrowserClientSource := inr "// web client";
     generateDartClientSource := inl (Error "cannot generate") |}.

Definition built : SdkgenHttpServer Sample.World unit :=
  new_SdkgenHttpServer generators (Sample.config Sample.no_start Sample.no_finish) tt.

Definition request (method url : string) (hdrs : Headers) : IncomingMessage :=
  {| req_method := method; req_url := Some url; req_headers := hdrs; req_chunks := [] |}.

(** Three routes for one path: on [/a/b/c] the pattern [/^\/a/] matches
    the text [/a], and the patterns [/^\/a\/b/] and [/\/a\/b/] both match
    the text [/a/b] at index 0. *)
Definition short_route : HandlerEntry Sample.World :=
  {| h_method := "GET"; matcher := MRegExp (Sample.anchored "/a");
     handler := Sample.tagged "short" |}.
Definition first_long_route : HandlerEntry Sample.World :=
  {| h_method := "GET"; matcher := MRegExp (Sample.anchored "/a/b");
     handler := Sample.tagged "first long" |}.
Definition second_long_route : HandlerEntry Sample.World :=
  {| h_method := "GET"; matcher := MRegExp (Sample.containing "/a/b");
     handler := Sample.tagged "second long" |}.

Definition tied : SdkgenHttpServer Sample.World unit :=
  {| apiConfig := Sample.config Sample.no_start Sample.no_finish; extraContext := tt;
     cors_headers := []; handlers := [short_route; first_long_route; second_long_route];
     dynamicCorsOrigin := true; ignoredUrlPrefix := "" |}.

(** What the pattern of an entry answers on the text [s]. *)
Definition probe (s : string) (h : HandlerEntry Sample.World) : option (nat * string) :=
  match matcher h with
  | MRegExp re => exec re s
  | MString _ => None
  end.

End Demo.

(* ================================================================= *)
(** ** Observations on results *)

(** The request a parser returned, if it returned. *)
Definition returned {W A} (r : (Exn + A) * State W) : option A :=
  match fst r with
  | inr a => Some a
  | inl _ => None
  end.

(** The field [k] of a response object, the one handed to
    [JSON.stringify] for the body; [None] when the object has no such
    field. *)
Definition body_field (k : string) (response : value) : option value :=
  match response with
  | VObj props => lookup k props
  | _ => None
  end.

(** The fields the V3 parser finds under [deviceInfo || {}]: those of the
    object when it is one, none otherwise. *)
Definition deviceFields (deviceInfo : value) : list (string * value) :=
  match deviceInfo with
  | VObj d => d
  | _ => []
  end.

(** [v || randomBytes(16).toString("hex")] read as a function of the host
    state: the value, and the host state after the draw, if any. *)
Definition token_or {W} (P : Platform W) (v : value) (w : W) : value * W :=
  if truthy v then (v, w)
  else (VStr (toHex (fst (randomBytes P 16 w))), snd (randomBytes P 16 w)).

(** The state once [handleRequestWithBody] has set the JSON content type. *)
Definition jsonHeader {W} (st : State W) : State W :=
  snd (setHeader (W := W) "Content-Type" "application/json; charset=utf-8" st).

(** Steps that leave the response and the console alone. *)
Definition host_only {W A} (m : M W A) : Prop :=
  forall s, res (snd (m s)) = res s /\ console (snd (m s)) = console s.

(** Steps that leave the whole state as it was, whether they return or
    throw. *)
Definition leaves_state {W A} (m : M W A) : Prop :=
  forall s, snd (m s) = s.

(** The state once the first steps of [handleRequest] have run. *)
Definition afterPrelude {W E} (this : SdkgenHttpServer W E) (req : IncomingMessage)
    (st : State W) : State W :=
  snd (corsPrelude this req st).

(* ================================================================= *)
(** * Properties *)

(* ================================================================= *)
(** ** Route resolution *)

Section Sorting.
Variable A : Type.
Variable compare : A -> A -> Z.

Let le (a b : A) : Prop := (compare a b <= 0)%Z.

Hypothesis le_trans : forall a b c, le a b -> le b c -> le a c.
Hypothesis le_total : forall a b, le a b \/ le b a.

Lemma In_insert : forall x y l, In y (insert compare x l) <-> y = x \/ In y l.
Proof.
  intros x y l; induction l as [|z l IH]; simpl.
  - intuition.
  - destruct (compare x z <=? 0)%Z; simpl; rewrite ?IH; intuition.
Qed.

Lemma In_sort : forall y l, In y (sort compare l) <-> In y l.
Proof.
  intros y l; induction l as [|x l IH]; simpl.
  - reflexivity.
  - rewrite In_insert, IH. intuition.
Qed.

Lemma insert_sorted :
  forall x l, StronglySorted le l -> StronglySorted le (insert compare x l).
Proof.
  intros x l Hs; induction Hs as [|z l Hs IH Hz]; simpl.
  - constructor; constructor.
  - destruct (compare x z <=? 0)%Z eqn:E.
    + apply Z.leb_le in E.
      constructor; [constructor; assumption|].
      constructor; [exact E|].
      rewrite Forall_forall in *; intros y Hy; eapply le_trans; [exact E|auto].
    + apply Z.leb_gt in E.
      constructor; [exact IH|].
      rewrite Forall_forall in *; intros y Hy.
      apply In_insert in Hy; destruct Hy as [->|Hy]; [|auto].
      destruct (le_total z x) as [H|H]; [exact H|unfold le in H; lia].
Qed.

Lemma sort_sorted : forall l, StronglySorted le (sort compare l).
Proof.
  induction l as [|x l IH]; simpl; [constructor|apply insert_sorted; exact IH].
Qed.

(** The first element of the sorted array is below every element. *)
Lemma sort_head_least :
  forall l h, hd_error (sort compare l) = Some h ->
    In h l /\ forall y, In y l -> le h y.
Proof.
  intros l h Hh.
  pose proof (sort_sorted l) as Hs.
  destruct (sort compare l) as [|h' t] eqn:E; simpl in Hh; [discriminate|].
  injection Hh as ->.
  split.
  - apply In_sort; rewrite E; left; reflexivity.
  - intros y Hy. apply In_sort in Hy. rewrite E in Hy.
    inversion Hs as [|? ? _ Hall]; subst.
    destruct Hy as [<-|Hy].
    + destruct (le_total h h); assumption.
    + rewrite Forall_forall in Hall; auto.
Qed.

Lemma sort_nil : forall l, sort compare l = [] <-> l = [].
Proof.
  intros l; split; [|intros ->; reflexivity].
  destruct l as [|x l]; [reflexivity|]; simpl; intros H.
  assert (Hin : In x (insert compare x (sort compare l))) by (apply In_insert; auto).
  rewrite H in Hin; destruct Hin.
Qed.

End Sorting.

Section Routes.
Variable W : Type.
Variable path : string.

Lemma compareHandlers_trans :
  forall a b c : HandlerEntry W,
    (compareHandlers path a b <= 0)%Z -> (compareHandlers path b c <= 0)%Z ->
    (compareHandlers path a c <= 0)%Z.
Proof.
  intros a b c; unfold compareHandlers.
  destruct (matcher a), (matcher b), (matcher c); lia.
Qed.

Lemma compareHandlers_total :
  forall a b : HandlerEntry W,
    (compareHandlers path a b <= 0)%Z \/ (compareHandlers path b a <= 0)%Z.
Proof.
  intros a b; unfold compareHandlers.
  destruct (matcher a), (matcher b); lia.
Qed.

(** An entry that passed the second filter with a pattern has a match, and
    the match starts the path. *)
Lemma matches_regexp_match :
  forall re, matches path (MRegExp re) = true <->
             exists m, exec re path = Some (0%nat, m).
Proof.
  intros re; unfold matches, search.
  destruct (exec re path) as [[i m]|].
  - rewrite Z.eqb_eq. split.
    + intros H. assert (i = 0%nat) by lia. subst. eauto.
    + intros [m' H]. injection H as -> _. reflexivity.
  - split; [intros H; discriminate H|intros [m H]; discriminate H].
Qed.

(** The length the comparator reads is the length of the pattern's match. *)
Lemma matchLength_exec :
  forall re i m, exec re path = Some (i, m) ->
    matchLength path re = Z.of_nat (String.length m).
Proof.
  intros re i m H. unfold matchLength, match_. rewrite H. reflexivity.
Qed.

End Routes.

(** A pattern entry among the candidates has a match at index 0. *)
Lemma candidate_match :
  forall (W E : Type) (this : SdkgenHttpServer W E) (path : string)
         (req : IncomingMessage) (h : HandlerEntry W) (re : RegExp),
    In h (candidates this path req) -> matcher h = MRegExp re ->
    exists m, exec re path = Some (0%nat, m).
Proof.
  intros W E this path req h re Hin Hm. unfold candidates in Hin.
  apply filter_In in Hin. destruct Hin as [_ Hmatch]. rewrite Hm in Hmatch.
  apply matches_regexp_match. exact Hmatch.
Qed.

(** C3. Handler resolution looks only at the entries whose method is the
    request's and whose matcher is the path itself (a string) or a pattern
    whose leftmost match starts at index 0 of the path. No such entry, no
    handler. Otherwise the handler returned is one of them, it is a string
    entry whenever a string entry is among them, and when it is a pattern
    entry the text its pattern matches at the start of the path is at
    least as long as the text any other pattern entry among them
    matches. *)
Theorem findBestHandler_resolution :
  forall (W E : Type) (this : SdkgenHttpServer W E) (path : string) (req : IncomingMessage),
    (forall h, In h (candidates this path req) <->
               In h (handlers this) /\ h_method h = req_method req /\
               match matcher h with
               | MString s => s = path
               | MRegExp re => exists m, exec re path = Some (0%nat, m)
               end) /\
    (findBestHandler this path req = None <-> candidates this path req = []) /\
    (forall best, findBestHandler this path req = Some best ->
       In best (candidates this path req) /\
       forall other, In other (candidates this path req) ->
         match matcher other, matcher best with
         | MString _, MRegExp _ => False
         | MRegExp o, MRegExp b =>
             exists mo mb,
               exec o path = Some (0%nat, mo) /\ exec b path = Some (0%nat, mb) /\
               (String.length mo <= String.length mb)%nat
         | _, _ => True
         end).
Proof.
  intros W E this path req. split; [|split].
  - intros h. unfold candidates. rewrite !filter_In, String.eqb_eq.
    destruct (matcher h) as [s|re] eqn:Em.
    + simpl. rewrite String.eqb_eq. tauto.
    + rewrite matches_regexp_match. tauto.
  - unfold findBestHandler.
    rewrite <- (sort_nil (compareHandlers path) (candidates this path req)).
    destruct (sort (compareHandlers path) (candidates this path req)); simpl;
      split; congruence.
  - intros best Hbest. unfold findBestHandler in Hbest.
    apply sort_head_least in Hbest;
      [|apply compareHandlers_trans|apply compareHandlers_total].
    destruct Hbest as [Hin Hle]. split; [exact Hin|].
    intros other Hother. specialize (Hle other Hother).
    unfold compareHandlers in Hle.
    destruct (matcher other) as [so|o] eqn:Eo, (matcher best) as [sb|b] eqn:Eb;
      try exact I; [lia|].
    destruct (candidate_match _ _ _ _ Hother Eo) as [mo Hmo].
    destruct (candidate_match _ _ _ _ Hin Eb) as [mb Hmb].
    rewrite (matchLength_exec _ _ Hmo), (matchLength_exec _ _ Hmb) in Hle.
    exists mo, mb. split; [exact Hmo|]. split; [exact Hmb|]. lia.
Qed.

(** Witness on the sample routes. For [GET /targets/node/api.ts] the
    literal entry is returned, although two patterns match the path too.
    For [GET /targets/node/x] two patterns match at the start of the path,
    [/^\/targets/] and [/^\/targets\/node/]: the entry of the second, whose
    match is the longer, is returned although it was registered after the
    first. *)
Lemma findBestHandler_resolution_witness :
  (exists best,
     findBestHandler Sample.routed "/targets/node/api.ts"
       (Sample.get_ "/targets/node/api.ts") = Some best /\
     matcher best = MString "/targets/node/api.ts" /\
     In best (candidates Sample.routed "/targets/node/api.ts"
                (Sample.get_ "/targets/node/api.ts"))) /\
  (exists best,
     findBestHandler Sample.routed "/targets/node/x" (Sample.get_ "/targets/node/x")
       = Some best /\
     matcher best = MRegExp (Sample.anchored "/targets/node") /\
     exists mo mb,
       exec (Sample.anchored "/targets") "/targets/node/x" = Some (0%nat, mo) /\
       exec (Sample.anchored "/targets/node") "/targets/node/x" = Some (0%nat, mb) /\
       (String.length mo <= String.length mb)%nat).
Proof.
  split.
  - eexists. split; [reflexivity|]. split; [reflexivity|].
    exact (proj1 (proj2 (proj2
      (findBestHandler_resolution Sample.routed "/targets/node/api.ts"
         (Sample.get_ "/targets/node/api.ts"))) _ eq_refl)).
  - eexists. split; [reflexivity|]. split; [reflexivity|].
    exact (proj2 (proj2 (proj2
      (findBestHandler_resolution Sample.routed "/targets/node/x"
         (Sample.get_ "/targets/node/x"))) _ eq_refl)
      {| h_method := "GET"; matcher := MRegExp (Sample.anchored "/targets");
         handler := Sample.tagged "short pattern" |}
      (or_introl eq_refl)).
Defined.

(* ================================================================= *)
(** ** Protocol normaliser *)

Ltac monad_unfold :=
  unfold bind, lift, ret, throw, on_host, call_host, try_catch in *.

Section Normaliser.
Variable W : Type.
Variable P : Platform W.
Variable C : Codec.

Lemma or_random_hex_truthy :
  forall v st, truthy v = true -> or_random_hex P v st = (inr v, st).
Proof. intros v st H; unfold or_random_hex; rewrite H; reflexivity. Qed.

Lemma or_random_hex_falsy :
  forall v st, truthy v = false ->
    or_random_hex P v st =
      (inr (VStr (toHex (fst (randomBytes P 16 (host st))))),
       with_host (snd (randomBytes P 16 (host st))) st).
Proof. intros v st H; unfold or_random_hex; rewrite H; reflexivity. Qed.

Lemma missing_falsy : forall v, missing v -> truthy v = false.
Proof. intros v [->| ->]; reflexivity. Qed.

Lemma missing_or_else : forall v d, missing v -> or_else v d = d.
Proof. intros v d H; unfold or_else; rewrite (missing_falsy H); reflexivity. Qed.

End Normaliser.

(** C1 (amended). For a body that parses to a JSON object the detected
    version is the value of its [version] field when it has one, else 2
    when it has a [requestId] field, else 1; an array has neither field and
    is detected as 1; on any other JSON value (null, a number, a string, a
    boolean) detection throws. A body whose [version] field is 3 is handed
    to the V3 parser whatever other fields it carries. *)
Theorem identifyRequestVersion_detection :
  forall (W : Type) (P : Platform W) (C : Codec) (req : IncomingMessage)
         (body : string) (json : value) (st : State W),
    JSON_parse P body = inr json ->
    match json with
    | VObj props =>
        identifyRequestVersion P req body st =
          (inr (match lookup "version" props with
                | Some v => v
                | None => if has_key "requestId" props then VNum 2 else VNum 1
                end), st) /\
        (lookup "version" props = Some (VNum 3) ->
         parseRequest P C req body st =
           (r <- parseRequestV3 P C req body ;; ret (Some r)) st)
    | VArr _ => identifyRequestVersion P req body st = (inr (VNum 1), st)
    | _ => exists e, identifyRequestVersion P req body st = (inl e, st)
    end.
Proof.
  intros W P C req body json st Hparse.
  unfold parseRequest, identifyRequestVersion. monad_unfold. rewrite Hparse.
  destruct json; simpl; eauto.
  unfold has_key, prop.
  destruct (lookup "version" props) as [v|] eqn:Ev.
  - split; [reflexivity|]. intros Hv; injection Hv as ->. reflexivity.
  - split; [|discriminate].
    destruct (lookup "requestId" props); reflexivity.
Qed.

(** Witness: the sample V3 body that also carries the V2 fields
    [requestId] and [deviceId] is detected as version 3 and parsed by the
    V3 parser. *)
Lemma identifyRequestVersion_detection_witness :
  identifyRequestVersion Sample.platform (Sample.post "")
    (Sample.show (Sample.request_v3 "ping"
       [("requestId", VStr "abc"); ("deviceId", VStr "d2")])) Sample.start
  = (inr (VNum 3), Sample.start).
Proof.
  exact (proj1 (@identifyRequestVersion_detection _ Sample.platform ref_codec
    (Sample.post "")
    (Sample.show (Sample.request_v3 "ping"
       [("requestId", VStr "abc"); ("deviceId", VStr "d2")]))
    (Sample.request_v3 "ping" [("requestId", VStr "abc"); ("deviceId", VStr "d2")])
    Sample.start eq_refl)).
Defined.

(** Counterexample to C1 as stated: the body [5] is valid JSON with
    neither field, and detection throws instead of answering 1. *)
Lemma identifyRequestVersion_number_body :
  JSON_parse Sample.platform "5" = inr (VNum 5) /\
  identifyRequestVersion Sample.platform (Sample.post "5") "5" Sample.start
  = (inl (TypeError "Cannot use 'in' operator to search for 'version'"), Sample.start).
Proof. split; reflexivity. Qed.

(* ----------------------------------------------------------------- *)
(** *** Random tokens *)

Lemma randomBytes_length :
  forall W (P : Platform W) n w, List.length (fst (randomBytes P n w)) = n.
Proof.
  intros W P n; induction n as [|n IH]; intros w; simpl; [reflexivity|].
  destruct (randomByte P w) as [b w1].
  specialize (IH w1). destruct (randomBytes P n w1) as [bs w2].
  simpl in *. congruence.
Qed.

Lemma toHex_length : forall buf, String.length (toHex buf) = (2 * List.length buf)%nat.
Proof.
  induction buf as [|b buf IH]; simpl; [reflexivity|]. rewrite IH. lia.
Qed.

Lemma toHex_chars : forall buf, allChars isHexChar (toHex buf) = true.
Proof.
  induction buf as [|b buf IH]; [reflexivity|].
  cbn [toHex allChars]. rewrite IH.
  destruct b; reflexivity.
Qed.

Lemma fromHex_toHex : forall buf, fromHex (toHex buf) = map Some buf.
Proof.
  induction buf as [|b buf IH]; [reflexivity|].
  cbn [toHex fromHex map]. rewrite IH. f_equal.
  destruct b; reflexivity.
Qed.

Lemma toHex_inj : forall b1 b2, toHex b1 = toHex b2 -> b1 = b2.
Proof.
  intros b1 b2 H.
  assert (Hm : map Some b1 = map Some b2) by (rewrite <- !fromHex_toHex; congruence).
  clear H. revert b2 Hm; induction b1 as [|x b1 IH]; intros [|y b2] Hm;
    simpl in Hm; try discriminate; [reflexivity|].
  injection Hm as -> Hm. f_equal. auto.
Qed.

(** A token drawn by [randomBytes(16).toString("hex")] has 32 hex digits. *)
Lemma token_shape :
  forall W (P : Platform W) w,
    String.length (toHex (fst (randomBytes P 16 w))) = 32%nat /\
    allChars isHexChar (toHex (fst (randomBytes P 16 w))) = true.
Proof.
  intros. rewrite toHex_length, randomBytes_length, toHex_chars. split; reflexivity.
Qed.

(* ----------------------------------------------------------------- *)
(** *** The parsers on a decoded body *)

Lemma with_host_same : forall W (st : State W), with_host (host st) st = st.
Proof. intros W [h r c]; reflexivity. Qed.

Section Parsers.
Variable W : Type.
Variable P : Platform W.
Variable C : Codec.
Variable req : IncomingMessage.
Variable body : string.
Variable json : value.
Hypothesis Hparse : JSON_parse P body = inr json.

Lemma or_random_hex_token_or :
  forall v st,
    or_random_hex P v st =
      (inr (fst (token_or P v (host st))), with_host (snd (token_or P v (host st))) st).
Proof.
  intros v st. unfold or_random_hex, token_or.
  destruct (truthy v); simpl; [rewrite with_host_same|]; reflexivity.
Qed.

Lemma get_deviceInfo :
  forall v k, get (or_else v (VObj [])) k = inr (prop k (deviceFields v)).
Proof.
  intros v k. unfold or_else.
  destruct v; simpl; try reflexivity.
  - destruct b; reflexivity.
  - destruct (_ || _)%bool; reflexivity.
  - destruct (s =? "")%string; reflexivity.
Qed.

(** The V3 parser on a decoded object: it returns, and every field of
    the result is read off the decoded fields. *)
Lemma parseRequestV3_decoded :
  forall props st,
    decode C V3_types "root" (TName "Request") json = inr (VObj props) ->
    let dev := deviceFields (prop "deviceInfo" props) in
    let t1 := token_or P (prop "requestId" props) (host st) in
    let t2 := token_or P (prop "id" dev) (snd t1) in
    parseRequestV3 P C req body st =
      (inr {| version := 3;
              id := fst t1;
              args := prop "args" props;
              name := prop "name" props;
              extra := if truthy (prop "extra" props)
                       then VObj (spread (prop "extra" props)) else VObj [];
              headers := req_headers req;
              deviceInfo :=
                {| dev_id := fst t2;
                   dev_language := or_else (prop "language" dev) VNull;
                   dev_platform :=
                     VObj [("browserUserAgent", or_else (prop "browserUserAgent" dev) VNull)];
                   dev_timezone := or_else (prop "timezone" dev) VNull;
                   dev_type := or_else (prop "type" dev) (VStr "api");
                   dev_version := or_else (prop "version" dev) VNull |} |},
       with_host (snd t2) st).
Proof.
  intros props st Hdec dev t1 t2.
  unfold parseRequestV3. unfold bind at 1. unfold lift at 1. rewrite Hparse.
  unfold ret at 1. unfold bind at 1. unfold lift at 1. rewrite Hdec.
  unfold ret at 1. cbn [get].
  unfold bind, lift. cbn [ret].
  rewrite !get_deviceInfo. cbn [ret].
  rewrite or_random_hex_token_or. rewrite or_random_hex_token_or.
  reflexivity.
Qed.

(** The V1 parser on a decoded object whose [device] is an object. *)
Lemma parseRequestV1_decoded :
  forall props dev st,
    decode C V1_types "root" (TName "Request") json = inr (VObj props) ->
    prop "device" props = VObj dev ->
    parseRequestV1 P C req body st =
      (inr {| version := 1;
              id := prop "id" props;
              args := prop "args" props;
              name := prop "name" props;
              extra := VObj [];
              headers := req_headers req;
              deviceInfo :=
                {| dev_id := or_else (prop "id" dev) (prop "id" props);
                   dev_language := prop "language" dev;
                   dev_platform := prop "platform" dev;
                   dev_timezone := prop "timezone" dev;
                   dev_type := or_else (or_else (prop "type" dev) (prop "platform" dev)) (VStr "");
                   dev_version := prop "version" dev |} |}, st).
Proof.
  intros props dev st Hdec Hdev.
  unfold parseRequestV1. monad_unfold. rewrite Hparse, Hdec. cbn [get].
  rewrite Hdev. reflexivity.
Qed.

(** The V2 parser on a decoded object whose [info] is an object. *)
Lemma parseRequestV2_decoded :
  forall props info st,
    decode C V2_types "root" (TName "Request") json = inr (VObj props) ->
    prop "info" props = VObj info ->
    parseRequestV2 P C req body st =
      (inr {| version := 2;
              id := prop "requestId" props;
              args := prop "args" props;
              name := prop "name" props;
              extra := VObj [("sessionId", prop "sessionId" props);
                             ("partnerId", prop "partnerId" props)];
              headers := req_headers req;
              deviceInfo :=
                {| dev_id := prop "deviceId" props;
                   dev_language := prop "language" info;
                   dev_platform :=
                     VObj [("browserUserAgent", or_else (prop "browserUserAgent" info) VNull)];
                   dev_timezone := VNull;
                   dev_type := prop "type" info;
                   dev_version := VStr "" |} |}, st).
Proof.
  intros props info st Hdec Hinfo.
  unfold parseRequestV2. monad_unfold. rewrite Hparse, Hdec. cbn [get].
  rewrite Hinfo. reflexivity.
Qed.

End Parsers.

(** C2 (amended). A minimally valid body of each generation normalises to
    the documented defaults. V3 without [requestId], [deviceInfo] and
    [extra]: the request id and the device id are two tokens drawn one
    after the other from the entropy source, each of 32 hex digits; the
    device type is ["api"], the other device fields are [null], [extra] is
    the empty object; two calls whose draws differ get different ids. An
    [extra] that is given is spread into a new object: an object keeps its
    entries, an array or a string is keyed again by index, a number or a
    boolean leaves the empty object. V1 without [device.id] and [device.type]: the
    device id is the request id, the device type is the platform when there
    is one and the empty string otherwise. V2: timezone [null], version the
    empty string, [browserUserAgent] [null] when not given. *)
Theorem minimal_request_defaults :
  forall (W : Type) (P : Platform W) (C : Codec) (req : IncomingMessage)
         (body : string) (json : value) (props : list (string * value)) (st : State W),
    JSON_parse P body = inr json ->
    (decode C V3_types "root" (TName "Request") json = inr (VObj props) ->
     (missing (prop "requestId" props) ->
      missing (prop "deviceInfo" props) ->
      missing (prop "extra" props) ->
      let d1 := randomBytes P 16 (host st) in
      let d2 := randomBytes P 16 (snd d1) in
      parseRequestV3 P C req body st =
        (inr {| version := 3;
                id := VStr (toHex (fst d1));
                args := prop "args" props;
                name := prop "name" props;
                extra := VObj [];
                headers := req_headers req;
                deviceInfo :=
                  {| dev_id := VStr (toHex (fst d2));
                     dev_language := VNull;
                     dev_platform := VObj [("browserUserAgent", VNull)];
                     dev_timezone := VNull;
                     dev_type := VStr "api";
                     dev_version := VNull |} |},
         with_host (snd d2) st) /\
      String.length (toHex (fst d1)) = 32%nat /\
      allChars isHexChar (toHex (fst d1)) = true /\
      String.length (toHex (fst d2)) = 32%nat /\
      allChars isHexChar (toHex (fst d2)) = true /\
      forall st',
        fst (randomBytes P 16 (host st')) <> fst d1 ->
        option_map id (returned (parseRequestV3 P C req body st')) <>
        option_map id (returned (parseRequestV3 P C req body st))) /\
     (let out := option_map extra (returned (parseRequestV3 P C req body st)) in
      (forall entries, prop "extra" props = VObj entries -> out = Some (VObj entries)) /\
      (forall items,
         prop "extra" props = VArr items -> out = Some (VObj (index_from 0 items))) /\
      (forall s, prop "extra" props = VStr s -> out = Some (VObj (chars_from 0 s))) /\
      (forall n, prop "extra" props = VNum n -> out = Some (VObj [])) /\
      (forall b, prop "extra" props = VBool b -> out = Some (VObj []))) /\
     (let dev := deviceFields (prop "deviceInfo" props) in
      let out := returned (parseRequestV3 P C req body st) in
      let after_id := snd (token_or P (prop "requestId" props) (host st)) in
      (missing (prop "requestId" props) ->
       option_map id out = Some (VStr (toHex (fst (randomBytes P 16 (host st)))))) /\
      (missing (prop "id" dev) ->
       option_map (fun r => dev_id (deviceInfo r)) out =
         Some (VStr (toHex (fst (randomBytes P 16 after_id))))) /\
      (missing (prop "type" dev) ->
       option_map (fun r => dev_type (deviceInfo r)) out = Some (VStr "api")) /\
      (missing (prop "language" dev) ->
       option_map (fun r => dev_language (deviceInfo r)) out = Some VNull) /\
      (missing (prop "timezone" dev) ->
       option_map (fun r => dev_timezone (deviceInfo r)) out = Some VNull) /\
      (missing (prop "version" dev) ->
       option_map (fun r => dev_version (deviceInfo r)) out = Some VNull) /\
      (missing (prop "browserUserAgent" dev) ->
       option_map (fun r => dev_platform (deviceInfo r)) out =
         Some (VObj [("browserUserAgent", VNull)])) /\
      (missing (prop "extra" props) -> option_map extra out = Some (VObj [])))) /\
    (decode C V1_types "root" (TName "Request") json = inr (VObj props) ->
     forall dev,
       prop "device" props = VObj dev ->
       (missing (prop "id" dev) ->
        option_map (fun r => dev_id (deviceInfo r))
                   (returned (parseRequestV1 P C req body st)) = Some (prop "id" props)) /\
       (missing (prop "type" dev) ->
        option_map (fun r => dev_type (deviceInfo r))
                   (returned (parseRequestV1 P C req body st)) =
          Some (if truthy (prop "platform" dev) then prop "platform" dev else VStr "")) /\
       (missing (prop "id" dev) ->
       missing (prop "type" dev) ->
       parseRequestV1 P C req body st =
         (inr {| version := 1;
                 id := prop "id" props;
                 args := prop "args" props;
                 name := prop "name" props;
                 extra := VObj [];
                 headers := req_headers req;
                 deviceInfo :=
                   {| dev_id := prop "id" props;
                      dev_language := prop "language" dev;
                      dev_platform := prop "platform" dev;
                      dev_timezone := prop "timezone" dev;
                      dev_type := if truthy (prop "platform" dev)
                                  then prop "platform" dev else VStr "";
                      dev_version := prop "version" dev |} |}, st))) /\
    (decode C V2_types "root" (TName "Request") json = inr (VObj props) ->
     forall info,
       prop "info" props = VObj info ->
       missing (prop "browserUserAgent" info) ->
       parseRequestV2 P C req body st =
         (inr {| version := 2;
                 id := prop "requestId" props;
                 args := prop "args" props;
                 name := prop "name" props;
                 extra := VObj [("sessionId", prop "sessionId" props);
                                ("partnerId", prop "partnerId" props)];
                 headers := req_headers req;
                 deviceInfo :=
                   {| dev_id := prop "deviceId" props;
                      dev_language := prop "language" info;
                      dev_platform := VObj [("browserUserAgent", VNull)];
                      dev_timezone := VNull;
                      dev_type := prop "type" info;
                      dev_version := VStr "" |} |}, st)).
Proof.
  intros W P C req body json props st Hparse. split; [|split].
  - intros Hdec.
    assert (Hrun : forall s, parseRequestV3 P C req body s = _)
      by (intros s; exact (parseRequestV3_decoded P C req body Hparse s Hdec)).
    split.
    + intros Hid Hdev Hextra d1 d2.
      assert (Hshape : forall s,
                missing (prop "requestId" props) ->
                token_or P (prop "requestId" props) (host s) =
                  (VStr (toHex (fst (randomBytes P 16 (host s)))),
                   snd (randomBytes P 16 (host s)))).
      { intros s H. unfold token_or. rewrite (missing_falsy H). reflexivity. }
      split; [|repeat split; try apply token_shape].
      * rewrite Hrun, (Hshape st Hid). cbn [fst snd].
        destruct Hdev as [-> | ->]; cbn [deviceFields prop lookup];
          unfold token_or; cbn [truthy fst snd];
          rewrite (missing_falsy Hextra); reflexivity.
      * intros st' Hneq. rewrite !Hrun. unfold returned. cbn [fst option_map id].
        rewrite (Hshape st Hid), (Hshape st' Hid). cbn [fst].
        intros Heq. apply Hneq. injection Heq as Heq. apply toHex_inj. exact Heq.
    + split.
      { cbv zeta. rewrite Hrun. unfold returned. cbn [fst option_map extra].
        split; [|split; [|split; [|split]]].
        - intros entries ->. reflexivity.
        - intros items ->. reflexivity.
        - intros s ->. destruct s; reflexivity.
        - intros n ->. cbn [spread]. destruct (truthy (VNum n)); reflexivity.
        - intros b ->. destruct b; reflexivity. }
      cbv zeta. rewrite Hrun. unfold returned.
      cbn [fst option_map id extra deviceInfo dev_id dev_type dev_language dev_timezone
           dev_version dev_platform].
      repeat split; intros Hm;
        try (rewrite (missing_or_else _ Hm); reflexivity);
        try (unfold token_or at 1; rewrite (missing_falsy Hm); reflexivity).
      rewrite (missing_falsy Hm); reflexivity.
  - intros Hdec dev Hdev.
    rewrite (parseRequestV1_decoded P C req body Hparse st Hdec Hdev).
    unfold returned. cbn [fst option_map deviceInfo dev_id dev_type].
    split; [|split].
    + intros Hid. rewrite (missing_or_else _ Hid). reflexivity.
    + intros Htype. unfold or_else at 2. rewrite (missing_falsy Htype). reflexivity.
    + intros Hid Htype.
      rewrite (missing_or_else _ Hid).
      unfold or_else at 2. rewrite (missing_falsy Htype).
      reflexivity.
  - intros Hdec info Hinfo Hua.
    rewrite (parseRequestV2_decoded P C req body Hparse st Hdec Hinfo).
    rewrite (missing_or_else _ Hua). reflexivity.
Qed.

(** Witness: the three minimal sample bodies under the reference codec,
    and the sample V3 body whose [extra] is the string ["ab"]. *)
Lemma minimal_request_defaults_witness :
  option_map extra
    (returned (parseRequestV3 Sample.platform ref_codec (Sample.post "")
                 (Sample.show (Sample.request_v3 "ping" [("extra", VStr "ab")]))
                 Sample.start))
  = Some (VObj [("0", VStr "a"); ("1", VStr "b")]) /\
  parseRequestV3 Sample.platform ref_codec (Sample.post "")
    (Sample.show (Sample.request_v3 "ping" [])) Sample.start =
    (inr {| version := 3;
            id := VStr "000102030405060708090a0b0c0d0e0f";
            args := VObj [];
            name := VStr "ping";
            extra := VObj [];
            headers := [];
            deviceInfo :=
              {| dev_id := VStr "101112131415161718191a1b1c1d1e1f";
                 dev_language := VNull;
                 dev_platform := VObj [("browserUserAgent", VNull)];
                 dev_timezone := VNull;
                 dev_type := VStr "api";
                 dev_version := VNull |} |},
     with_host 32%nat Sample.start) /\
  parseRequestV1 Sample.platform ref_codec (Sample.post "")
    (Sample.show (Sample.request_v1 "ping" [])) Sample.start =
    (inr {| version := 1;
            id := VStr "r1";
            args := VObj [];
            name := VStr "ping";
            extra := VObj [];
            headers := [];
            deviceInfo :=
              {| dev_id := VStr "r1";
                 dev_language := VNull;
                 dev_platform := VNull;
                 dev_timezone := VNull;
                 dev_type := VStr "";
                 dev_version := VNull |} |},
     Sample.start) /\
  parseRequestV2 Sample.platform ref_codec (Sample.post "")
    (Sample.show (Sample.request_v2 "ping")) Sample.start =
    (inr {| version := 2;
            id := VStr "r2";
            args := VObj [];
            name := VStr "ping";
            extra := VObj [("sessionId", VNull); ("partnerId", VNull)];
            headers := [];
            deviceInfo :=
              {| dev_id := VStr "d2";
                 dev_language := VStr "en";
                 dev_platform := VObj [("browserUserAgent", VNull)];
                 dev_timezone := VNull;
                 dev_type := VStr "web";
                 dev_version := VStr "" |} |},
     Sample.start).
Proof.
  split; [|split; [|split]].
  - exact (proj1 (proj2 (proj2 (proj1 (proj2 (proj1
      (@minimal_request_defaults _ Sample.platform ref_codec (Sample.post "")
         (Sample.show (Sample.request_v3 "ping" [("extra", VStr "ab")]))
         (Sample.request_v3 "ping" [("extra", VStr "ab")])
         [("requestId", VNull); ("name", VStr "ping"); ("args", VObj []);
          ("extra", VStr "ab"); ("deviceInfo", VNull)]
         Sample.start eq_refl) eq_refl))))) "ab" eq_refl).
  - exact (proj1 (proj1 (proj1
      (@minimal_request_defaults _ Sample.platform ref_codec (Sample.post "")
         (Sample.show (Sample.request_v3 "ping" []))
         (Sample.request_v3 "ping" [])
         [("requestId", VNull); ("name", VStr "ping"); ("args", VObj []);
          ("extra", VNull); ("deviceInfo", VNull)]
         Sample.start eq_refl) eq_refl)
      (or_intror eq_refl) (or_intror eq_refl) (or_intror eq_refl))).
  - exact (proj2 (proj2 (proj1 (proj2
      (@minimal_request_defaults _ Sample.platform ref_codec (Sample.post "")
         (Sample.show (Sample.request_v1 "ping" []))
         (Sample.request_v1 "ping" [])
         [("id", VStr "r1"); ("args", VObj []); ("name", VStr "ping");
          ("device", VObj [("id", VNull); ("type", VNull); ("platform", VNull);
                           ("version", VNull); ("language", VNull);
                           ("timezone", VNull)])]
         Sample.start eq_refl)) eq_refl _ eq_refl))
      (or_intror eq_refl) (or_intror eq_refl)).
  - exact (proj2 (proj2
      (@minimal_request_defaults _ Sample.platform ref_codec (Sample.post "")
         (Sample.show (Sample.request_v2 "ping"))
         (Sample.request_v2 "ping")
         [("requestId", VStr "r2"); ("deviceId", VStr "d2"); ("sessionId", VNull);
          ("partnerId", VNull); ("args", VObj []); ("name", VStr "ping");
          ("info", VObj [("type", VStr "web"); ("browserUserAgent", VNull);
                         ("language", VStr "en")])]
         Sample.start eq_refl)) eq_refl _ eq_refl (or_intror eq_refl)).
Defined.

(** Counterexample to C2 as stated: an [extra] that is given is not always
    copied as it is. The sample V3 body with [extra: 5] is valid JSON that
    the request schema accepts ([extra] has the type [any?]); a number has
    no own properties, so the request gets the empty object. The body with
    the string ["ab"] as [extra] gets an object of its two characters. *)
Lemma extra_number_spread :
  let number := Sample.request_v3 "ping" [("extra", VNum 5)] in
  let text := Sample.request_v3 "ping" [("extra", VStr "ab")] in
  (JSON_parse Sample.platform (Sample.show number) = inr number /\
   prop "extra" [("version", VNum 3); ("name", VStr "ping"); ("args", VObj []);
                 ("extra", VNum 5)] = VNum 5 /\
   option_map extra
     (returned (parseRequestV3 Sample.platform ref_codec (Sample.post "")
                  (Sample.show number) Sample.start))
   = Some (VObj [])) /\
  (JSON_parse Sample.platform (Sample.show text) = inr text /\
   option_map extra
     (returned (parseRequestV3 Sample.platform ref_codec (Sample.post "")
                  (Sample.show text) Sample.start))
   = Some (VObj [("0", VStr "a"); ("1", VStr "b")])).
Proof. cbv zeta. split; [split; [|split]|split]; reflexivity. Qed.

(* ----------------------------------------------------------------- *)
(** *** Empty strings *)

Lemma token_or_falsy :
  forall W (P : Platform W) v v' w,
    truthy v = false -> truthy v' = false -> token_or P v w = token_or P v' w.
Proof. intros W P v v' w H H'; unfold token_or; rewrite H, H'; reflexivity. Qed.

(** C10. The defaults are applied by truthiness. In a V3 body a
    [requestId] or a device [id] that is the empty string is replaced by a
    token drawn from the entropy source, and in a V1 body a [device.id]
    that is the empty string is replaced by the request id; in each case
    the parser's result is the one it gives for the same body with the
    field left out. *)
Theorem empty_string_defaults :
  forall (W : Type) (P : Platform W) (C : Codec) (req : IncomingMessage)
         (body : string) (json : value) (props : list (string * value)) (st : State W),
    JSON_parse P body = inr json ->
    (decode C V3_types "root" (TName "Request") json = inr (VObj props) ->
     (prop "requestId" props = VStr "" ->
      option_map id (returned (parseRequestV3 P C req body st)) =
        Some (VStr (toHex (fst (randomBytes P 16 (host st))))) /\
      forall body' json' props',
        JSON_parse P body' = inr json' ->
        decode C V3_types "root" (TName "Request") json' = inr (VObj props') ->
        (forall k, k <> "requestId" -> prop k props' = prop k props) ->
        missing (prop "requestId" props') ->
        parseRequestV3 P C req body' st = parseRequestV3 P C req body st) /\
     (forall dev,
        prop "deviceInfo" props = VObj dev ->
        prop "id" dev = VStr "" ->
        option_map (fun r => dev_id (deviceInfo r))
                   (returned (parseRequestV3 P C req body st)) =
          Some (VStr (toHex (fst (randomBytes P 16
                  (snd (token_or P (prop "requestId" props) (host st))))))) /\
        forall body' json' props' dev',
          JSON_parse P body' = inr json' ->
          decode C V3_types "root" (TName "Request") json' = inr (VObj props') ->
          (forall k, k <> "deviceInfo" -> prop k props' = prop k props) ->
          prop "deviceInfo" props' = VObj dev' ->
          (forall k, k <> "id" -> prop k dev' = prop k dev) ->
          missing (prop "id" dev') ->
          parseRequestV3 P C req body' st = parseRequestV3 P C req body st)) /\
    (decode C V1_types "root" (TName "Request") json = inr (VObj props) ->
     forall dev,
       prop "device" props = VObj dev ->
       prop "id" dev = VStr "" ->
       option_map (fun r => dev_id (deviceInfo r))
                  (returned (parseRequestV1 P C req body st)) =
         Some (prop "id" props) /\
       forall body' json' props' dev',
         JSON_parse P body' = inr json' ->
         decode C V1_types "root" (TName "Request") json' = inr (VObj props') ->
         (forall k, k <> "device" -> prop k props' = prop k props) ->
         prop "device" props' = VObj dev' ->
         (forall k, k <> "id" -> prop k dev' = prop k dev) ->
         missing (prop "id" dev') ->
         parseRequestV1 P C req body' st = parseRequestV1 P C req body st).
Proof.
  intros W P C req body json props st Hparse. split.
  - intros Hdec.
    pose proof (parseRequestV3_decoded P C req body Hparse st Hdec) as Hrun.
    cbv zeta in Hrun. split.
    + intros Hid. split.
      * rewrite Hrun. unfold returned. cbn [fst option_map id].
        rewrite Hid. reflexivity.
      * intros body' json' props' Hparse' Hdec' Hsame Hmiss.
        rewrite Hrun.
        rewrite (parseRequestV3_decoded P C req body' Hparse' st Hdec').
        cbv zeta.
        rewrite (Hsame "deviceInfo"), (Hsame "args"), (Hsame "name"), (Hsame "extra")
          by discriminate.
        rewrite (token_or_falsy P (prop "requestId" props') (prop "requestId" props)
                   (host st) (missing_falsy Hmiss))
          by (rewrite Hid; reflexivity).
        reflexivity.
    + intros dev Hdev Hid. split.
      * rewrite Hrun. unfold returned. cbn [fst option_map deviceInfo dev_id].
        rewrite Hdev. cbn [deviceFields]. rewrite Hid. reflexivity.
      * intros body' json' props' dev' Hparse' Hdec' Hsame Hdev' Hsame' Hmiss.
        rewrite Hrun.
        rewrite (parseRequestV3_decoded P C req body' Hparse' st Hdec').
        cbv zeta.
        rewrite (Hsame "requestId"), (Hsame "args"), (Hsame "name"), (Hsame "extra")
          by discriminate.
        rewrite Hdev, Hdev'. cbn [deviceFields].
        rewrite (Hsame' "language"), (Hsame' "browserUserAgent"), (Hsame' "timezone"),
          (Hsame' "type"), (Hsame' "version") by discriminate.
        rewrite (token_or_falsy P (prop "id" dev') (prop "id" dev)
                   (snd (token_or P (prop "requestId" props) (host st)))
                   (missing_falsy Hmiss))
          by (rewrite Hid; reflexivity).
        reflexivity.
  - intros Hdec dev Hdev Hid.
    pose proof (parseRequestV1_decoded P C req body Hparse st Hdec Hdev) as Hrun.
    split.
    + rewrite Hrun. unfold returned. cbn [fst option_map deviceInfo dev_id].
      rewrite Hid. reflexivity.
    + intros body' json' props' dev' Hparse' Hdec' Hsame Hdev' Hsame' Hmiss.
      rewrite Hrun.
      rewrite (parseRequestV1_decoded P C req body' Hparse' st Hdec' Hdev').
      rewrite (Hsame "id"), (Hsame "args"), (Hsame "name") by discriminate.
      rewrite (Hsame' "language"), (Hsame' "platform"), (Hsame' "timezone"),
        (Hsame' "type"), (Hsame' "version") by discriminate.
      rewrite (missing_or_else _ Hmiss). rewrite Hid. reflexivity.
Qed.

(** Witness: the sample bodies with empty-string ids. The V3 body gets the
    two tokens, the V1 body gets its request id as device id and parses
    to what the minimal V1 body parses to. *)
Lemma empty_string_defaults_witness :
  let body3 := Sample.show (Sample.request_v3 "ping"
                 [("requestId", VStr ""); ("deviceInfo", VObj [("id", VStr "")])]) in
  let body1 := Sample.show (Sample.request_v1 "ping" [("id", VStr "")]) in
  (option_map id
     (returned (parseRequestV3 Sample.platform ref_codec (Sample.post "") body3 Sample.start))
   = Some (VStr "000102030405060708090a0b0c0d0e0f") /\
   option_map (fun r => dev_id (deviceInfo r))
     (returned (parseRequestV3 Sample.platform ref_codec (Sample.post "") body3 Sample.start))
   = Some (VStr "101112131415161718191a1b1c1d1e1f")) /\
  option_map (fun r => dev_id (deviceInfo r))
    (returned (parseRequestV1 Sample.platform ref_codec (Sample.post "") body1 Sample.start))
  = Some (VStr "r1") /\
  parseRequestV1 Sample.platform ref_codec (Sample.post "")
    (Sample.show (Sample.request_v1 "ping" [])) Sample.start
  = parseRequestV1 Sample.platform ref_codec (Sample.post "") body1 Sample.start.
Proof.
  cbv zeta.
  pose proof (proj1 (@empty_string_defaults _ Sample.platform ref_codec (Sample.post "")
    (Sample.show (Sample.request_v3 "ping"
       [("requestId", VStr ""); ("deviceInfo", VObj [("id", VStr "")])]))
    (Sample.request_v3 "ping"
       [("requestId", VStr ""); ("deviceInfo", VObj [("id", VStr "")])])
    [("requestId", VStr ""); ("name", VStr "ping"); ("args", VObj []);
     ("extra", VNull);
     ("deviceInfo", VObj [("id", VStr ""); ("type", VNull); ("browserUserAgent", VNull);
                          ("timezone", VNull); ("version", VNull); ("language", VNull)])]
    Sample.start eq_refl) eq_refl) as [H3id H3dev].
  pose proof (proj2 (@empty_string_defaults _ Sample.platform ref_codec (Sample.post "")
    (Sample.show (Sample.request_v1 "ping" [("id", VStr "")]))
    (Sample.request_v1 "ping" [("id", VStr "")])
    [("id", VStr "r1"); ("args", VObj []); ("name", VStr "ping");
     ("device", VObj [("id", VStr ""); ("type", VNull); ("platform", VNull);
                      ("version", VNull); ("language", VNull); ("timezone", VNull)])]
    Sample.start eq_refl) eq_refl _ eq_refl eq_refl) as [H1id H1same].
  split; [split|split].
  - exact (proj1 (H3id eq_refl)).
  - exact (proj1 (H3dev _ eq_refl eq_refl)).
  - exact H1id.
  - refine (H1same (Sample.show (Sample.request_v1 "ping" []))
              (Sample.request_v1 "ping" [])
              [("id", VStr "r1"); ("args", VObj []); ("name", VStr "ping");
               ("device", VObj [("id", VNull); ("type", VNull); ("platform", VNull);
                                ("version", VNull); ("language", VNull);
                                ("timezone", VNull)])]
              [("id", VNull); ("type", VNull); ("platform", VNull);
               ("version", VNull); ("language", VNull); ("timezone", VNull)]
              eq_refl eq_refl _ eq_refl _ (or_intror eq_refl)).
    + intros k Hk. unfold prop. cbn [lookup].
      destruct (String.eqb_spec "id" k) as [|_]; [reflexivity|].
      destruct (String.eqb_spec "args" k) as [|_]; [reflexivity|].
      destruct (String.eqb_spec "name" k) as [|_]; [reflexivity|].
      destruct (String.eqb_spec "device" k) as [E|_]; [|reflexivity].
      exfalso; apply Hk; symmetry; exact E.
    + intros k Hk. unfold prop. cbn [lookup].
      destruct (String.eqb_spec "id" k) as [E|_]; [|reflexivity].
      exfalso; apply Hk; symmetry; exact E.
Defined.

(* ================================================================= *)
(** ** Reply writer *)

Ltac response_unfold :=
  unfold setStatus, write, end_, setHeader, log, console_log, modify_res in *.

(** C4. A reply written with its context for a V1 or V3 request sets the
    status to 500 when it carries an error of type "Fatal", to 400 when it
    carries an error of another type, and to 200 when it carries none. *)
Theorem writeReply_status :
  forall (W E : Type) (P : Platform W) (ctx : Context E) (reply : ContextReply)
         (st : State W),
    version (request ctx) = 1%Z \/ version (request ctx) = 3%Z ->
    let after := writeReply P (Some ctx) reply st in
    fst after = inr tt /\
    ended (res (snd after)) = true /\
    (forall e, error reply = Some e -> err_type e = "Fatal" ->
               statusCode (res (snd after)) = 500%Z) /\
    (forall e, error reply = Some e -> err_type e <> "Fatal" ->
               statusCode (res (snd after)) = 400%Z) /\
    (error reply = None -> statusCode (res (snd after)) = 200%Z).
Proof.
  intros W E P ctx reply st Hv after. subst after.
  unfold writeReply, statusOf. monad_unfold. response_unfold.
  destruct Hv as [-> | ->]; cbn -[String.eqb];
    (split; [reflexivity|]); (split; [reflexivity|]);
    (split; [|split]).
  all: try (intros e -> Ht).
  all: try (intros ->).
  all: try reflexivity.
  all: try (rewrite Ht; reflexivity).
  all: apply String.eqb_neq in Ht; rewrite Ht; reflexivity.
Qed.

(** Witness: a V1 context and a Fatal, a business and a success reply. *)
Lemma writeReply_status_witness :
  statusCode (res (snd (writeReply Sample.platform (Some (Sample.context_of 1))
                          (Fatal "boom") Sample.start))) = 500%Z /\
  statusCode (res (snd (writeReply Sample.platform (Some (Sample.context_of 1))
                          (Sample.business "NotFound" "no such user") Sample.start))) = 400%Z /\
  statusCode (res (snd (writeReply Sample.platform (Some (Sample.context_of 3))
                          (Sample.success (VStr "pong")) Sample.start))) = 200%Z.
Proof.
  split; [|split].
  - exact (proj1 (proj2 (proj2
      (@writeReply_status _ _ Sample.platform (Sample.context_of 1) (Fatal "boom")
         Sample.start (or_introl eq_refl)))) _ eq_refl eq_refl).
  - refine (proj1 (proj2 (proj2 (proj2
      (@writeReply_status _ _ Sample.platform (Sample.context_of 1)
         (Sample.business "NotFound" "no such user")
         Sample.start (or_introl eq_refl))))) _ eq_refl _).
    intros H; discriminate H.
  - exact (proj2 (proj2 (proj2 (proj2
      (@writeReply_status _ _ Sample.platform (Sample.context_of 3)
         (Sample.success (VStr "pong"))
         Sample.start (or_intror eq_refl))))) eq_refl).
Defined.

(** C7. A reply written with the context of a V2 request, whatever it
    carries, ends the response without writing to it and without touching
    its status: on a response that was not written to, the body is empty
    and the status is the default 200. *)
Theorem writeReply_v2_empty :
  forall (W E : Type) (P : Platform W) (ctx : Context E) (reply : ContextReply)
         (st : State W),
    version (request ctx) = 2%Z ->
    let after := writeReply P (Some ctx) reply st in
    fst after = inr tt /\
    ended (res (snd after)) = true /\
    written (res (snd after)) = written (res st) /\
    statusCode (res (snd after)) = statusCode (res st) /\
    res_headers (res (snd after)) = res_headers (res st) /\
    (res st = newResponse ->
     written (res (snd after)) = [] /\ statusCode (res (snd after)) = 200%Z).
Proof.
  intros W E P ctx reply st Hv after. subst after.
  unfold writeReply. monad_unfold. response_unfold. rewrite Hv. cbn.
  do 5 (split; [reflexivity|]).
  intros ->. split; reflexivity.
Qed.

(** Witness: a V2 context with a Fatal reply on a fresh response. *)
Lemma writeReply_v2_empty_witness :
  written (res (snd (writeReply Sample.platform (Some (Sample.context_of 2))
                       (Fatal "boom") Sample.start))) = [] /\
  statusCode (res (snd (writeReply Sample.platform (Some (Sample.context_of 2))
                          (Fatal "boom") Sample.start))) = 200%Z.
Proof.
  exact (proj2 (proj2 (proj2 (proj2 (proj2
    (@writeReply_v2_empty _ _ Sample.platform (Sample.context_of 2) (Fatal "boom")
       Sample.start eq_refl))))) eq_refl).
Defined.

(* ================================================================= *)
(** ** Dispatcher *)

Section HostOnly.
Variable W : Type.

Lemma host_only_ret : forall A (a : A), host_only (ret (W := W) a).
Proof. intros A a s; split; reflexivity. Qed.

Lemma host_only_throw : forall A e, host_only (throw (W := W) (A := A) e).
Proof. intros A e s; split; reflexivity. Qed.

Lemma host_only_lift : forall A (r : Exn + A), host_only (lift (W := W) r).
Proof. intros A [e|a] s; split; reflexivity. Qed.

Lemma host_only_on_host : forall A (f : W -> A * W), host_only (on_host f).
Proof. intros A f s; split; reflexivity. Qed.

Lemma host_only_bind :
  forall A B (m : M W A) (k : A -> M W B),
    host_only m -> (forall a, host_only (k a)) -> host_only (bind m k).
Proof.
  intros A B m k Hm Hk s. unfold bind.
  specialize (Hm s). destruct (m s) as [[e|a] s1]; simpl in *; [exact Hm|].
  destruct (Hk a s1) as [H1 H2]. destruct Hm as [H3 H4]. split; congruence.
Qed.

End HostOnly.

Ltac host_only_steps :=
  repeat first
    [ apply host_only_ret | apply host_only_throw | apply host_only_lift
    | apply host_only_on_host
    | apply host_only_bind; [|intros ?]
    | match goal with |- host_only (if ?b then _ else _) => destruct b end ].

Lemma parseRequest_host_only :
  forall W (P : Platform W) C req body, host_only (parseRequest P C req body).
Proof.
  intros W P C req body. unfold parseRequest.
  apply host_only_bind.
  - unfold identifyRequestVersion. host_only_steps.
  - intros v.
    unfold parseRequestV1, parseRequestV2, parseRequestV3, or_random_hex.
    host_only_steps.
Qed.

(** The parser never returns [null]: it returns a request or throws. *)
Lemma parseRequest_returns_request :
  forall W (P : Platform W) C req body st r st',
    parseRequest P C req body st = (inr r, st') -> exists request, r = Some request.
Proof.
  intros W P C req body st r st'. unfold parseRequest, bind.
  destruct (identifyRequestVersion P req body st) as [[e|v] s1]; [discriminate|].
  destruct (strict_eq_num v 1).
  { destruct (parseRequestV1 P C req body s1) as [[e|x] s2]; [discriminate|].
    unfold ret. intros H; injection H as <- _. eauto. }
  destruct (strict_eq_num v 2).
  { destruct (parseRequestV2 P C req body s1) as [[e|x] s2]; [discriminate|].
    unfold ret. intros H; injection H as <- _. eauto. }
  destruct (strict_eq_num v 3); [|discriminate].
  destruct (parseRequestV3 P C req body s1) as [[e|x] s2]; [discriminate|].
  unfold ret. intros H; injection H as <- _. eauto.
Qed.

Section Dispatch.
Variables W E : Type.
Variable P : Platform W.
Variable C : Codec.
Variable this : SdkgenHttpServer W E.
Variable req : IncomingMessage.
Variable body : string.
Variable clientIp : string.

(** An RPC call: no auxiliary route takes the request, it is a POST and
    the client's address is known. *)
Hypothesis Hroute : findBestHandler this (requestPath P this req) req = None.
Hypothesis Hmethod : req_method req = "POST".
Hypothesis Hip : getClientIp P req = Some clientIp.
Hypothesis Hknown : clientIp <> "".

Lemma handleRequestWithBody_unparsable :
  forall st e st1,
    parseRequest P C req body (jsonHeader st) = (inl e, st1) ->
    handleRequestWithBody P C this req body st = (inl e, st1).
Proof.
  intros st e st1 Hp. unfold handleRequestWithBody. rewrite Hroute, Hmethod, Hip.
  apply String.eqb_neq in Hknown. rewrite Hknown.
  unfold bind at 1. cbn [setHeader modify_res String.eqb Ascii.eqb Bool.eqb negb].
  unfold bind at 1. fold (jsonHeader st) in *.
  unfold jsonHeader, setHeader, modify_res in Hp. cbn [snd] in Hp.
  rewrite Hp. reflexivity.
Qed.

Lemma handleRequestWithBody_parsed :
  forall st request st1,
    parseRequest P C req body (jsonHeader st) = (inr (Some request), st1) ->
    handleRequestWithBody P C this req body st =
      let hr := fst (hrtime P (host st1)) in
      let st2 := with_host (snd (hrtime P (host st1))) st1 in
      let ctx := newContext this clientIp request hr in
      let fname := str P (name request) in
      match member (functionTable (apiConfig this))
                   (functionTable_inherited (apiConfig this)) fname,
            member (fn (apiConfig this)) (fn_inherited (apiConfig this)) fname
      with
      | Some functionDescription, Some functionImplementation =>
          (reply <- runCall P C this ctx functionDescription functionImplementation ;;
           finishCall P this ctx reply) st2
      | _, _ =>
          writeReply P (Some ctx) (Fatal ("Function does not exist: " ++ fname)) st2
      end.
Proof.
  intros st request st1 Hp. unfold handleRequestWithBody. rewrite Hroute, Hmethod, Hip.
  apply String.eqb_neq in Hknown. rewrite Hknown.
  unfold bind at 1. cbn [setHeader modify_res String.eqb Ascii.eqb Bool.eqb negb].
  unfold bind at 1.
  unfold jsonHeader, setHeader, modify_res in Hp. cbn [snd] in Hp.
  rewrite Hp. unfold bind at 1. unfold on_host at 1. cbv zeta.
  destruct (member (functionTable (apiConfig this))
              (functionTable_inherited (apiConfig this)) (str P (name request)));
    destruct (member (fn (apiConfig this)) (fn_inherited (apiConfig this))
                (str P (name request))); reflexivity.
Qed.

End Dispatch.

(** What a reply written with its context leaves behind. *)
Lemma writeReply_context :
  forall (W E : Type) (P : Platform W) (ctx : Context E) (reply : ContextReply)
         (st : State W),
    let dt := hrtime_since P (hrStart ctx) (host st) in
    let duration := seconds (fst dt) in
    let now := now_toISOString P (snd dt) in
    let v := version (request ctx) in
    writeReply P (Some ctx) reply st =
      (inr tt,
       {| host := snd now;
          res :=
            if (v =? 1)%Z then
              {| statusCode := statusOf reply;
                 res_headers := res_headers (res st);
                 written := written (res st)
                            ++ [JSON_stringify P (responseV1 P ctx reply duration)];
                 ended := true |}
            else if (v =? 2)%Z then
              {| statusCode := statusCode (res st);
                 res_headers := res_headers (res st);
                 written := written (res st);
                 ended := true |}
            else if (v =? 3)%Z then
              {| statusCode := statusOf reply;
                 res_headers := res_headers (res st);
                 written := written (res st)
                            ++ [JSON_stringify P (responseV3 P reply duration)];
                 ended := true |}
            else res st;
          console := console st ++ [fst now ++ " " ++ accessLine P ctx reply duration] |}).
Proof.
  intros W E P ctx reply st dt duration now v. subst dt duration now v.
  unfold writeReply. monad_unfold. response_unfold. cbn [fst snd host res console with_host].
  destruct (version (request ctx) =? 1)%Z; [reflexivity|].
  destruct (version (request ctx) =? 2)%Z; [reflexivity|].
  destruct (version (request ctx) =? 3)%Z; reflexivity.
Qed.

(** C8 (amended). A request whose function name reads nothing in the
    function table or in the implementations, the name being neither an
    entry of the object nor a member the object inherits (on a plain
    object [toString], [constructor], [__proto__] and the like are
    inherited), is answered, with its context, by the Fatal reply
    "Function does not exist: <name>". For a V1 request the status is 500
    and the body carries [ok: false] and the error; for a V3 request the
    status is 500 and the body carries the error and no [ok] field; for a
    V2 request nothing is written and the status is left as it was. *)
Theorem unknown_function_reply :
  forall (W E : Type) (P : Platform W) (C : Codec) (this : SdkgenHttpServer W E)
         (req : IncomingMessage) (body clientIp : string)
         (st st1 : State W) (rq : ContextRequest),
    findBestHandler this (requestPath P this req) req = None ->
    req_method req = "POST" ->
    getClientIp P req = Some clientIp ->
    clientIp <> "" ->
    parseRequest P C req body (jsonHeader st) = (inr (Some rq), st1) ->
    let fname := str P (name rq) in
    (functionTable (apiConfig this) fname = None /\
     functionTable_inherited (apiConfig this) fname = None) \/
    (fn (apiConfig this) fname = None /\ fn_inherited (apiConfig this) fname = None) ->
    let st2 := with_host (snd (hrtime P (host st1))) st1 in
    let ctx := newContext this clientIp rq (fst (hrtime P (host st1))) in
    let reply := Fatal ("Function does not exist: " ++ fname) in
    let duration := seconds (fst (hrtime_since P (hrStart ctx) (host st2))) in
    let after := handleRequestWithBody P C this req body st in
    after = writeReply P (Some ctx) reply st2 /\
    (version rq = 1%Z ->
     statusCode (res (snd after)) = 500%Z /\
     written (res (snd after)) =
       (written (res st) ++ [JSON_stringify P (responseV1 P ctx reply duration)])%list /\
     body_field "ok" (responseV1 P ctx reply duration) = Some (VBool false) /\
     body_field "error" (responseV1 P ctx reply duration) =
       Some (VObj [("type", VStr "Fatal");
                   ("message", VStr ("Function does not exist: " ++ fname))])) /\
    (version rq = 3%Z ->
     statusCode (res (snd after)) = 500%Z /\
     written (res (snd after)) =
       (written (res st) ++ [JSON_stringify P (responseV3 P reply duration)])%list /\
     body_field "ok" (responseV3 P reply duration) = None /\
     body_field "error" (responseV3 P reply duration) =
       Some (VObj [("type", VStr "Fatal");
                   ("message", VStr ("Function does not exist: " ++ fname))])) /\
    (version rq = 2%Z ->
     statusCode (res (snd after)) = statusCode (res st) /\
     written (res (snd after)) = written (res st)).
Proof.
  intros W E P C this req body clientIp st st1 rq Hroute Hmethod Hip Hknown Hp
         fname Hmissing st2 ctx reply duration after.
  assert (Hres : res st2 = res (jsonHeader st)).
  { pose proof (parseRequest_host_only P C req body (jsonHeader st)) as [H _].
    rewrite Hp in H. exact H. }
  assert (Hafter : after = writeReply P (Some ctx) reply st2).
  { subst after.
    rewrite (handleRequestWithBody_parsed P C this req body Hroute Hmethod Hip Hknown st Hp).
    cbv zeta. fold fname. unfold member.
    destruct Hmissing as [[-> ->] | [-> ->]].
    - reflexivity.
    - destruct (functionTable (apiConfig this) fname);
        [|destruct (functionTable_inherited (apiConfig this) fname)]; reflexivity. }
  split; [exact Hafter|].
  rewrite Hafter. rewrite writeReply_context. cbn [snd res].
  change (version (request ctx)) with (version rq).
  fold duration. rewrite Hres.
  split; [|split]; intros ->; cbn [Z.eqb Pos.eqb]; repeat split; reflexivity.
Qed.

(** Witness: the sample V1 body naming the unknown function [nope]. *)
Lemma unknown_function_reply_witness :
  let body := Sample.show (Sample.request_v1 "nope" []) in
  let after := handleRequestWithBody Sample.platform ref_codec Sample.server
                 (Sample.post body) body Sample.start in
  statusCode (res (snd after)) = 500%Z /\
  written (res (snd after)) =
    [Sample.show
       (VObj [("id", VStr "r1"); ("ok", VBool false); ("deviceId", VStr "r1");
              ("duration", VNum Sample.elapsed); ("host", VStr "host-a");
              ("result", VNull);
              ("error", Sample.error_json "Fatal" "Function does not exist: nope")])].
Proof.
  cbv zeta.
  assert (Hknown : "10.0.0.7" <> "") by (intros H; discriminate H).
  pose proof (proj1 (proj2
    (@unknown_function_reply _ _ Sample.platform ref_codec Sample.server
       (Sample.post (Sample.show (Sample.request_v1 "nope" [])))
       (Sample.show (Sample.request_v1 "nope" [])) "10.0.0.7"
       Sample.start (jsonHeader Sample.start) (Sample.parsed_v1 "nope")
       eq_refl eq_refl eq_refl Hknown eq_refl (or_introl (conj eq_refl eq_refl))))
    eq_refl)
    as (Hstatus & Hwritten & _).
  split; [exact Hstatus|exact Hwritten].
Defined.

(** Counterexample to C8 as stated: for the sample V2 body naming the
    unknown function the status is 200 and nothing is written, and for the
    sample V3 body the body written has the error but no [ok] field. *)
Lemma unknown_function_v2_v3 :
  let v2 := handleRequest Sample.platform ref_codec Sample.server
              (Sample.post (Sample.show (Sample.request_v2 "nope"))) Sample.start in
  let v3 := handleRequest Sample.platform ref_codec Sample.server
              (Sample.post (Sample.show (Sample.request_v3 "nope" []))) Sample.start in
  (statusCode (res (snd v2)) = 200%Z /\ written (res (snd v2)) = []) /\
  (statusCode (res (snd v3)) = 500%Z /\
   written (res (snd v3)) =
     [Sample.show
        (VObj [("duration", VNum Sample.elapsed); ("host", VStr "host-a");
               ("result", VNull);
               ("error", Sample.error_json "Fatal" "Function does not exist: nope")])]).
Proof. cbv zeta. repeat split; vm_compute; reflexivity. Qed.

(* ----------------------------------------------------------------- *)
(** *** Hooks *)

(** C6. When [onRequestStart] answers with a reply, that reply is the
    outcome of the call: the state moves only through the hook, whatever
    the codec, the function description and the implementation are (none
    of them is run). When [onRequestEnd] answers with a reply, that reply is
    the one written; when its answer is empty the reply is written as it
    was. In the dispatch of a request both hold together: with a start
    hook that answers [r], the reply written is the end hook's answer for
    [r] when there is one, else [r]. *)
Theorem hooks_override :
  forall (W E : Type) (P : Platform W) (C : Codec) (this : SdkgenHttpServer W E),
    (forall ctx st r w',
       onRequestStart (apiConfig this) ctx (host st) = (inr (Some r), w') ->
       forall C' functionDescription functionImplementation,
         runCall P C' this ctx functionDescription functionImplementation st =
           (inr r, with_host w' st)) /\
    (forall ctx st reply r' w',
       onRequestEnd (apiConfig this) ctx reply (host st) = (inr (Some r'), w') ->
       finishCall P this ctx reply st = writeReply P (Some ctx) r' (with_host w' st)) /\
    (forall ctx st reply w',
       onRequestEnd (apiConfig this) ctx reply (host st) = (inr None, w') ->
       finishCall P this ctx reply st = writeReply P (Some ctx) reply (with_host w' st)) /\
    (forall req body clientIp st st1 rq functionDescription functionImplementation,
       findBestHandler this (requestPath P this req) req = None ->
       req_method req = "POST" ->
       getClientIp P req = Some clientIp ->
       clientIp <> "" ->
       parseRequest P C req body (jsonHeader st) = (inr (Some rq), st1) ->
       functionTable (apiConfig this) (str P (name rq)) = Some functionDescription ->
       fn (apiConfig this) (str P (name rq)) = Some functionImplementation ->
       let ctx := newContext this clientIp rq (fst (hrtime P (host st1))) in
       forall r w1 answer w2,
         onRequestStart (apiConfig this) ctx (snd (hrtime P (host st1))) = (inr (Some r), w1) ->
         onRequestEnd (apiConfig this) ctx r w1 = (inr answer, w2) ->
         handleRequestWithBody P C this req body st =
           writeReply P (Some ctx)
             (match answer with Some r' => r' | None => r end)
             (with_host w2 st1)).
Proof.
  intros W E P C this.
  assert (Hstart : forall ctx st r w',
            onRequestStart (apiConfig this) ctx (host st) = (inr (Some r), w') ->
            forall C' fd impl, runCall P C' this ctx fd impl st = (inr r, with_host w' st)).
  { intros ctx st r w' H C' fd impl.
    unfold runCall, try_catch, bind, call_host. rewrite H. reflexivity. }
  assert (Hend : forall ctx st reply answer w',
            onRequestEnd (apiConfig this) ctx reply (host st) = (inr answer, w') ->
            finishCall P this ctx reply st =
              writeReply P (Some ctx) (match answer with Some r' => r' | None => reply end)
                (with_host w' st)).
  { intros ctx st reply answer w' H.
    unfold finishCall, bind, call_host. rewrite H. reflexivity. }
  split; [exact Hstart|]. split; [|split].
  - intros ctx st reply r' w' H. exact (Hend ctx st reply (Some r') w' H).
  - intros ctx st reply w' H. exact (Hend ctx st reply None w' H).
  - intros req body clientIp st st1 rq fd impl Hroute Hmethod Hip Hknown Hp Hfd Himpl
           ctx r w1 answer w2 Hs He.
    rewrite (handleRequestWithBody_parsed P C this req body Hroute Hmethod Hip Hknown st Hp).
    cbv zeta. unfold member. rewrite Hfd, Himpl. fold ctx.
    unfold bind at 1.
    rewrite (Hstart ctx (with_host (snd (hrtime P (host st1))) st1) r w1 Hs).
    rewrite (Hend ctx (with_host w1 (with_host (snd (hrtime P (host st1))) st1))
               r answer w2 He).
    reflexivity.
Qed.

(** Witness: the sample server with a start hook that turns the call down
    and an end hook that hides errors; [ping] is not run and the reply
    written is the end hook's. *)
Lemma hooks_override_witness :
  let denying := Sample.server_with (Sample.config Sample.deny Sample.no_finish) in
  let hiding := Sample.server_with (Sample.config Sample.deny Sample.hide) in
  let body := Sample.show (Sample.request_v1 "ping" []) in
  runCall Sample.platform ref_codec denying (Sample.context_of 1)
    {| fd_args := Sample.anyType; fd_ret := Sample.anyType |}
    (fun _ _ w => (inr (VStr "pong"), w)) Sample.start
  = (inr (Sample.business "Denied" "not allowed"), Sample.start) /\
  handleRequestWithBody Sample.platform ref_codec hiding (Sample.post body) body Sample.start
  = writeReply Sample.platform
      (Some (newContext hiding "10.0.0.7" (Sample.parsed_v1 "ping") (0%float, 0%float)))
      (Sample.success (VStr "hidden")) (jsonHeader Sample.start).
Proof.
  cbv zeta.
  assert (Hknown : "10.0.0.7" <> "") by (intros H; discriminate H).
  split.
  - exact (proj1 (@hooks_override _ _ Sample.platform ref_codec
             (Sample.server_with (Sample.config Sample.deny Sample.no_finish)))
             (Sample.context_of 1) Sample.start _ _ eq_refl ref_codec _ _).
  - exact (proj2 (proj2 (proj2 (@hooks_override _ _ Sample.platform ref_codec
             (Sample.server_with (Sample.config Sample.deny Sample.hide)))))
             (Sample.post (Sample.show (Sample.request_v1 "ping" [])))
             (Sample.show (Sample.request_v1 "ping" [])) "10.0.0.7"
             Sample.start (jsonHeader Sample.start) (Sample.parsed_v1 "ping")
             {| fd_args := Sample.anyType; fd_ret := Sample.anyType |}
             (fun _ _ w => (inr (VStr "pong"), w))
             eq_refl eq_refl eq_refl Hknown eq_refl eq_refl eq_refl
             (Sample.business "Denied" "not allowed") 0%nat
             (Some (Sample.success (VStr "hidden"))) 0%nat eq_refl eq_refl).
Defined.

(* ----------------------------------------------------------------- *)
(** *** Bodies that do not parse *)

(** A reply written without context: status 500, a body with the error
    alone, nothing on the console. *)
Lemma writeReply_contextless :
  forall (W E : Type) (P : Platform W) (message : string) (st : State W),
    writeReply (ExtraContextT := E) P None (Fatal message) st =
      (inr tt,
       {| host := host st;
          res := {| statusCode := 500;
                    res_headers := res_headers (res st);
                    written := written (res st)
                               ++ [JSON_stringify P
                                     (VObj [("error",
                                             VObj [("type", VStr "Fatal");
                                                   ("message", VStr message)])])];
                    ended := true |};
          console := console st |}).
Proof. intros; reflexivity. Qed.

(** When the parser throws, the rejection handler of [handleRequest]
    writes the thrown error's string form; the branch of
    [handleRequestWithBody] that writes "Couldn't parse request" needs a
    parser that returns [null], and there is none
    ([parseRequest_returns_request]). *)
Lemma unparsable_body_caught :
  forall (W E : Type) (P : Platform W) (C : Codec) (this : SdkgenHttpServer W E)
         (req : IncomingMessage) (body clientIp : string) (st st1 : State W) (e : Exn),
    findBestHandler this (requestPath P this req) req = None ->
    req_method req = "POST" ->
    getClientIp P req = Some clientIp ->
    clientIp <> "" ->
    parseRequest P C req body (jsonHeader st) = (inl e, st1) ->
    try_catch (handleRequestWithBody P C this req body)
      (fun e => writeReply (ExtraContextT := E) P None (Fatal (exn_toString e))) st =
    writeReply (ExtraContextT := E) P None (Fatal (exn_toString e)) st1.
Proof.
  intros W E P C this req body clientIp st st1 e Hroute Hmethod Hip Hknown Hp.
  unfold try_catch.
  rewrite (handleRequestWithBody_unparsable P C this req body Hroute Hmethod Hip Hknown st Hp).
  reflexivity.
Qed.

(** C5. The sample server on a body that the normaliser cannot parse, the
    JSON object with version 4, and on a body that is not JSON: the reply
    is written without context, with status 500, a body that holds the
    error alone and no line on the console, but the message is the string
    form of the error thrown ("Error: Failed to understand request" for the
    unknown version, the parser's syntax error for the other) and not
    "Couldn't parse request". *)
Theorem unparsable_body_reply :
  let unknown := handleRequest Sample.platform ref_codec Sample.server
                   (Sample.post (Sample.show (VObj [("version", VNum 4)]))) Sample.start in
  let garbage := handleRequest Sample.platform ref_codec Sample.server
                   (Sample.post "not json") Sample.start in
  (statusCode (res (snd unknown)) = 500%Z /\
   written (res (snd unknown)) =
     [Sample.show
        (VObj [("error", Sample.error_json "Fatal" "Error: Failed to understand request")])] /\
   console (snd unknown) = []) /\
  (statusCode (res (snd garbage)) = 500%Z /\
   written (res (snd garbage)) =
     [Sample.show
        (VObj [("error",
                Sample.error_json "Fatal"
                  "SyntaxError: Unexpected token in JSON at position 0")])] /\
   console (snd garbage) = []).
Proof. cbv zeta. repeat split; vm_compute; reflexivity. Qed.

(* ----------------------------------------------------------------- *)
(** *** Results *)

(** The [result] field of a V1 body: the reply's result when it is truthy,
    [null] when it is falsy. *)
Lemma responseV1_result :
  forall (W E : Type) (P : Platform W) (ctx : Context E) (v : value) (duration : float),
    body_field "result" (responseV1 P ctx {| result := Some v; error := None |} duration) =
      Some (if truthy v then v else VNull) /\
    body_field "error" (responseV1 P ctx {| result := Some v; error := None |} duration) =
      Some VNull.
Proof. intros; split; reflexivity. Qed.

(** C9. The sample server on the V1 body that calls [flag], whose
    implementation returns [false] and whose encoded return value is
    [false]: the call succeeds with status 200 and [error: null], and the
    [result] field of the body written is [null], not [false]. *)
Theorem falsy_result_written_as_null :
  let after := handleRequest Sample.platform ref_codec Sample.server
                 (Sample.post (Sample.show (Sample.request_v1 "flag" []))) Sample.start in
  (exists implementation,
     Sample.implementations "flag" = Some implementation /\
     forall ctx a w, implementation ctx a w = (inr (VBool false), w)) /\
  encode ref_codec [] "flag.ret" Sample.anyType (VBool false) = inr (VBool false) /\
  statusCode (res (snd after)) = 200%Z /\
  written (res (snd after)) =
    [Sample.show
       (VObj [("id", VStr "r1"); ("ok", VBool true); ("deviceId", VStr "r1");
              ("duration", VNum Sample.elapsed); ("host", VStr "host-a");
              ("result", VNull); ("error", VNull)])].
Proof.
  cbv zeta. split; [|repeat split; vm_compute; reflexivity].
  eexists. split; [reflexivity|]. intros; reflexivity.
Qed.

(* ================================================================= *)
(** * Further properties of the server *)

(* ================================================================= *)
(** ** Routes: registration order, registration and the ignored prefix *)

Section SortingOrder.
Variable A : Type.
Variable compare : A -> A -> Z.

(** The element the sort puts first stands in the array after elements
    that all compare above it: of several least elements the first one
    leads. *)
Lemma sort_head_first :
  forall l best,
    hd_error (sort compare l) = Some best ->
    exists before after,
      l = (before ++ best :: after)%list /\
      forall x, In x before -> (compare x best > 0)%Z.
Proof.
  induction l as [|x r IH]; intros best Hbest; simpl in Hbest; [discriminate|].
  destruct (sort compare r) as [|h t] eqn:E; simpl in Hbest.
  - injection Hbest as <-.
    assert (r = []) by (destruct r; [reflexivity|]; simpl in E;
      destruct (sort compare r); simpl in E;
      [discriminate|destruct (compare a a0 <=? 0)%Z; discriminate]).
    subst r. exists [], []. split; [reflexivity|]. intros y [].
  - destruct (compare x h <=? 0)%Z eqn:Ec; simpl in Hbest; injection Hbest as <-.
    + exists [], r. split; [reflexivity|]. intros y [].
    + destruct (IH h eq_refl) as (before & after & -> & Hb).
      exists (x :: before), after. split; [reflexivity|].
      intros y [<-|Hy]; [apply Z.leb_gt in Ec; lia|auto].
Qed.

End SortingOrder.

(** The entry returned is below every candidate in the order of the
    comparator. *)
Lemma findBestHandler_least :
  forall (W E : Type) (this : SdkgenHttpServer W E) path req best,
    findBestHandler this path req = Some best ->
    In best (candidates this path req) /\
    forall other, In other (candidates this path req) ->
      (compareHandlers path best other <= 0)%Z.
Proof.
  intros W E this path req best H. unfold findBestHandler in H.
  apply sort_head_least in H;
    [exact H|apply compareHandlers_trans|apply compareHandlers_total].
Qed.

(** Among the candidates that rank the same, the one registered first is
    returned: every candidate registered before the returned entry is a
    pattern, and the returned entry is a string or a pattern whose match
    at the start of the path is a strictly longer text. *)
Theorem findBestHandler_first_registered :
  forall (W E : Type) (this : SdkgenHttpServer W E) (path : string)
         (req : IncomingMessage) (best : HandlerEntry W),
    findBestHandler this path req = Some best ->
    exists before after,
      candidates this path req = (before ++ best :: after)%list /\
      forall h, In h before ->
        match matcher h, matcher best with
        | MRegExp _, MString _ => True
        | MRegExp o, MRegExp b =>
            exists mo mb,
              exec o path = Some (0%nat, mo) /\ exec b path = Some (0%nat, mb) /\
              (String.length mo < String.length mb)%nat
        | MString _, _ => False
        end.
Proof.
  intros W E this path req best H. unfold findBestHandler in H.
  destruct (sort_head_first _ _ H) as (before & after & Heq & Hb).
  exists before, after. split; [exact Heq|].
  intros h Hh. specialize (Hb h Hh). unfold compareHandlers in Hb.
  assert (Hin : In h (candidates this path req))
    by (rewrite Heq; apply in_or_app; left; exact Hh).
  assert (Hbest : In best (candidates this path req))
    by (rewrite Heq; apply in_or_app; right; left; reflexivity).
  destruct (matcher h) as [sh|o] eqn:Eh, (matcher best) as [sb|b] eqn:Eb;
    try exact I; try lia.
  destruct (candidate_match _ _ _ _ Hin Eh) as [mo Hmo].
  destruct (candidate_match _ _ _ _ Hbest Eb) as [mb Hmb].
  rewrite (matchLength_exec _ _ Hmo), (matchLength_exec _ _ Hmb) in Hb.
  exists mo, mb. split; [exact Hmo|]. split; [exact Hmb|]. lia.
Qed.

(** Witness: on [GET /a/b/c] three patterns match at the start of the
    path. The two registered last match the same text, [/a/b], and the
    first registered of the two is returned; the only candidate before it
    is the pattern with the shorter match. *)
Lemma findBestHandler_first_registered_witness :
  exec (Sample.anchored "/a/b") "/a/b/c" = Some (0%nat, "/a/b") /\
  exec (Sample.containing "/a/b") "/a/b/c" = Some (0%nat, "/a/b") /\
  findBestHandler Demo.tied "/a/b/c" (Sample.get_ "/a/b/c") = Some Demo.first_long_route /\
  exists before after,
    candidates Demo.tied "/a/b/c" (Sample.get_ "/a/b/c")
      = (before ++ Demo.first_long_route :: after)%list /\
    before = [Demo.short_route] /\ after = [Demo.second_long_route] /\
    forall h, In h before ->
      exists mo mb,
        Demo.probe "/a/b/c" h = Some (0%nat, mo) /\
        exec (Sample.anchored "/a/b") "/a/b/c" = Some (0%nat, mb) /\
        (String.length mo < String.length mb)%nat.
Proof.
  split; [reflexivity|]. split; [reflexivity|]. split; [reflexivity|].
  destruct (@findBestHandler_first_registered _ _ Demo.tied "/a/b/c"
              (Sample.get_ "/a/b/c") Demo.first_long_route eq_refl)
    as (before & after & Heq & Hb).
  exists before, after. split; [exact Heq|].
  assert (Hc : candidates Demo.tied "/a/b/c" (Sample.get_ "/a/b/c")
               = [Demo.short_route; Demo.first_long_route; Demo.second_long_route])
    by reflexivity.
  rewrite Hc in Heq.
  assert (Hshape : before = [Demo.short_route] /\ after = [Demo.second_long_route]).
  { destruct before as [|x [|y [|z before]]]; simpl in Heq.
    - pose proof (f_equal (fun l => option_map (Demo.probe "/a") (hd_error l)) Heq) as H.
      discriminate H.
    - pose proof (f_equal (fun l => hd Demo.short_route l) Heq) as Hx.
      pose proof (f_equal (fun l => tl (tl l)) Heq) as Ha.
      simpl in Hx, Ha. rewrite <- Hx, <- Ha. split; reflexivity.
    - pose proof (f_equal (fun l => option_map (Demo.probe "x/a/b") (nth_error l 2)) Heq)
        as H.
      discriminate H.
    - pose proof (f_equal (fun l => List.length l) Heq) as H. simpl in H.
      rewrite length_app in H. simpl in H. lia. }
  destruct Hshape as [Hbefore Hafter].
  split; [exact Hbefore|]. split; [exact Hafter|].
  intros h Hh. specialize (Hb h Hh). rewrite Hbefore in Hh.
  destruct Hh as [<-|[]]. exact Hb.
Defined.

Lemma candidates_addHttpHandler :
  forall (W E : Type) (this : SdkgenHttpServer W E) method m h path req,
    candidates (addHttpHandler this method m h) path req =
      (candidates this path req ++
       (if (method =? req_method req) && matches path m
        then [Build_HandlerEntry method m h] else []))%list.
Proof.
  intros. unfold candidates, addHttpHandler. cbn [handlers].
  rewrite !filter_app. cbn [filter h_method matcher].
  destruct (method =? req_method req); cbn [filter andb matcher]; [|reflexivity].
  destruct (matches path m); reflexivity.
Qed.

(** A route registered with a string matcher is found again: resolving
    its path under its method returns an entry whose matcher is that very
    string, whatever patterns are registered; and when no entry had this
    method and string before, the entry returned is the new one. *)
Theorem addHttpHandler_literal_resolves :
  forall (W E : Type) (this : SdkgenHttpServer W E) (method path : string)
         (h : IncomingMessage -> string -> M W unit) (req : IncomingMessage),
    req_method req = method ->
    exists best,
      findBestHandler (addHttpHandler this method (MString path) h) path req = Some best /\
      matcher best = MString path /\
      ((forall e, In e (handlers this) ->
                  ~ (h_method e = method /\ matcher e = MString path)) ->
       best = Build_HandlerEntry method (MString path) h).
Proof.
  intros W E this method path h req Hm.
  set (new := Build_HandlerEntry method (MString path) h).
  assert (Hc : candidates (addHttpHandler this method (MString path) h) path req
               = (candidates this path req ++ [new])%list).
  { rewrite candidates_addHttpHandler. rewrite Hm, String.eqb_refl.
    cbn [matches andb]. rewrite String.eqb_refl. reflexivity. }
  destruct (findBestHandler (addHttpHandler this method (MString path) h) path req)
    as [best|] eqn:Hbest.
  - exists best. split; [reflexivity|].
    destruct (findBestHandler_least _ _ _ Hbest) as [Hin Hle].
    assert (Hnew : In new (candidates (addHttpHandler this method (MString path) h) path req))
      by (rewrite Hc; apply in_or_app; right; left; reflexivity).
    specialize (Hle new Hnew). unfold compareHandlers in Hle. cbn [matcher new] in Hle.
    assert (Hlit : matcher best = MString path).
    { destruct (matcher best) as [s|re] eqn:Eb; [|lia].
      unfold candidates in Hin. apply filter_In in Hin. destruct Hin as [_ Hmatch].
      rewrite Eb in Hmatch. cbn [matches] in Hmatch.
      apply String.eqb_eq in Hmatch. congruence. }
    split; [exact Hlit|].
    intros Hfresh. rewrite Hc in Hin. apply in_app_or in Hin.
    destruct Hin as [Hold|[<-|[]]]; [|reflexivity].
    exfalso. unfold candidates in Hold.
    apply filter_In in Hold. destruct Hold as [Hold _].
    apply filter_In in Hold. destruct Hold as [Hold Hmeth].
    apply String.eqb_eq in Hmeth.
    apply (Hfresh best Hold). split; [congruence|exact Hlit].
  - exfalso. unfold findBestHandler in Hbest.
    destruct (sort (compareHandlers path)
                (candidates (addHttpHandler this method (MString path) h) path req))
      as [|x l] eqn:Es; [|discriminate].
    apply sort_nil in Es. rewrite Hc in Es.
    destruct (candidates this path req); discriminate.
Qed.

(** Witness: a literal route added to the sample routes, which hold two
    patterns that match its path. *)
Lemma addHttpHandler_literal_resolves_witness :
  exists best,
    findBestHandler
      (addHttpHandler Sample.routed "GET" (MString "/targets/node/new.ts")
         (Sample.tagged "new"))
      "/targets/node/new.ts" (Sample.get_ "/targets/node/new.ts") = Some best /\
    matcher best = MString "/targets/node/new.ts".
Proof.
  destruct (@addHttpHandler_literal_resolves _ _ Sample.routed "GET" "/targets/node/new.ts"
              (Sample.tagged "new") (Sample.get_ "/targets/node/new.ts") eq_refl)
    as (best & Hbest & Hlit & _).
  exists best. split; [exact Hbest|exact Hlit].
Defined.

(* ----------------------------------------------------------------- *)
(** *** The ignored prefix *)

Lemma prefix_app : forall p s, String.prefix p (p ++ s) = true.
Proof.
  induction p as [|c p IH]; intros s; simpl; [destruct s; reflexivity|].
  destruct (ascii_dec c c) as [_|n]; [apply IH|contradiction].
Qed.

Lemma slice_app : forall p s, slice (String.length p) (p ++ s) = s.
Proof. induction p as [|c p IH]; intros s; simpl; [reflexivity|apply IH]. Qed.

(** The path routes are matched against is the URL's path without the
    ignored prefix: a route is resolved under the prefixed URL as it is
    under the bare path on the server without prefix; a path that does not
    start with the prefix is left as it is. *)
Theorem ignoreUrlPrefix_strips :
  forall (W E : Type) (P : Platform W) (this : SdkgenHttpServer W E)
         (req : IncomingMessage) (url urlPrefix path : string),
    req_url req = Some url ->
    parseUrl_pathname P url = Some path ->
    (forall rest,
       path = urlPrefix ++ rest ->
       requestPath P (ignoreUrlPrefix this urlPrefix) req = rest /\
       findBestHandler (ignoreUrlPrefix this urlPrefix)
         (requestPath P (ignoreUrlPrefix this urlPrefix) req) req
       = findBestHandler this rest req) /\
    (String.prefix urlPrefix path = false ->
     requestPath P (ignoreUrlPrefix this urlPrefix) req = path).
Proof.
  intros W E P this req url urlPrefix path Hurl Hpath.
  unfold requestPath. rewrite Hurl, Hpath. cbn [ignoredUrlPrefix ignoreUrlPrefix].
  split.
  - intros rest ->. rewrite prefix_app, slice_app. split; reflexivity.
  - intros ->. reflexivity.
Qed.

(** Witness: the sample routes behind the prefix [/api]. *)
Lemma ignoreUrlPrefix_strips_witness :
  requestPath Sample.platform (ignoreUrlPrefix Sample.routed "/api")
    (Sample.get_ "/api/targets/node/api.ts") = "/targets/node/api.ts" /\
  requestPath Sample.platform (ignoreUrlPrefix Sample.routed "/api")
    (Sample.get_ "/targets/node/api.ts") = "/targets/node/api.ts".
Proof.
  split.
  - exact (proj1 (proj1 (@ignoreUrlPrefix_strips _ _ Sample.platform Sample.routed
             (Sample.get_ "/api/targets/node/api.ts") _ "/api" _ eq_refl eq_refl)
             "/targets/node/api.ts" eq_refl)).
  - exact (proj2 (@ignoreUrlPrefix_strips _ _ Sample.platform Sample.routed
             (Sample.get_ "/targets/node/api.ts") _ "/api" _ eq_refl eq_refl) eq_refl).
Defined.

(* ================================================================= *)
(** ** The normaliser: generations, failures, state *)

(** C1 settles version 3; the other generations and the versions no
    parser takes. A body without [version] goes to the V2 parser when it
    has a [requestId] and to the V1 parser otherwise; a [version] that is
    the number 1 or 2 selects that parser, whatever other fields there
    are. *)
Theorem parseRequest_generation :
  forall (W : Type) (P : Platform W) (C : Codec) (req : IncomingMessage)
         (body : string) (props : list (string * value)) (st : State W),
    JSON_parse P body = inr (VObj props) ->
    (lookup "version" props = None -> has_key "requestId" props = false ->
     parseRequest P C req body st = (r <- parseRequestV1 P C req body ;; ret (Some r)) st) /\
    (lookup "version" props = None -> has_key "requestId" props = true ->
     parseRequest P C req body st = (r <- parseRequestV2 P C req body ;; ret (Some r)) st) /\
    (lookup "version" props = Some (VNum 1) ->
     parseRequest P C req body st = (r <- parseRequestV1 P C req body ;; ret (Some r)) st) /\
    (lookup "version" props = Some (VNum 2) ->
     parseRequest P C req body st = (r <- parseRequestV2 P C req body ;; ret (Some r)) st).
Proof.
  intros W P C req body props st Hparse.
  unfold parseRequest, identifyRequestVersion. monad_unfold. rewrite Hparse.
  cbn [has_in get]. unfold has_key, prop.
  repeat split.
  - intros Hv Hr. rewrite Hv in *. destruct (lookup "requestId" props); [discriminate|].
    reflexivity.
  - intros Hv Hr. rewrite Hv in *. destruct (lookup "requestId" props); [|discriminate].
    reflexivity.
  - intros ->. reflexivity.
  - intros ->. reflexivity.
Qed.

(** Witness: the minimal sample V1 and V2 bodies. *)
Lemma parseRequest_generation_witness :
  parseRequest Sample.platform ref_codec (Sample.post "")
    (Sample.show (Sample.request_v1 "ping" [])) Sample.start
  = (r <- parseRequestV1 Sample.platform ref_codec (Sample.post "")
            (Sample.show (Sample.request_v1 "ping" [])) ;; ret (Some r)) Sample.start /\
  parseRequest Sample.platform ref_codec (Sample.post "")
    (Sample.show (Sample.request_v2 "ping")) Sample.start
  = (r <- parseRequestV2 Sample.platform ref_codec (Sample.post "")
            (Sample.show (Sample.request_v2 "ping")) ;; ret (Some r)) Sample.start.
Proof.
  split.
  - exact (proj1 (@parseRequest_generation _ Sample.platform ref_codec (Sample.post "")
             (Sample.show (Sample.request_v1 "ping" []))
             [("id", VStr "r1"); ("name", VStr "ping"); ("args", VObj []);
              ("device", VObj [])]
             Sample.start eq_refl) eq_refl eq_refl).
  - exact (proj1 (proj2 (@parseRequest_generation _ Sample.platform ref_codec (Sample.post "")
             (Sample.show (Sample.request_v2 "ping"))
             [("requestId", VStr "r2"); ("deviceId", VStr "d2"); ("name", VStr "ping");
              ("args", VObj []);
              ("info", VObj [("type", VStr "web"); ("language", VStr "en")])]
             Sample.start eq_refl)) eq_refl eq_refl).
Defined.

(** A [version] field that is not the number 1, 2 or 3 (another number, or
    a version written as a string, a boolean, null, an object) makes the
    parser throw [Error("Failed to understand request")]; no parser runs
    and the state is left as it was. *)
Theorem parseRequest_unknown_version :
  forall (W : Type) (P : Platform W) (C : Codec) (req : IncomingMessage)
         (body : string) (props : list (string * value)) (v : value) (st : State W),
    JSON_parse P body = inr (VObj props) ->
    lookup "version" props = Some v ->
    match v with
    | VNum n => PrimFloat.eqb n 1 = false /\ PrimFloat.eqb n 2 = false /\
                PrimFloat.eqb n 3 = false
    | _ => True
    end ->
    parseRequest P C req body st = (inl (Error "Failed to understand request"), st).
Proof.
  intros W P C req body props v st Hparse Hv Hno.
  unfold parseRequest, identifyRequestVersion. monad_unfold. rewrite Hparse.
  cbn [has_in get]. unfold has_key, prop. rewrite Hv.
  destruct v; try reflexivity.
  destruct Hno as (H1 & H2 & H3). cbn [strict_eq_num]. rewrite H1, H2, H3. reflexivity.
Qed.

(** Witness: the sample body with version 4. *)
Lemma parseRequest_unknown_version_witness :
  parseRequest Sample.platform ref_codec (Sample.post "")
    (Sample.show (VObj [("version", VNum 4)])) Sample.start
  = (inl (Error "Failed to understand request"), Sample.start).
Proof.
  exact (@parseRequest_unknown_version _ Sample.platform ref_codec (Sample.post "")
           (Sample.show (VObj [("version", VNum 4)])) [("version", VNum 4)] (VNum 4)
           Sample.start eq_refl eq_refl (conj eq_refl (conj eq_refl eq_refl))).
Defined.

Section LeavesState.
Variable W : Type.

Lemma leaves_state_ret : forall A (a : A), leaves_state (ret (W := W) a).
Proof. intros A a s; reflexivity. Qed.

Lemma leaves_state_throw : forall A e, leaves_state (throw (W := W) (A := A) e).
Proof. intros A e s; reflexivity. Qed.

Lemma leaves_state_lift : forall A (r : Exn + A), leaves_state (lift (W := W) r).
Proof. intros A [e|a] s; reflexivity. Qed.

Lemma leaves_state_bind :
  forall A B (m : M W A) (k : A -> M W B),
    leaves_state m -> (forall a, leaves_state (k a)) -> leaves_state (bind m k).
Proof.
  intros A B m k Hm Hk s. unfold bind.
  specialize (Hm s). destruct (m s) as [[e|a] s1]; simpl in *; [exact Hm|].
  rewrite (Hk a s1). exact Hm.
Qed.

End LeavesState.

Ltac leaves_state_steps :=
  repeat first
    [ apply leaves_state_ret | apply leaves_state_throw | apply leaves_state_lift
    | apply leaves_state_bind; [|intros ?]
    | match goal with |- leaves_state (if ?b then _ else _) => destruct b end ].

(** Detecting the version and parsing a V1 or a V2 body never change the
    state: no entropy is drawn, nothing is written or logged, whether the
    parser returns or throws. *)
Theorem parsers_leave_state :
  forall (W : Type) (P : Platform W) (C : Codec) (req : IncomingMessage)
         (body : string) (st : State W),
    snd (identifyRequestVersion P req body st) = st /\
    snd (parseRequestV1 P C req body st) = st /\
    snd (parseRequestV2 P C req body st) = st.
Proof.
  intros W P C req body st. split; [|split].
  - revert st. change (leaves_state (identifyRequestVersion P req body)).
    unfold identifyRequestVersion. leaves_state_steps.
  - revert st. change (leaves_state (parseRequestV1 P C req body)).
    unfold parseRequestV1. leaves_state_steps.
  - revert st. change (leaves_state (parseRequestV2 P C req body)).
    unfold parseRequestV2. leaves_state_steps.
Qed.

(** A V3 body keeps the ids it gives. With a [requestId] and a device
    [id] that are not empty both are taken as they are and the state is
    left as it was; with only the [requestId] given, the device id is the
    hex of the first 16 bytes of the entropy source and nothing more is
    drawn. *)
Theorem parseRequestV3_given_ids :
  forall (W : Type) (P : Platform W) (C : Codec) (req : IncomingMessage)
         (body : string) (json : value) (props : list (string * value)) (st : State W),
    JSON_parse P body = inr json ->
    decode C V3_types "root" (TName "Request") json = inr (VObj props) ->
    truthy (prop "requestId" props) = true ->
    let dev := deviceFields (prop "deviceInfo" props) in
    let after := parseRequestV3 P C req body st in
    option_map id (returned after) = Some (prop "requestId" props) /\
    (truthy (prop "id" dev) = true ->
     option_map (fun r => dev_id (deviceInfo r)) (returned after) = Some (prop "id" dev) /\
     snd after = st) /\
    (truthy (prop "id" dev) = false ->
     option_map (fun r => dev_id (deviceInfo r)) (returned after) =
       Some (VStr (toHex (fst (randomBytes P 16 (host st))))) /\
     snd after = with_host (snd (randomBytes P 16 (host st))) st).
Proof.
  intros W P C req body json props st Hparse Hdec Hid dev after. subst after.
  rewrite (parseRequestV3_decoded P C req body Hparse st Hdec). cbv zeta. fold dev.
  assert (T1 : token_or P (prop "requestId" props) (host st)
               = (prop "requestId" props, host st))
    by (unfold token_or; rewrite Hid; reflexivity).
  rewrite !T1. unfold returned. cbn [fst snd option_map id deviceInfo dev_id].
  split; [reflexivity|].
  split; intros Hd; unfold token_or; rewrite Hd; cbn [fst snd].
  - split; [reflexivity|apply with_host_same].
  - split; reflexivity.
Qed.

(** Witness: the sample V3 body with a [requestId] and no device info. *)
Lemma parseRequestV3_given_ids_witness :
  let after := parseRequestV3 Sample.platform ref_codec (Sample.post "")
                 (Sample.show (Sample.request_v3 "ping"
                    [("requestId", VStr "abc"); ("deviceId", VStr "d2")]))
                 Sample.start in
  option_map id (returned after) = Some (VStr "abc") /\
  option_map (fun r => dev_id (deviceInfo r)) (returned after)
    = Some (VStr "000102030405060708090a0b0c0d0e0f") /\
  snd after = with_host 16%nat Sample.start.
Proof.
  cbv zeta.
  pose proof (@parseRequestV3_given_ids _ Sample.platform ref_codec (Sample.post "")
    (Sample.show (Sample.request_v3 "ping"
       [("requestId", VStr "abc"); ("deviceId", VStr "d2")]))
    (Sample.request_v3 "ping" [("requestId", VStr "abc"); ("deviceId", VStr "d2")])
    [("requestId", VStr "abc"); ("name", VStr "ping"); ("args", VObj []);
     ("extra", VNull); ("deviceInfo", VNull)]
    Sample.start eq_refl eq_refl eq_refl) as (Hid & _ & Hdev).
  split; [exact Hid|exact (Hdev eq_refl)].
Defined.

(** A parser fails with the error it was given: the syntax error of
    [JSON.parse] or the decoding error of the codec is thrown on as it is,
    and the state is left as it was. *)
Theorem parser_failures :
  forall (W : Type) (P : Platform W) (C : Codec) (req : IncomingMessage)
         (body : string) (st : State W) (e : Exn),
    (JSON_parse P body = inl e ->
     parseRequest P C req body st = (inl e, st)) /\
    (forall json,
       JSON_parse P body = inr json ->
       (decode C V1_types "root" (TName "Request") json = inl e ->
        parseRequestV1 P C req body st = (inl e, st)) /\
       (decode C V2_types "root" (TName "Request") json = inl e ->
        parseRequestV2 P C req body st = (inl e, st)) /\
       (decode C V3_types "root" (TName "Request") json = inl e ->
        parseRequestV3 P C req body st = (inl e, st))).
Proof.
  intros W P C req body st e. split.
  - intros H. unfold parseRequest, identifyRequestVersion. monad_unfold.
    rewrite H. reflexivity.
  - intros json Hj. repeat split; intros Hd.
    + unfold parseRequestV1. monad_unfold. rewrite Hj, Hd. reflexivity.
    + unfold parseRequestV2. monad_unfold. rewrite Hj, Hd. reflexivity.
    + unfold parseRequestV3. monad_unfold. rewrite Hj, Hd. reflexivity.
Qed.

(** Witness: a body that is not JSON, and a JSON object that the V1
    schema rejects for its missing [id]. *)
Lemma parser_failures_witness :
  parseRequest Sample.platform ref_codec (Sample.post "") "not json" Sample.start
  = (inl (SyntaxError "Unexpected token in JSON at position 0"), Sample.start) /\
  parseRequestV1 Sample.platform ref_codec (Sample.post "")
    (Sample.show (VObj [("version", VNum 4)])) Sample.start
  = (inl (Error "Invalid type at 'root.id', expected string"), Sample.start).
Proof.
  split.
  - exact (proj1 (@parser_failures _ Sample.platform ref_codec (Sample.post "")
             "not json" Sample.start _) eq_refl).
  - exact (proj1 (proj2 (@parser_failures _ Sample.platform ref_codec (Sample.post "")
             (Sample.show (VObj [("version", VNum 4)])) Sample.start _)
             (VObj [("version", VNum 4)]) eq_refl) eq_refl).
Defined.

(* ================================================================= *)
(** ** Headers *)

Lemma map_get_set_header_same :
  forall k v h, map_get k (set_header k v h) = Some v.
Proof.
  intros k v h; induction h as [|[k' v'] h IH]; unfold map_get in *; simpl.
  - rewrite String.eqb_refl. reflexivity.
  - destruct (k' =? k) eqn:E; simpl.
    + rewrite String.eqb_refl. reflexivity.
    + rewrite E. exact IH.
Qed.

Lemma map_get_set_header_other :
  forall k k' v h, k' <> k -> map_get k' (set_header k v h) = map_get k' h.
Proof.
  intros k k' v h Hne; induction h as [|[k0 v0] h IH]; unfold map_get in *; simpl.
  - apply String.eqb_neq in Hne. rewrite String.eqb_sym, Hne. reflexivity.
  - destruct (k0 =? k) eqn:E; simpl.
    + apply String.eqb_eq in E. subst k0.
      apply String.eqb_neq in Hne. rewrite String.eqb_sym, Hne. reflexivity.
    + destruct (k0 =? k'); [reflexivity|exact IH].
Qed.

Lemma set_header_keys :
  forall k v h x, In x (map fst (set_header k v h)) <-> x = k \/ In x (map fst h).
Proof.
  intros k v h x; induction h as [|[k0 v0] h IH]; simpl.
  - intuition.
  - destruct (k0 =? k) eqn:E; simpl.
    + apply String.eqb_eq in E. subst k0. intuition.
    + rewrite IH. intuition.
Qed.

Lemma set_header_NoDup :
  forall k v h, NoDup (map fst h) -> NoDup (map fst (set_header k v h)).
Proof.
  intros k v h; induction h as [|[k0 v0] h IH]; simpl; intros Hnd.
  - constructor; [intros []|constructor].
  - inversion Hnd as [|? ? Hnotin Hnd']; subst.
    destruct (k0 =? k) eqn:E; simpl.
    + apply String.eqb_eq in E. subst k0. constructor; assumption.
    + constructor; [|apply IH; exact Hnd'].
      intros Hin. apply set_header_keys in Hin. destruct Hin as [->|Hin].
      * rewrite String.eqb_refl in E. discriminate.
      * contradiction.
Qed.

(** [addHeader] as a table update. The value under the normalised name
    is the new value, or the old value, a comma and the new value when an
    old value was there and not empty; every other name keeps its value;
    names stay unique. Hence two additions under names that differ only in
    case or surrounding blanks end in one entry with both values, and an
    empty first value is dropped. *)
Theorem addHeader_accumulates :
  forall (W E : Type) (this : SdkgenHttpServer W E) (header value : string),
    let key := trim (toLowerCase header) in
    let table := cors_headers (addHeader this header value) in
    map_get key table =
      Some (match map_get key (cors_headers this) with
            | Some existing => if existing =? "" then value
                               else existing ++ ", " ++ value
            | None => value
            end) /\
    (forall k, k <> key -> map_get k table = map_get k (cors_headers this)) /\
    (NoDup (map fst (cors_headers this)) -> NoDup (map fst table)) /\
    handlers (addHeader this header value) = handlers this /\
    (forall header' value',
       trim (toLowerCase header') = key ->
       map_get key (cors_headers this) = None ->
       map_get key (cors_headers (addHeader (addHeader this header value) header' value')) =
         Some (if value =? "" then value' else value ++ ", " ++ value')).
Proof.
  intros W E this header value key table.
  assert (Hget : forall (t : SdkgenHttpServer W E) v,
            map_get key (cors_headers (addHeader t header v)) =
              Some (match map_get key (cors_headers t) with
                    | Some existing => if existing =? "" then v else existing ++ ", " ++ v
                    | None => v
                    end)).
  { intros t v. unfold addHeader. fold key.
    destruct (map_get key (cors_headers t)) as [ex|];
      [destruct (ex =? "")|]; cbn [cors_headers with_headers];
      apply map_get_set_header_same. }
  split; [apply Hget|]. split; [|split; [|split]].
  - intros k Hk. subst table. unfold addHeader. fold key.
    destruct (map_get key (cors_headers this)) as [ex|];
      [destruct (ex =? "")|]; cbn [cors_headers with_headers];
      apply map_get_set_header_other; exact Hk.
  - intros Hnd. subst table. unfold addHeader. fold key.
    destruct (map_get key (cors_headers this)) as [ex|];
      [destruct (ex =? "")|]; cbn [cors_headers with_headers];
      apply set_header_NoDup; exact Hnd.
  - unfold addHeader. fold key.
    destruct (map_get key (cors_headers this)) as [ex|];
      [destruct (ex =? "")|]; reflexivity.
  - intros header' value' Hkey Hnone.
    unfold addHeader at 1. rewrite Hkey. rewrite (Hget this value), Hnone.
    destruct (value =? ""); cbn [cors_headers with_headers];
      apply map_get_set_header_same.
Qed.

(** Witness: two additions under one name written in two ways. *)
Lemma addHeader_accumulates_witness :
  map_get "x-frame-options"
    (cors_headers (addHeader (addHeader Sample.server "X-Frame-Options" "DENY")
                     " x-frame-options " "SAMEORIGIN"))
  = Some "DENY, SAMEORIGIN".
Proof.
  exact (proj2 (proj2 (proj2 (proj2
    (@addHeader_accumulates _ _ Sample.server "X-Frame-Options" "DENY"))))
    " x-frame-options " "SAMEORIGIN" eq_refl eq_refl).
Defined.

(* ----------------------------------------------------------------- *)
(** *** The first steps of handleRequest *)

Lemma lower_ascii_idem : forall c, lower_ascii (lower_ascii c) = lower_ascii c.
Proof. intros [[] [] [] [] [] [] [] []]; reflexivity. Qed.

Lemma toLowerCase_idem : forall s, toLowerCase (toLowerCase s) = toLowerCase s.
Proof.
  induction s as [|c s IH]; simpl; [reflexivity|].
  rewrite lower_ascii_idem, IH. reflexivity.
Qed.

Lemma prefix_toLowerCase :
  forall p s, String.prefix p s = true ->
              String.prefix (toLowerCase p) (toLowerCase s) = true.
Proof.
  induction p as [|c p IH]; intros s H.
  - destruct s; reflexivity.
  - destruct s as [|d s]; [discriminate|]. simpl in *.
    destruct (ascii_dec c d) as [->|]; [|discriminate].
    destruct (ascii_dec (lower_ascii d) (lower_ascii d)); [auto|contradiction].
Qed.

Lemma bind_bind_run :
  forall W A (m1 m2 : M W unit) (k : M W A) st,
    fst (bind m1 (fun _ => m2) st) = inr tt ->
    bind m1 (fun _ => bind m2 (fun _ => k)) st = k (snd (bind m1 (fun _ => m2) st)).
Proof.
  intros W A m1 m2 k st. unfold bind.
  destruct (m1 st) as [[e|[]] s1]; simpl; [discriminate|].
  destruct (m2 s1) as [[e|[]] s2]; simpl; [discriminate|reflexivity].
Qed.

Section Prelude.
Variables W E : Type.
Variable this : SdkgenHttpServer W E.
Variable req : IncomingMessage.

(** Setting headers changes nothing but the headers. *)
Lemma setHeaders_frame :
  forall preflight hs (st : State W),
    let after := setHeaders preflight hs st in
    fst after = inr tt /\ host (snd after) = host st /\
    console (snd after) = console st /\
    statusCode (res (snd after)) = statusCode (res st) /\
    written (res (snd after)) = written (res st) /\
    ended (res (snd after)) = ended (res st).
Proof.
  intros preflight hs; induction hs as [|[k v] hs IH]; intros st; cbv zeta.
  - repeat split.
  - cbn [setHeaders]. unfold bind at 1.
    destruct (preflight && negb (String.prefix "access-control-" k)).
    + cbn [ret]. apply IH.
    + unfold setHeader at 1, modify_res at 1. cbv beta iota.
      match goal with |- context [setHeaders preflight hs ?s] =>
        destruct (IH s) as (H1 & H2 & H3 & H4 & H5 & H6) end.
      repeat split;
        first [exact H1|exact H2|exact H3|exact H4|exact H5|exact H6].
Qed.

Lemma setHeaders_untouched :
  forall preflight hs (st : State W) k,
    (forall k' v', In (k', v') hs ->
       preflight && negb (String.prefix "access-control-" k') = false ->
       toLowerCase k' <> k) ->
    map_get k (res_headers (res (snd (setHeaders preflight hs st)))) =
    map_get k (res_headers (res st)).
Proof.
  intros preflight hs; induction hs as [|[k0 v0] hs IH]; intros st k Hk.
  - reflexivity.
  - cbn [setHeaders]. unfold bind at 1.
    destruct (preflight && negb (String.prefix "access-control-" k0)) eqn:Eskip.
    + cbn [ret]. apply IH. intros k' v' Hin. apply (Hk k' v'). right. exact Hin.
    + unfold setHeader at 1, modify_res at 1. cbv beta iota.
      rewrite IH by (intros k' v' Hin; apply (Hk k' v'); right; exact Hin).
      cbn [res res_headers].
      apply map_get_set_header_other. intros ->.
      exact (Hk k0 v0 (or_introl eq_refl) Eskip eq_refl).
Qed.

Lemma setHeaders_applied :
  forall preflight hs (st : State W) k v,
    NoDup (map (fun e => toLowerCase (fst e)) hs) ->
    In (k, v) hs ->
    preflight && negb (String.prefix "access-control-" k) = false ->
    map_get (toLowerCase k) (res_headers (res (snd (setHeaders preflight hs st)))) = Some v.
Proof.
  intros preflight hs; induction hs as [|[k0 v0] hs IH]; intros st k v Hnd Hin Hkeep.
  - destruct Hin.
  - cbn [map fst] in Hnd. inversion Hnd as [|? ? Hnotin Hnd']; subst.
    cbn [setHeaders]. unfold bind at 1.
    destruct Hin as [Heq|Hin].
    + injection Heq as -> ->. rewrite Hkeep.
      unfold setHeader at 1, modify_res at 1. cbv beta iota.
      rewrite setHeaders_untouched.
      * cbn [res res_headers]. apply map_get_set_header_same.
      * intros k' v' Hin' _ Heq. apply Hnotin. rewrite <- Heq.
        apply (in_map (fun e => toLowerCase (fst e)) hs (k', v')). exact Hin'.
    + destruct (preflight && negb (String.prefix "access-control-" k0)).
      * cbn [ret]. apply IH; assumption.
      * unfold setHeader at 1, modify_res at 1. cbv beta iota. apply IH; assumption.
Qed.

(** The first steps return and change nothing but the headers. *)
Lemma corsPrelude_frame :
  forall st : State W,
    fst (corsPrelude this req st) = inr tt /\
    host (afterPrelude this req st) = host st /\
    console (afterPrelude this req st) = console st /\
    statusCode (res (afterPrelude this req st)) = statusCode (res st) /\
    written (res (afterPrelude this req st)) = written (res st) /\
    ended (res (afterPrelude this req st)) = ended (res st).
Proof.
  intros st. unfold afterPrelude, corsPrelude. unfold bind at 1.
  destruct (dynamicCorsOrigin this);
    [destruct (find (fun h => fst h =? "origin") (req_headers req)) as [[o origin]|];
     [destruct (origin =? "")|]|];
    cbn [ret];
    apply setHeaders_frame.
Qed.

(** [handleRequest] is its first steps followed by the rest. *)
Lemma handleRequest_steps :
  forall (P : Platform W) (C : Codec) (st : State W),
    handleRequest P C this req st =
      (if req_method req =? "OPTIONS" then
         setStatus 200 ;;; end_
       else
         try_catch (handleRequestWithBody P C this req (String.concat "" (req_chunks req)))
           (fun e => writeReply (ExtraContextT := E) P None (Fatal (exn_toString e))))
        (afterPrelude this req st).
Proof.
  intros P C st.
  pose proof (corsPrelude_frame st) as (Hret & _).
  unfold handleRequest, afterPrelude, corsPrelude in *.
  apply bind_bind_run. exact Hret.
Qed.

End Prelude.

(* ================================================================= *)
(** ** Requests that are not calls *)

Section NotRouted.
Variables W E : Type.
Variable P : Platform W.
Variable C : Codec.
Variable this : SdkgenHttpServer W E.
Variable req : IncomingMessage.
Variable body : string.

Hypothesis Hroute : findBestHandler this (requestPath P this req) req = None.

(** The response once the JSON content type is set, then closed with a
    status and maybe one more chunk. *)
Let closed (st : State W) (w : W) (code : Z) (chunks : list string) : State W :=
  {| host := w;
     res := {| statusCode := code;
               res_headers := set_header "content-type" "application/json; charset=utf-8"
                                (res_headers (res st));
               written := written (res st) ++ chunks;
               ended := true |};
     console := console st |}.

Lemma handleRequestWithBody_head :
  forall st, req_method req = "HEAD" ->
    handleRequestWithBody P C this req body st = (inr tt, closed st (host st) 200 []).
Proof.
  intros st Hm. unfold handleRequestWithBody. rewrite Hroute, Hm.
  unfold closed. rewrite app_nil_r. reflexivity.
Qed.

Lemma handleRequestWithBody_other :
  forall st,
    req_method req <> "HEAD" -> req_method req <> "GET" -> req_method req <> "POST" ->
    handleRequestWithBody P C this req body st = (inr tt, closed st (host st) 400 []).
Proof.
  intros st H1 H2 H3. unfold handleRequestWithBody. rewrite Hroute.
  apply String.eqb_neq in H1, H2, H3. rewrite H1, H2, H3.
  unfold closed. rewrite app_nil_r. reflexivity.
Qed.

Lemma handleRequestWithBody_get :
  forall st, req_method req = "GET" ->
    let answer := onHealthCheck (apiConfig this) (host st) in
    let ok := match fst answer with inr b => b | inl _ => false end in
    handleRequestWithBody P C this req body st =
      (inr tt, closed st (snd answer) (if ok then 200 else 500)
                 [JSON_stringify P (VObj [("ok", VBool ok)])]).
Proof.
  intros st Hm answer ok. subst answer ok.
  unfold handleRequestWithBody. rewrite Hroute, Hm.
  unfold bind at 1. cbn [setHeader modify_res String.eqb Ascii.eqb Bool.eqb].
  unfold bind at 1. unfold try_catch, call_host. cbn [host].
  destruct (onHealthCheck (apiConfig this) (host st)) as [[e|[]] w]; reflexivity.
Qed.

Lemma handleRequestWithBody_no_ip :
  forall st,
    req_method req = "POST" ->
    getClientIp P req = None \/ getClientIp P req = Some "" ->
    handleRequestWithBody P C this req body st =
      (inr tt, closed st (host st) 500
                 [JSON_stringify P
                    (VObj [("error",
                            VObj [("type", VStr "Fatal");
                                  ("message", VStr "Couldn't determine client IP")])])]).
Proof.
  intros st Hm Hip. unfold handleRequestWithBody. rewrite Hroute, Hm.
  destruct Hip as [-> | ->]; reflexivity.
Qed.

End NotRouted.

(** A request that no route takes and that is neither a GET nor a POST
    never reaches the hooks, the parser or the console, whatever its body:
    a HEAD is answered 200 and any other method 400, both with the JSON
    content type and without a body. *)
Theorem other_methods_reply :
  forall (W E : Type) (P : Platform W) (C : Codec) (this : SdkgenHttpServer W E)
         (req : IncomingMessage) (body : string) (st : State W),
    findBestHandler this (requestPath P this req) req = None ->
    req_method req <> "GET" ->
    req_method req <> "POST" ->
    let after := handleRequestWithBody P C this req body st in
    fst after = inr tt /\
    statusCode (res (snd after)) = (if req_method req =? "HEAD" then 200%Z else 400%Z) /\
    written (res (snd after)) = written (res st) /\
    ended (res (snd after)) = true /\
    map_get "content-type" (res_headers (res (snd after)))
      = Some "application/json; charset=utf-8" /\
    host (snd after) = host st /\
    console (snd after) = console st.
Proof.
  intros W E P C this req body st Hroute Hget Hpost after. subst after.
  destruct (req_method req =? "HEAD") eqn:Eh.
  - apply String.eqb_eq in Eh.
    rewrite (handleRequestWithBody_head P C this req body Hroute st Eh).
    cbn [fst snd res statusCode written ended res_headers host console].
    rewrite map_get_set_header_same, app_nil_r. repeat split.
  - apply String.eqb_neq in Eh.
    rewrite (handleRequestWithBody_other P C this req body Hroute st Eh Hget Hpost).
    cbn [fst snd res statusCode written ended res_headers host console].
    rewrite map_get_set_header_same, app_nil_r. repeat split.
Qed.

(** Witness: a PUT to the sample server. *)
Lemma other_methods_reply_witness :
  statusCode (res (snd (handleRequestWithBody Sample.platform ref_codec Sample.server
                          (Demo.request "PUT" "/" []) "{}" Sample.start))) = 400%Z.
Proof.
  assert (H1 : "PUT" <> "GET") by (intros H; discriminate H).
  assert (H2 : "PUT" <> "POST") by (intros H; discriminate H).
  exact (proj1 (proj2 (@other_methods_reply _ _ Sample.platform ref_codec Sample.server
           (Demo.request "PUT" "/" []) "{}" Sample.start eq_refl H1 H2))).
Defined.

(** The liveness probe: a GET that no route takes is answered from
    [onHealthCheck] alone. The status is 200 when the hook answers true and
    500 when it answers false or throws; the body is [{ok}] with that
    boolean; nothing is logged and the request body is not read. *)
Theorem health_check_reply :
  forall (W E : Type) (P : Platform W) (C : Codec) (this : SdkgenHttpServer W E)
         (req : IncomingMessage) (body : string) (st : State W),
    findBestHandler this (requestPath P this req) req = None ->
    req_method req = "GET" ->
    let answer := onHealthCheck (apiConfig this) (host st) in
    let ok := match fst answer with inr b => b | inl _ => false end in
    let after := handleRequestWithBody P C this req body st in
    fst after = inr tt /\
    statusCode (res (snd after)) = (if ok then 200 else 500)%Z /\
    written (res (snd after)) =
      (written (res st) ++ [JSON_stringify P (VObj [("ok", VBool ok)])])%list /\
    ended (res (snd after)) = true /\
    host (snd after) = snd answer /\
    console (snd after) = console st.
Proof.
  intros W E P C this req body st Hroute Hm answer ok after. subst after.
  rewrite (handleRequestWithBody_get P C this req body Hroute st Hm).
  repeat split.
Qed.

(** Witness: the sample server with a health check that throws. *)
Lemma health_check_reply_witness :
  let after := handleRequestWithBody Sample.platform ref_codec
                 (Sample.server_with Demo.unhealthy) (Demo.request "GET" "/" []) ""
                 Sample.start in
  statusCode (res (snd after)) = 500%Z /\
  written (res (snd after)) = [Sample.show (VObj [("ok", VBool false)])].
Proof.
  cbv zeta.
  pose proof (@health_check_reply _ _ Sample.platform ref_codec
                (Sample.server_with Demo.unhealthy) (Demo.request "GET" "/" []) ""
                Sample.start eq_refl eq_refl) as (_ & Hs & Hw & _).
  split; [exact Hs|exact Hw].
Defined.

(** A POST whose client address cannot be told (none, or an empty one) is
    answered without context by the Fatal error "Couldn't determine client
    IP" with status 500, whatever its body: the body is not parsed, no
    hook runs and nothing is logged. *)
Theorem unknown_client_reply :
  forall (W E : Type) (P : Platform W) (C : Codec) (this : SdkgenHttpServer W E)
         (req : IncomingMessage) (body : string) (st : State W),
    findBestHandler this (requestPath P this req) req = None ->
    req_method req = "POST" ->
    getClientIp P req = None \/ getClientIp P req = Some "" ->
    let after := handleRequestWithBody P C this req body st in
    fst after = inr tt /\
    statusCode (res (snd after)) = 500%Z /\
    written (res (snd after)) =
      (written (res st) ++
       [JSON_stringify P
          (VObj [("error", VObj [("type", VStr "Fatal");
                                 ("message", VStr "Couldn't determine client IP")])])])%list /\
    ended (res (snd after)) = true /\
    host (snd after) = host st /\
    console (snd after) = console st.
Proof.
  intros W E P C this req body st Hroute Hm Hip after. subst after.
  rewrite (handleRequestWithBody_no_ip P C this req body Hroute st Hm Hip).
  repeat split.
Qed.

(** Witness: a valid sample body sent through the platform that gives
    no client address. *)
Lemma unknown_client_reply_witness :
  let body := Sample.show (Sample.request_v1 "ping" []) in
  let after := handleRequestWithBody Demo.anonymous ref_codec Sample.server
                 (Sample.post body) body Sample.start in
  statusCode (res (snd after)) = 500%Z /\ console (snd after) = [].
Proof.
  cbv zeta.
  pose proof (@unknown_client_reply _ _ Demo.anonymous ref_codec Sample.server
                (Sample.post (Sample.show (Sample.request_v1 "ping" [])))
                (Sample.show (Sample.request_v1 "ping" []))
                Sample.start eq_refl eq_refl (or_introl eq_refl)) as (_ & Hs & _ & _ & _ & Hc).
  split; [exact Hs|exact Hc].
Defined.

(* ================================================================= *)
(** ** The call *)

(** The call never writes to the response or the console. *)
Lemma runCall_frame :
  forall (W E : Type) (P : Platform W) (C : Codec) (this : SdkgenHttpServer W E)
         (ctx : Context E) fd impl (st : State W),
    res (snd (runCall P C this ctx fd impl st)) = res st /\
    console (snd (runCall P C this ctx fd impl st)) = console st.
Proof.
  intros. unfold runCall, try_catch, bind, call_host, lift, ret, throw.
  cbn [host with_host].
  destruct (onRequestStart (apiConfig this) ctx (host st)) as [[e|[r|]] w1];
    cbn [fst snd host with_host]; try (split; reflexivity).
  destruct (decode C _ _ _ _) as [e|a]; cbn [fst snd host with_host];
    try (split; reflexivity).
  destruct (impl ctx a w1) as [[e|r] w2]; cbn [fst snd host with_host];
    try (split; reflexivity).
  destruct (encode C _ _ _ _) as [e|enc]; split; reflexivity.
Qed.

(** The outcomes of the call, stage by stage. An error object thrown by
    the start hook, the decoder, the function or the encoder becomes an
    error reply whose type is the error's own type when it has one (and it
    is not empty) and "Fatal" otherwise, and whose message is the error's
    message, or its string form when the message is empty. The function
    runs only after the arguments decoded, on the host state the start
    hook left; a result is the encoded return value. (What is thrown is
    an error object: a thrown [undefined] or [null] is not covered.) *)
Theorem runCall_outcomes :
  forall (W E : Type) (P : Platform W) (C : Codec) (this : SdkgenHttpServer W E)
         (ctx : Context E) (functionDescription : FunctionDescription)
         (functionImplementation : Context E -> value -> W -> (Exn + value) * W)
         (st : State W),
    let fname := str P (name (request ctx)) in
    let types := typeTable (apiConfig this) in
    let started := onRequestStart (apiConfig this) ctx (host st) in
    let decoded := decode C types (fname ++ ".args") (fd_args functionDescription)
                     (args (request ctx)) in
    let failed (e : Exn) : ContextReply :=
      {| result := None;
         error := Some {| err_type := match exn_type e with
                                      | Some t => if t =? "" then "Fatal" else t
                                      | None => "Fatal"
                                      end;
                          err_message := if exn_message e =? "" then exn_toString e
                                         else exn_message e |} |} in
    let after := runCall P C this ctx functionDescription functionImplementation st in
    (forall e, fst started = inl e ->
               after = (inr (failed e), with_host (snd started) st)) /\
    (fst started = inr None ->
     (forall e, decoded = inl e ->
                after = (inr (failed e), with_host (snd started) st)) /\
     (forall a, decoded = inr a ->
        let ran := functionImplementation ctx a (snd started) in
        (forall e, fst ran = inl e ->
                   after = (inr (failed e), with_host (snd ran) st)) /\
        (forall r, fst ran = inr r ->
           let encoded := encode C types (fname ++ ".ret") (fd_ret functionDescription) r in
           (forall e, encoded = inl e ->
                      after = (inr (failed e), with_host (snd ran) st)) /\
           (forall enc, encoded = inr enc ->
                        after = (inr {| result := Some enc; error := None |},
                                 with_host (snd ran) st))))).
Proof.
  intros W E P C this ctx fd impl st fname types started decoded failed after.
  subst after started decoded failed fname types.
  unfold runCall, try_catch, bind, call_host, lift, ret, throw.
  unfold exn_type_or_Fatal, exn_message_or_toString.
  cbn [host with_host].
  destruct (onRequestStart (apiConfig this) ctx (host st)) as [[e0|[r0|]] w1];
    cbn [fst snd host with_host].
  - split; [intros e H; injection H as <-; reflexivity|].
    intros H; discriminate H.
  - split; [intros e H; discriminate H|]. intros H; discriminate H.
  - destruct (decode C _ _ _ _) as [e1|a] eqn:Ed; cbn [fst snd host with_host].
    + split; [intros e H; discriminate H|]. intros _.
      split; [intros e H; injection H as <-; reflexivity|].
      intros a H; discriminate H.
    + destruct (impl ctx a w1) as [[e2|r] w2] eqn:Ei; cbn [fst snd host with_host].
      * split; [intros e H; discriminate H|]. intros _.
        split; [intros e H; discriminate H|].
        intros a' H; injection H as <-. rewrite Ei. cbn [fst snd].
        split; [intros e H; injection H as <-; reflexivity|].
        intros r H; discriminate H.
      * destruct (encode C _ _ _ _) as [e3|enc] eqn:Ee; cbn [fst snd host with_host].
        { split; [intros e H; discriminate H|]. intros _.
          split; [intros e H; discriminate H|].
          intros a' H; injection H as <-. rewrite Ei. cbn [fst snd].
          split; [intros e H; discriminate H|].
          intros r' H; injection H as <-. rewrite Ee.
          split; [intros e H; injection H as <-; reflexivity|].
          intros enc H; discriminate H. }
        { split; [intros e H; discriminate H|]. intros _.
          split; [intros e H; discriminate H|].
          intros a' H; injection H as <-. rewrite Ei. cbn [fst snd].
          split; [intros e H; discriminate H|].
          intros r' H; injection H as <-. rewrite Ee.
          split; [intros e H; discriminate H|].
          intros enc' H; injection H as <-. reflexivity. }
Qed.

(** Witness: a function that throws a business error of type
    "NotFound". *)
Lemma runCall_outcomes_witness :
  runCall Sample.platform ref_codec Sample.server (Sample.context_of 1)
    {| fd_args := Sample.anyType; fd_ret := Sample.anyType |} Demo.failing Sample.start
  = (inr (Sample.business "NotFound" "no such user"), with_host 1%nat Sample.start).
Proof.
  exact (proj1 (proj2 (proj2
    (@runCall_outcomes _ _ Sample.platform ref_codec Sample.server (Sample.context_of 1)
       {| fd_args := Sample.anyType; fd_ret := Sample.anyType |} Demo.failing Sample.start)
    eq_refl) (VObj []) eq_refl) Demo.notFound eq_refl).
Defined.

(** From the call to the response. Once the request is parsed and its
    function found, the reply written is the end hook's answer when it
    gives one and the call's reply otherwise, written with the context.
    For a V1 or V3 request the status is 200 without error, 500 for a
    "Fatal" error and 400 for any other; the body carries the error (or
    null) and, for a result that is truthy, the result itself. *)
Theorem call_reply_written :
  forall (W E : Type) (P : Platform W) (C : Codec) (this : SdkgenHttpServer W E)
         (req : IncomingMessage) (body clientIp : string) (st st1 st3 : State W)
         (rq : ContextRequest) (functionDescription : FunctionDescription)
         (functionImplementation : Context E -> value -> W -> (Exn + value) * W)
         (reply : ContextReply) (answer : option ContextReply) (w : W),
    findBestHandler this (requestPath P this req) req = None ->
    req_method req = "POST" ->
    getClientIp P req = Some clientIp ->
    clientIp <> "" ->
    parseRequest P C req body (jsonHeader st) = (inr (Some rq), st1) ->
    functionTable (apiConfig this) (str P (name rq)) = Some functionDescription ->
    fn (apiConfig this) (str P (name rq)) = Some functionImplementation ->
    let ctx := newContext this clientIp rq (fst (hrtime P (host st1))) in
    runCall P C this ctx functionDescription functionImplementation
      (with_host (snd (hrtime P (host st1))) st1) = (inr reply, st3) ->
    onRequestEnd (apiConfig this) ctx reply (host st3) = (inr answer, w) ->
    let final := match answer with Some r => r | None => reply end in
    let after := handleRequestWithBody P C this req body st in
    after = writeReply P (Some ctx) final (with_host w st3) /\
    (version rq = 1%Z \/ version rq = 3%Z ->
     statusCode (res (snd after)) =
       match error final with
       | Some e => if err_type e =? "Fatal" then 500%Z else 400%Z
       | None => 200%Z
       end /\
     exists response,
       written (res (snd after)) =
         (written (res st) ++ [JSON_stringify P response])%list /\
       body_field "error" response =
         Some (match error final with
               | Some e => VObj [("type", VStr (err_type e));
                                 ("message", VStr (err_message e))]
               | None => VNull
               end) /\
       (forall v, result final = Some v -> truthy v = true ->
                  body_field "result" response = Some v) /\
       (version rq = 1%Z ->
        body_field "ok" response =
          Some (VBool (match error final with Some _ => false | None => true end)))).
Proof.
  intros W E P C this req body clientIp st st1 st3 rq fd impl reply answer w
         Hroute Hmethod Hip Hknown Hp Hfd Himpl ctx Hrun Hend final after.
  assert (Hres1 : res st1 = res (jsonHeader st)).
  { pose proof (parseRequest_host_only P C req body (jsonHeader st)) as [H _].
    rewrite Hp in H. exact H. }
  assert (Hres3 : res st3 = res st1).
  { pose proof (runCall_frame P C this ctx fd impl
                  (with_host (snd (hrtime P (host st1))) st1)) as [H _].
    rewrite Hrun in H. exact H. }
  assert (Hafter : after = writeReply P (Some ctx) final (with_host w st3)).
  { subst after.
    rewrite (handleRequestWithBody_parsed P C this req body Hroute Hmethod Hip Hknown st Hp).
    cbv zeta. unfold member. rewrite Hfd, Himpl. fold ctx.
    unfold bind at 1. rewrite Hrun.
    unfold finishCall, bind, call_host. rewrite Hend. reflexivity. }
  split; [exact Hafter|].
  intros Hv. rewrite Hafter, writeReply_context. cbn [snd res with_host].
  change (version (request ctx)) with (version rq).
  rewrite Hres3, Hres1. unfold statusOf.
  destruct Hv as [Hv|Hv]; rewrite Hv; cbn [Z.eqb Pos.eqb statusCode written];
    (split; [reflexivity|]); eexists; (split; [reflexivity|]).
  - cbn [body_field responseV1 lookup String.eqb Ascii.eqb Bool.eqb].
    split; [unfold error_or_null, error_value; destruct (error final); reflexivity|].
    split; [|intros _; reflexivity].
    intros v Hr Ht. unfold result_or_null, or_else. rewrite Hr, Ht. reflexivity.
  - cbn [body_field responseV3 lookup String.eqb Ascii.eqb Bool.eqb].
    split; [unfold error_or_null, error_value; destruct (error final); reflexivity|].
    split; [|intros H; discriminate H].
    intros v Hr Ht. unfold result_or_null, or_else. rewrite Hr, Ht. reflexivity.
Qed.

(** Witness: the sample V1 call of [ping], answered "pong". *)
Lemma call_reply_written_witness :
  let body := Sample.show (Sample.request_v1 "ping" []) in
  let after := handleRequestWithBody Sample.platform ref_codec Sample.server
                 (Sample.post body) body Sample.start in
  statusCode (res (snd after)) = 200%Z /\
  written (res (snd after)) =
    [Sample.show
       (VObj [("id", VStr "r1"); ("ok", VBool true); ("deviceId", VStr "r1");
              ("duration", VNum Sample.elapsed); ("host", VStr "host-a");
              ("result", VStr "pong"); ("error", VNull)])].
Proof.
  cbv zeta.
  assert (Hknown : "10.0.0.7" <> "") by (intros H; discriminate H).
  pose proof (@call_reply_written _ _ Sample.platform ref_codec Sample.server
    (Sample.post (Sample.show (Sample.request_v1 "ping" [])))
    (Sample.show (Sample.request_v1 "ping" [])) "10.0.0.7"
    Sample.start (jsonHeader Sample.start) (jsonHeader Sample.start)
    (Sample.parsed_v1 "ping")
    {| fd_args := Sample.anyType; fd_ret := Sample.anyType |}
    (fun _ _ w => (inr (VStr "pong"), w))
    (Sample.success (VStr "pong")) None 0%nat
    eq_refl eq_refl eq_refl Hknown eq_refl eq_refl eq_refl eq_refl eq_refl) as [Heq Hv].
  destruct (Hv (or_introl eq_refl)) as [Hs _].
  split; [exact Hs|]. rewrite Heq. reflexivity.
Defined.

(* ================================================================= *)
(** ** What escapes the call *)

(** A body the parser rejects. Whatever the parser throws (the syntax
    error of a body that is not JSON, a decoding error, the error of an
    unknown version) is turned, by the rejection handler of
    [handleRequest], into a reply without context: status 500, one chunk
    with the Fatal error whose message is the string form of what was
    thrown, and no line on the console. *)
Theorem rejected_body_reply :
  forall (W E : Type) (P : Platform W) (C : Codec) (this : SdkgenHttpServer W E)
         (req : IncomingMessage) (clientIp : string) (st st1 : State W) (e : Exn),
    findBestHandler this (requestPath P this req) req = None ->
    req_method req = "POST" ->
    getClientIp P req = Some clientIp ->
    clientIp <> "" ->
    parseRequest P C req (String.concat "" (req_chunks req))
      (jsonHeader (afterPrelude this req st)) = (inl e, st1) ->
    let after := handleRequest P C this req st in
    fst after = inr tt /\
    statusCode (res (snd after)) = 500%Z /\
    written (res (snd after)) =
      (written (res st) ++
       [JSON_stringify P
          (VObj [("error", VObj [("type", VStr "Fatal");
                                 ("message", VStr (exn_toString e))])])])%list /\
    ended (res (snd after)) = true /\
    console (snd after) = console st /\
    host (snd after) = host st1.
Proof.
  intros W E P C this req clientIp st st1 e Hroute Hmethod Hip Hknown Hp after.
  subst after. rewrite handleRequest_steps. rewrite Hmethod.
  cbn [String.eqb Ascii.eqb Bool.eqb].
  rewrite (@unparsable_body_caught W E P C this req _ clientIp
             (afterPrelude this req st) st1 e Hroute Hmethod Hip Hknown Hp).
  rewrite writeReply_contextless. cbn [fst snd res statusCode written ended console host].
  pose proof (parseRequest_host_only P C req (String.concat "" (req_chunks req))
                (jsonHeader (afterPrelude this req st))) as [Hr Hc].
  rewrite Hp in Hr, Hc. cbn [snd] in Hr, Hc.
  destruct (corsPrelude_frame this req st) as (_ & _ & Hc0 & _ & Hw0 & _).
  rewrite Hr, Hc. cbn [jsonHeader setHeader modify_res snd res written console].
  rewrite Hw0, Hc0. repeat split.
Qed.

(** Witness: the sample server on a body that is not JSON. *)
Lemma rejected_body_reply_witness :
  let after := handleRequest Sample.platform ref_codec Sample.server
                 (Sample.post "not json") Sample.start in
  statusCode (res (snd after)) = 500%Z /\ console (snd after) = [].
Proof.
  cbv zeta.
  assert (Hknown : "10.0.0.7" <> "") by (intros H; discriminate H).
  pose proof (@rejected_body_reply _ _ Sample.platform ref_codec Sample.server
    (Sample.post "not json") "10.0.0.7" Sample.start
    (jsonHeader Sample.start)
    (SyntaxError "Unexpected token in JSON at position 0")
    eq_refl eq_refl eq_refl Hknown eq_refl) as (_ & Hs & _ & _ & Hc & _).
  split; [exact Hs|exact Hc].
Defined.

(** An end hook that throws. The reply the call produced is lost: the
    error escapes the dispatch and is written without context, so the
    status is 500 and the body carries the Fatal error with the string form
    of what the hook threw, for a V2 request too, and there is no
    access-log line. *)
Theorem end_hook_failure :
  forall (W E : Type) (P : Platform W) (C : Codec) (this : SdkgenHttpServer W E)
         (req : IncomingMessage) (clientIp : string) (st st1 st3 : State W)
         (rq : ContextRequest) (functionDescription : FunctionDescription)
         (functionImplementation : Context E -> value -> W -> (Exn + value) * W)
         (reply : ContextReply) (e : Exn) (w : W),
    findBestHandler this (requestPath P this req) req = None ->
    req_method req = "POST" ->
    getClientIp P req = Some clientIp ->
    clientIp <> "" ->
    parseRequest P C req (String.concat "" (req_chunks req))
      (jsonHeader (afterPrelude this req st)) = (inr (Some rq), st1) ->
    functionTable (apiConfig this) (str P (name rq)) = Some functionDescription ->
    fn (apiConfig this) (str P (name rq)) = Some functionImplementation ->
    let ctx := newContext this clientIp rq (fst (hrtime P (host st1))) in
    runCall P C this ctx functionDescription functionImplementation
      (with_host (snd (hrtime P (host st1))) st1) = (inr reply, st3) ->
    onRequestEnd (apiConfig this) ctx reply (host st3) = (inl e, w) ->
    let after := handleRequest P C this req st in
    fst after = inr tt /\
    statusCode (res (snd after)) = 500%Z /\
    written (res (snd after)) =
      (written (res st) ++
       [JSON_stringify P
          (VObj [("error", VObj [("type", VStr "Fatal");
                                 ("message", VStr (exn_toString e))])])])%list /\
    ended (res (snd after)) = true /\
    console (snd after) = console st /\
    host (snd after) = w.
Proof.
  intros W E P C this req clientIp st st1 st3 rq fd impl reply e w
         Hroute Hmethod Hip Hknown Hp Hfd Himpl ctx Hrun Hend after.
  assert (Heq : after = writeReply (ExtraContextT := E) P None (Fatal (exn_toString e))
                          (with_host w st3)).
  { subst after. rewrite handleRequest_steps. rewrite Hmethod.
    cbn [String.eqb Ascii.eqb Bool.eqb]. unfold try_catch.
    rewrite (handleRequestWithBody_parsed P C this req _ Hroute Hmethod Hip Hknown
               (afterPrelude this req st) Hp).
    cbv zeta. unfold member. rewrite Hfd, Himpl. fold ctx.
    unfold bind at 1. rewrite Hrun.
    unfold finishCall, bind, call_host. rewrite Hend. reflexivity. }
  rewrite Heq. clear Heq after.
  rewrite writeReply_contextless.
  cbn [fst snd res statusCode written ended console host with_host].
  pose proof (parseRequest_host_only P C req (String.concat "" (req_chunks req))
                (jsonHeader (afterPrelude this req st))) as [Hr Hc].
  rewrite Hp in Hr, Hc. cbn [snd] in Hr, Hc.
  pose proof (runCall_frame P C this ctx fd impl
                (with_host (snd (hrtime P (host st1))) st1)) as [Hr3 Hc3].
  rewrite Hrun in Hr3, Hc3. cbn [snd with_host res console] in Hr3, Hc3.
  destruct (corsPrelude_frame this req st) as (_ & _ & Hc0 & _ & Hw0 & _).
  rewrite Hr3, Hc3, Hr, Hc. cbn [jsonHeader setHeader modify_res snd res written console].
  rewrite Hw0, Hc0. repeat split.
Qed.

(** Witness: the sample V2 call of [ping] on a server whose end hook
    throws. *)
Lemma end_hook_failure_witness :
  let after := handleRequest Sample.platform ref_codec
                 (Sample.server_with (Sample.config Sample.no_start Demo.broken_finish))
                 (Sample.post (Sample.show (Sample.request_v2 "ping"))) Sample.start in
  statusCode (res (snd after)) = 500%Z /\
  written (res (snd after)) =
    [Sample.show (VObj [("error", Sample.error_json "Fatal" "Error: database is down")])].
Proof.
  cbv zeta.
  assert (Hknown : "10.0.0.7" <> "") by (intros H; discriminate H).
  pose proof (@end_hook_failure _ _ Sample.platform ref_codec
    (Sample.server_with (Sample.config Sample.no_start Demo.broken_finish))
    (Sample.post (Sample.show (Sample.request_v2 "ping"))) "10.0.0.7"
    Sample.start (jsonHeader Sample.start) (jsonHeader Sample.start)
    {| version := 2; id := VStr "r2"; args := VObj []; name := VStr "ping";
       extra := VObj [("sessionId", VNull); ("partnerId", VNull)]; headers := [];
       deviceInfo :=
         {| dev_id := VStr "d2"; dev_language := VStr "en";
            dev_platform := VObj [("browserUserAgent", VNull)];
            dev_timezone := VNull; dev_type := VStr "web"; dev_version := VStr "" |} |}
    {| fd_args := Sample.anyType; fd_ret := Sample.anyType |}
    (fun _ _ w => (inr (VStr "pong"), w))
    (Sample.success (VStr "pong")) Demo.down 0%nat
    eq_refl eq_refl eq_refl Hknown eq_refl eq_refl eq_refl eq_refl eq_refl)
    as (_ & Hs & Hw & _).
  split; [exact Hs|exact Hw].
Defined.

(* ================================================================= *)
(** ** CORS *)

Section CorsHeaders.
Variables W E : Type.
Variable this : SdkgenHttpServer W E.
Variable req : IncomingMessage.

Let preflight : bool := req_method req =? "OPTIONS".
Let skipped (k : string) : bool := preflight && negb (String.prefix "access-control-" k).

(** The headers after the first steps, read through what the echo of the
    origin leaves. *)
Lemma afterPrelude_headers :
  forall st : State W,
    exists echoed : Headers,
      res_headers (res (afterPrelude this req st)) =
        res_headers (res (snd (setHeaders preflight (cors_headers this)
                                 {| host := host st;
                                    res := {| statusCode := statusCode (res st);
                                              res_headers := echoed;
                                              written := written (res st);
                                              ended := ended (res st) |};
                                    console := console st |}))) /\
      (forall k, k <> "access-control-allow-origin" -> k <> "vary" ->
                 map_get k echoed = map_get k (res_headers (res st))) /\
      (forall o origin,
         dynamicCorsOrigin this = true ->
         find (fun h => fst h =? "origin") (req_headers req) = Some (o, origin) ->
         origin <> "" ->
         map_get "access-control-allow-origin" echoed = Some origin /\
         map_get "vary" echoed = Some "Origin") /\
      (dynamicCorsOrigin this = false -> echoed = res_headers (res st)).
Proof.
  intros st. unfold afterPrelude, corsPrelude. unfold bind at 1.
  destruct (dynamicCorsOrigin this) eqn:Ed;
    [destruct (find (fun h => fst h =? "origin") (req_headers req)) as [[o origin]|] eqn:Ef;
     [destruct (origin =? "") eqn:Eo|]|]; cbn [ret].
  - exists (res_headers (res st)). destruct st as [h [sc hd wr en] c]. cbn.
    split; [reflexivity|]. split; [intros; reflexivity|]. split; [|intros; reflexivity].
    intros o' origin' _ Hf Hne. injection Hf as _ <-.
    apply String.eqb_eq in Eo. contradiction.
  - exists (set_header "vary" "Origin"
              (set_header "access-control-allow-origin" origin (res_headers (res st)))).
    unfold bind at 1. unfold setHeader at 1 2, modify_res at 1 2. cbv beta iota.
    cbn [host res console statusCode res_headers written ended toLowerCase lower_ascii].
    split; [reflexivity|]. split; [|split].
    + intros k H1 H2. rewrite !map_get_set_header_other by assumption. reflexivity.
    + intros o' origin' _ Hf _. injection Hf as _ <-. split.
      * rewrite map_get_set_header_other by discriminate. apply map_get_set_header_same.
      * apply map_get_set_header_same.
    + discriminate.
  - exists (res_headers (res st)). destruct st as [h [sc hd wr en] c]. cbn.
    split; [reflexivity|]. split; [intros; reflexivity|]. split; [|intros; reflexivity].
    intros o' origin' _ Hf _. discriminate Hf.
  - exists (res_headers (res st)). destruct st as [h [sc hd wr en] c]. cbn.
    split; [reflexivity|]. split; [intros; reflexivity|]. split; [|intros; reflexivity].
    intros o' origin' Hd _ _. discriminate Hd.
Qed.

End CorsHeaders.

(** The CORS preflight. An OPTIONS request is answered 200 without a
    body and nothing else runs: no route, hook or parser, no line on the
    console. Of the headers it sets, only [vary] and names that start with
    [access-control-] can differ from what the response had; and when the
    server's header names are distinct, each of its [access-control-]
    headers is on the response with the server's value. *)
Theorem preflight_reply :
  forall (W E : Type) (P : Platform W) (C : Codec) (this : SdkgenHttpServer W E)
         (req : IncomingMessage) (st : State W),
    req_method req = "OPTIONS" ->
    let after := handleRequest P C this req st in
    fst after = inr tt /\
    statusCode (res (snd after)) = 200%Z /\
    written (res (snd after)) = written (res st) /\
    ended (res (snd after)) = true /\
    host (snd after) = host st /\
    console (snd after) = console st /\
    (forall k, String.prefix "access-control-" k = false -> k <> "vary" ->
               map_get k (res_headers (res (snd after))) =
               map_get k (res_headers (res st))) /\
    (NoDup (map (fun e => toLowerCase (fst e)) (cors_headers this)) ->
     forall k v, In (k, v) (cors_headers this) ->
                 String.prefix "access-control-" k = true ->
                 map_get (toLowerCase k) (res_headers (res (snd after))) = Some v).
Proof.
  intros W E P C this req st Hm after. subst after.
  rewrite handleRequest_steps, Hm. cbn [String.eqb Ascii.eqb Bool.eqb].
  unfold bind, setStatus, end_, modify_res.
  cbn [fst snd res statusCode written ended host console res_headers].
  destruct (corsPrelude_frame this req st) as (_ & Hh & Hc & _ & Hw & _).
  rewrite Hh, Hc, Hw.
  do 6 (split; [reflexivity|]).
  destruct (afterPrelude_headers this req st) as (echoed & -> & Hother & _).
  rewrite Hm. cbn [String.eqb Ascii.eqb Bool.eqb].
  split.
  - intros k Hk Hvary. rewrite setHeaders_untouched.
    + cbn [res res_headers]. apply Hother; [|exact Hvary].
      intros ->. discriminate Hk.
    + intros k' v' _ Hkeep Heq. cbn [andb] in Hkeep.
      apply Bool.negb_false_iff in Hkeep.
      apply prefix_toLowerCase in Hkeep.
      change (toLowerCase "access-control-") with "access-control-" in Hkeep.
      rewrite Heq, Hk in Hkeep. discriminate Hkeep.
  - intros Hnd k v Hin Hk. apply setHeaders_applied; [exact Hnd|exact Hin|].
    rewrite Hk. reflexivity.
Qed.

(** Witness: a preflight on the sample server built by the
    constructor. *)
Lemma preflight_reply_witness :
  let after := handleRequest Sample.platform ref_codec Demo.built
                 (Demo.request "OPTIONS" "/" [("origin", "https://app.example")])
                 Sample.start in
  statusCode (res (snd after)) = 200%Z /\
  written (res (snd after)) = [] /\
  map_get "content-type" (res_headers (res (snd after))) = None /\
  map_get "access-control-max-age" (res_headers (res (snd after))) = Some "86400".
Proof.
  cbv zeta.
  pose proof (@preflight_reply _ _ Sample.platform ref_codec Demo.built
    (Demo.request "OPTIONS" "/" [("origin", "https://app.example")])
    Sample.start eq_refl) as (_ & Hs & Hw & _ & _ & _ & Hother & Hset).
  split; [exact Hs|]. split; [exact Hw|]. split.
  - refine (Hother "content-type" eq_refl _). intros H; discriminate H.
  - refine (Hset _ "access-control-max-age" "86400" _ eq_refl).
    + repeat constructor; simpl; intuition discriminate.
    + simpl. auto.
Defined.

(** The headers every other response starts from. For a request that is
    not a preflight, when the server's header names are distinct, every
    header of the server is on the response, with the server's value,
    before routing starts; the request's origin is echoed as
    [access-control-allow-origin], with [vary: Origin], when the dynamic
    origin is on and the server has no header of that name (a server header
    of that name wins over the echo); with the dynamic origin off, a name
    that is none of the server's keeps what the response had. *)
Theorem server_headers_sent :
  forall (W E : Type) (P : Platform W) (C : Codec) (this : SdkgenHttpServer W E)
         (req : IncomingMessage) (st : State W),
    req_method req <> "OPTIONS" ->
    NoDup (map (fun e => toLowerCase (fst e)) (cors_headers this)) ->
    let sent := res_headers (res (afterPrelude this req st)) in
    handleRequest P C this req st =
      try_catch (handleRequestWithBody P C this req (String.concat "" (req_chunks req)))
        (fun e => writeReply (ExtraContextT := E) P None (Fatal (exn_toString e)))
        (afterPrelude this req st) /\
    (forall k v, In (k, v) (cors_headers this) -> map_get (toLowerCase k) sent = Some v) /\
    (forall o origin,
       dynamicCorsOrigin this = true ->
       find (fun h => fst h =? "origin") (req_headers req) = Some (o, origin) ->
       origin <> "" ->
       ((forall k v, In (k, v) (cors_headers this) ->
                     toLowerCase k <> "access-control-allow-origin") ->
        map_get "access-control-allow-origin" sent = Some origin) /\
       ((forall k v, In (k, v) (cors_headers this) -> toLowerCase k <> "vary") ->
        map_get "vary" sent = Some "Origin")) /\
    (dynamicCorsOrigin this = false ->
     forall k, (forall k' v, In (k', v) (cors_headers this) -> toLowerCase k' <> k) ->
               map_get k sent = map_get k (res_headers (res st))).
Proof.
  intros W E P C this req st Hm Hnd sent. subst sent.
  apply String.eqb_neq in Hm.
  split; [rewrite handleRequest_steps, Hm; reflexivity|].
  destruct (afterPrelude_headers this req st) as (echoed & -> & Hother & Hecho & Hoff).
  rewrite Hm. split; [|split].
  - intros k v Hin. apply setHeaders_applied; [exact Hnd|exact Hin|reflexivity].
  - intros o origin Hd Hf Ho. destruct (Hecho o origin Hd Hf Ho) as [Ha Hv].
    split; intros Hfree; rewrite setHeaders_untouched;
      try (intros k' v' Hin _; exact (Hfree k' v' Hin)).
    + exact Ha.
    + exact Hv.
  - intros Hd k Hfree. rewrite setHeaders_untouched.
    + cbn [res res_headers]. rewrite (Hoff Hd). reflexivity.
    + intros k' v' Hin _. exact (Hfree k' v' Hin).
Qed.

(** Witness: a GET with an origin on the sample server built by the
    constructor. *)
Lemma server_headers_sent_witness :
  let sent := res_headers (res (afterPrelude Demo.built
                (Demo.request "GET" "/" [("origin", "https://app.example")])
                Sample.start)) in
  map_get "access-control-allow-headers" sent = Some "Content-Type" /\
  map_get "access-control-allow-origin" sent = Some "https://app.example".
Proof.
  cbv zeta.
  assert (Hm : "GET" <> "OPTIONS") by (intros H; discriminate H).
  assert (Hnd : NoDup (map (fun e => toLowerCase (fst e)) (cors_headers Demo.built)))
    by (repeat constructor; simpl; intuition discriminate).
  pose proof (@server_headers_sent _ _ Sample.platform ref_codec Demo.built
    (Demo.request "GET" "/" [("origin", "https://app.example")])
    Sample.start Hm Hnd) as (_ & Hset & Hecho & _).
  split.
  - refine (Hset "access-control-allow-headers" "Content-Type" _). simpl. auto.
  - assert (Ho : "https://app.example" <> "") by (intros H; discriminate H).
    refine (proj1 (Hecho "origin" "https://app.example" eq_refl eq_refl Ho) _).
    intros k v Hin. simpl in Hin.
    destruct Hin as [H|[H|[H|[]]]]; injection H as <- _; intros H'; discriminate H'.
Defined.

(* ================================================================= *)
(** ** The artifact routes *)

Lemma new_SdkgenHttpServer_handlers :
  forall (W E : Type) (G : Generators) (cfg : BaseApiConfig W E) (x : E),
    handlers (new_SdkgenHttpServer G cfg x) =
      [ Build_HandlerEntry "GET" (MString "/targets/node/api.ts")
          (serveSource (generateNodeServerSource G));
        Build_HandlerEntry "GET" (MString "/targets/node/client.ts")
          (serveSource (generateNodeClientSource G));
        Build_HandlerEntry "GET" (MString "/targets/web/client.ts")
          (serveSource (generateBrowserClientSource G));
        Build_HandlerEntry "GET" (MString "/targets/flutter/client.dart")
          (serveSource (generateDartClientSource G)) ].
Proof. reflexivity. Qed.

Lemma serveSource_run :
  forall (W : Type) (source : Exn + string) req body (st : State W),
    serveSource source req body st =
      (inr tt,
       {| host := host st;
          res := {| statusCode := match source with
                                  | inr _ => statusCode (res st)
                                  | inl _ => 500%Z
                                  end;
                    res_headers := set_header "content-type" "application/octet-stream"
                                     (res_headers (res st));
                    written := written (res st)
                               ++ [match source with
                                   | inr text => text
                                   | inl e => exn_toString e
                                   end];
                    ended := true |};
          console := console st |}).
Proof. intros W [e|text] req body st; reflexivity. Qed.

(** A server out of the constructor serves the four generated sources.
    A GET whose path is one of the four artifact paths is answered by the
    generator of that path and by nothing else (no hook runs, the request
    body is not read): one access line "HTTP GET <path>" is logged, the
    content type is [application/octet-stream], and the response is the
    generated text with the status left as it was, or, when the generator
    throws, status 500 with the error's string form. Under any other
    method no path is routed. *)
Theorem artifact_route_reply :
  forall (W E : Type) (P : Platform W) (C : Codec) (G : Generators)
         (cfg : BaseApiConfig W E) (x : E) (req : IncomingMessage) (body : string)
         (st : State W),
    let this := new_SdkgenHttpServer G cfg x in
    (req_method req <> "GET" -> forall path, findBestHandler this path req = None) /\
    (forall path source,
       In (path, source)
          [("/targets/node/api.ts", generateNodeServerSource G);
           ("/targets/node/client.ts", generateNodeClientSource G);
           ("/targets/web/client.ts", generateBrowserClientSource G);
           ("/targets/flutter/client.dart", generateDartClientSource G)] ->
       req_method req = "GET" ->
       requestPath P this req = path ->
       let after := handleRequestWithBody P C this req body st in
       fst after = inr tt /\
       ended (res (snd after)) = true /\
       map_get "content-type" (res_headers (res (snd after)))
         = Some "application/octet-stream" /\
       console (snd after) =
         (console st ++
          [(fst (now_toISOString P (host st)) ++ " HTTP GET " ++ path)%string])%list /\
       host (snd after) = snd (now_toISOString P (host st)) /\
       match source with
       | inr text =>
           statusCode (res (snd after)) = statusCode (res st) /\
           written (res (snd after)) = (written (res st) ++ [text])%list
       | inl e =>
           statusCode (res (snd after)) = 500%Z /\
           written (res (snd after)) = (written (res st) ++ [exn_toString e])%list
       end).
Proof.
  intros W E P C G cfg x req body st this. split.
  - intros Hm path. unfold findBestHandler, candidates.
    subst this. rewrite new_SdkgenHttpServer_handlers.
    apply String.eqb_neq in Hm. rewrite String.eqb_sym in Hm.
    cbn [filter h_method]. rewrite Hm. reflexivity.
  - intros path source Hin Hm Hpath after. subst after.
    unfold handleRequestWithBody. rewrite Hpath.
    unfold findBestHandler, candidates.
    subst this. rewrite new_SdkgenHttpServer_handlers.
    cbn [filter h_method]. rewrite Hm.
    destruct Hin as [H|[H|[H|[H|[]]]]]; injection H as <- <-;
      cbn; unfold bind, log, on_host, console_log;
      rewrite serveSource_run; cbn;
      rewrite map_get_set_header_same;
      (do 5 (split; [reflexivity|])); destruct (_ G); split; reflexivity.
Qed.

(** Witness: the Node client and the failing Dart client of the sample
    generators. *)
Lemma artifact_route_reply_witness :
  let node := handleRequestWithBody Sample.platform ref_codec Demo.built
                (Demo.request "GET" "/targets/node/client.ts" []) "" Sample.start in
  let dart := handleRequestWithBody Sample.platform ref_codec Demo.built
                (Demo.request "GET" "/targets/flutter/client.dart" []) "" Sample.start in
  (statusCode (res (snd node)) = 200%Z /\ written (res (snd node)) = ["// node client"]) /\
  (statusCode (res (snd dart)) = 500%Z /\
   written (res (snd dart)) = ["Error: cannot generate"]).
Proof.
  cbv zeta.
  pose proof (proj2 (@artifact_route_reply _ _ Sample.platform ref_codec Demo.generators
    (Sample.config Sample.no_start Sample.no_finish) tt
    (Demo.request "GET" "/targets/node/client.ts" []) "" Sample.start)
    "/targets/node/client.ts" (inr "// node client")
    (or_intror (or_introl eq_refl)) eq_refl eq_refl) as (_ & _ & _ & _ & _ & Hnode).
  pose proof (proj2 (@artifact_route_reply _ _ Sample.platform ref_codec Demo.generators
    (Sample.config Sample.no_start Sample.no_finish) tt
    (Demo.request "GET" "/targets/flutter/client.dart" []) "" Sample.start)
    "/targets/flutter/client.dart" (inl (Error "cannot generate"))
    (or_intror (or_intror (or_intror (or_introl eq_refl)))) eq_refl eq_refl)
    as (_ & _ & _ & _ & _ & Hdart).
  split; [exact Hnode|exact Hdart].
Defined.

(* ================================================================= *)
(** ** Function names the tables inherit *)

(** A function name that is no entry of the function table and no entry
    of the implementations, but that both objects inherit (on plain
    objects [toString], [constructor], [__proto__] and the like), is not
    answered by "Function does not exist": both reads find the inherited
    member, and the request is dispatched as a call of it, whose reply
    goes through the end hook to the response. *)
Theorem inherited_member_called :
  forall (W E : Type) (P : Platform W) (C : Codec) (this : SdkgenHttpServer W E)
         (req : IncomingMessage) (body clientIp : string) (st st1 : State W)
         (rq : ContextRequest) (functionDescription : FunctionDescription)
         (functionImplementation : Context E -> value -> W -> (Exn + value) * W),
    findBestHandler this (requestPath P this req) req = None ->
    req_method req = "POST" ->
    getClientIp P req = Some clientIp ->
    clientIp <> "" ->
    parseRequest P C req body (jsonHeader st) = (inr (Some rq), st1) ->
    let fname := str P (name rq) in
    functionTable (apiConfig this) fname = None ->
    functionTable_inherited (apiConfig this) fname = Some functionDescription ->
    fn (apiConfig this) fname = None ->
    fn_inherited (apiConfig this) fname = Some functionImplementation ->
    let ctx := newContext this clientIp rq (fst (hrtime P (host st1))) in
    let st2 := with_host (snd (hrtime P (host st1))) st1 in
    handleRequestWithBody P C this req body st =
      (reply <- runCall P C this ctx functionDescription functionImplementation ;;
       finishCall P this ctx reply) st2.
Proof.
  intros W E P C this req body clientIp st st1 rq fd impl
         Hroute Hmethod Hip Hknown Hp fname Hown Hfd Hown' Himpl ctx st2.
  rewrite (handleRequestWithBody_parsed P C this req body Hroute Hmethod Hip Hknown st Hp).
  cbv zeta. fold fname. unfold member. rewrite Hown, Hfd, Hown', Himpl. reflexivity.
Qed.

(** Witness: the sample V1 body naming [toString]. The tables of the
    sample are plain objects, the call is made with the inherited member,
    and the reply is the reference codec's error for the member's missing
    [args] type. *)
Lemma inherited_member_called_witness :
  let body := Sample.show (Sample.request_v1 "toString" []) in
  let after := handleRequestWithBody Sample.platform ref_codec Sample.server
                 (Sample.post body) body Sample.start in
  statusCode (res (snd after)) = 500%Z /\
  written (res (snd after)) =
    [Sample.show
       (VObj [("id", VStr "r1"); ("ok", VBool false); ("deviceId", VStr "r1");
              ("duration", VNum Sample.elapsed); ("host", VStr "host-a");
              ("result", VNull);
              ("error", Sample.error_json "Fatal"
                          "Unknown type 'undefined' at 'toString.args'")])].
Proof.
  cbv zeta.
  assert (Hknown : "10.0.0.7" <> "") by (intros H; discriminate H).
  rewrite (@inherited_member_called _ _ Sample.platform ref_codec Sample.server
             (Sample.post (Sample.show (Sample.request_v1 "toString" [])))
             (Sample.show (Sample.request_v1 "toString" [])) "10.0.0.7"
             Sample.start (jsonHeader Sample.start) (Sample.parsed_v1 "toString")
             {| fd_args := TUndefined; fd_ret := TUndefined |}
             (fun _ _ w => (inr (VStr "[object Undefined]"), w))
             eq_refl eq_refl eq_refl Hknown eq_refl eq_refl eq_refl eq_refl eq_refl).
  split; reflexivity.
Defined.
